(** * neko.ai backend: provider router, job engine and versioned slide store

    A shallow embedding of the three core subsystems of the backend
    ([app/ai], [app/services/job_service.py], [db/crud.py] with the
    session and slide services on top of it), followed by the properties
    proved about them.

    Conventions of the embedding.
    - Python [int] is [Z]; [len(l)] is [Z.of_nat (length l)].
    - Python [str] is [string]; [Optional[str]] is [option string].
    - A Python [dict] keyed by strings is a [gmap string _].
    - An [async def] is modelled by its sequential effect on the state it
      touches: the state is passed in and returned.
    - What a function reads from outside the process (the wall clock, a
      fresh UUID, the reply of an HTTP endpoint, the text produced by a
      language model) is an explicit argument. *)

From stdpp Require Import gmap strings list pretty.
From Stdlib Require Import Strings.Ascii.

Local Open Scope Z_scope.

(* ===================================================================== *)
(** * Python built-ins used by the code *)
(* ===================================================================== *)

Module Py.

(** The exceptions the code raises or catches. All are subclasses of
    [Exception]; the cancellation of a running coroutine
    ([asyncio.CancelledError], a [BaseException]) is not among them and is
    modelled where the code handles it, in the job engine. *)
Inductive Exn :=
| Exception (msg : string)        (* any subclass of [Exception]; [msg] is [str(e)] *)
| ValueError (msg : string)
| IndexError (msg : string)
| MultipleResultsFound.           (* SQLAlchemy, from [scalar_one_or_none] *)

(** [str(e)]. *)
Definition str_of_exn (e : Exn) : string :=
  match e with
  | Exception m | ValueError m | IndexError m => m
  | MultipleResultsFound => "Multiple rows were found when one or none was required"
  end.

(** Outcome of a call that may raise: either the returned value or the
    exception that left the call. *)
Inductive result (A : Type) :=
| Ok (a : A)
| Raise (e : Exn).
Arguments Ok {A} a.
Arguments Raise {A} e.

Definition bind {A B} (m : result A) (k : A -> result B) : result B :=
  match m with
  | Ok a => k a
  | Raise e => Raise e
  end.

(** [l[i]] with Python's negative indices and [IndexError]. *)
Definition getitem {A} (l : list A) (i : Z) : result A :=
  let n := Z.of_nat (length l) in
  let j := if i <? 0 then i + n else i in
  if (j <? 0) || (n <=? j) then Raise (IndexError "list index out of range")
  else match l !! Z.to_nat j with
       | Some a => Ok a
       | None => Raise (IndexError "list index out of range")
       end.

(** The f-string rendering of an [Optional[str]]. *)
Definition fmt_opt (o : option string) : string :=
  match o with
  | Some s => s
  | None => "None"
  end.

(** The newline character. *)
Definition nl : string := String (Ascii.ascii_of_nat 10) "".

(** ** [str] methods *)

Definition chars (s : string) : list Ascii.ascii := String.list_ascii_of_string s.
Definition of_chars (l : list Ascii.ascii) : string := String.string_of_list_ascii l.

(** [str.isspace] on one character (code points below 256): TAB, LF, VT,
    FF, CR, the separators FS, GS, RS, US, the space, NEL and NBSP. *)
Definition isspace (c : Ascii.ascii) : bool :=
  let n := Ascii.nat_of_ascii c in
  ((9 <=? n)%nat && (n <=? 13)%nat) || ((28 <=? n)%nat && (n <=? 32)%nat)
  || (n =? 133)%nat || (n =? 160)%nat.

Fixpoint lstrip_chars (l : list Ascii.ascii) : list Ascii.ascii :=
  match l with
  | c :: l' => if isspace c then lstrip_chars l' else l
  | [] => []
  end.

Definition rstrip_chars (l : list Ascii.ascii) : list Ascii.ascii :=
  rev (lstrip_chars (rev l)).

(** [s.strip()] *)
Definition strip (s : string) : string :=
  of_chars (rstrip_chars (lstrip_chars (chars s))).

Fixpoint prefix_chars (p l : list Ascii.ascii) : bool :=
  match p, l with
  | [], _ => true
  | a :: p', b :: l' => if decide (a = b) then prefix_chars p' l' else false
  | _ :: _, [] => false
  end.

(** [s.startswith(p)] *)
Definition startswith (s p : string) : bool := prefix_chars (chars p) (chars s).

(** [s.endswith(p)] *)
Definition endswith (s p : string) : bool :=
  prefix_chars (rev (chars p)) (rev (chars s)).

(** [s[n:]] for a literal [n >= 0] *)
Definition slice_from (n : nat) (s : string) : string := of_chars (drop n (chars s)).

(** [s[:-n]] for a literal [n > 0] *)
Definition slice_to_neg (n : nat) (s : string) : string :=
  of_chars (take (length (chars s) - n)%nat (chars s)).



End Py.

(* ===================================================================== *)
(** * app/ai/providers/base_provider.py *)
(* ===================================================================== *)

Module base_provider.

Inductive ProviderStatus := AVAILABLE | RATE_LIMITED | ERROR | UNAVAILABLE.

Global Instance ProviderStatus_eq_dec : EqDecision ProviderStatus.
Proof. solve_decision. Defined.

(** [@dataclass ProviderResponse] *)
Record ProviderResponse := {
  success : bool;
  content : string;
  provider_name : string;
  model : string;
  tokens_used : option Z;
  error : option string;
}.

(** The arguments of [generate_text]. The sampling temperature is a float
    that the code only forwards to the HTTP payload; it is carried as the
    decimal text of the literal. *)
Record TextRequest := {
  prompt : string;
  system_prompt : option string;
  temperature : string;
  max_tokens : Z;
}.

(** The arguments of [generate_json]. *)
Record JsonRequest := {
  j_prompt : string;
  j_system_prompt : option string;
  j_temperature : string;
}.

(** The mutable part of a provider object: [_status] and [_last_error]. *)
Record ProviderState := {
  _status : ProviderStatus;
  _last_error : option string;
}.

(** [BaseLLMProvider]: the abstract interface. The two abstract methods are
    fields; a method receives the object's mutable state and returns what
    the call produced (a response, or the exception that left it) with the
    state it leaves behind. *)
Record BaseLLMProvider := {
  name : string;
  model_name : string;
  api_key : option string;
  state : ProviderState;
  generate_text : TextRequest -> ProviderState -> Py.result ProviderResponse * ProviderState;
  generate_json : JsonRequest -> ProviderState -> Py.result ProviderResponse * ProviderState;
}.

(** property [status] *)
Definition status (p : BaseLLMProvider) : ProviderStatus := _status (state p).

(** property [is_available] *)
Definition is_available (st : ProviderState) : bool :=
  bool_decide (_status st = AVAILABLE).

Definition mark_rate_limited (error_message : string) (st : ProviderState) : ProviderState :=
  {| _status := RATE_LIMITED; _last_error := Some error_message |}.

Definition mark_error (error_message : string) (st : ProviderState) : ProviderState :=
  {| _status := ERROR; _last_error := Some error_message |}.

Definition mark_available (st : ProviderState) : ProviderState :=
  {| _status := AVAILABLE; _last_error := None |}.

Definition get_error (st : ProviderState) : option string := _last_error st.

(** [BaseLLMProvider.__init__] *)
Definition init_state : ProviderState :=
  {| _status := AVAILABLE; _last_error := None |}.

(** The provider object after a call that left its state as [st]. *)
Definition with_state (p : BaseLLMProvider) (st : ProviderState) : BaseLLMProvider :=
  {| name := name p; model_name := model_name p; api_key := api_key p;
     state := st;
     generate_text := generate_text p; generate_json := generate_json p |}.

(** [x or d] for an [Optional[str]]: the empty string is falsy. *)
Definition str_or (x : option string) (d : string) : string :=
  match x with
  | Some s => if decide (s = "") then d else s
  | None => d
  end.

End base_provider.

(* ===================================================================== *)
(** * The HTTP exchange and the JSON decoder, as seen by a provider *)
(* ===================================================================== *)

Module http.

(** What [json.loads] does with a text: it returns a value, or raises
    [json.JSONDecodeError] whose [str] is the given message. The decoder
    belongs to the Python library; the providers are parametrised by it. *)
Inductive json_result := JsonValue | JSONDecodeError (msg : string).

(** What the body of a reply yields when the provider reads it. *)
Inductive completion :=
| Completion (text : string) (total_tokens : option Z)
| NoCandidates                      (* Gemini: the list of candidates is empty *)
| BodyError (msg : string).         (* reading the body raised an exception *)

(** The reply of [client.post]. [error_message] is what
    [error_data.get("error", {}).get("message", ...)] finds, when the
    message is there; [err_body_raises] is the exception raised while
    decoding the body of a reply that is not a 200, when that happens. *)
Record Response := {
  status_code : Z;
  error_message : option string;
  err_body_raises : option string;
  body : completion;
}.

Inductive post_outcome :=
| Replied (r : Response)
| TimeoutException
| OtherException (msg : string).

End http.

(* ===================================================================== *)
(** * app/ai/providers/groq_provider.py and gemini_provider.py *)
(* ===================================================================== *)

(** What the two providers share textually: the response constructors and
    the clean-up of [generate_json]. *)
Module provider_common.
Import base_provider.

Definition failure (name model : string) (error_msg : string) : ProviderResponse :=
  {| success := false; content := ""; provider_name := name; model := model;
     tokens_used := None; error := Some error_msg |}.

Definition JSON_ONLY : string :=
  Py.nl +:+ Py.nl +:+
  "IMPORTANT: You MUST respond with valid JSON only. No markdown, no code blocks, no explanations. Just pure JSON.".

(** The lines under "Clean up potential markdown formatting", one
    definition per [if]. *)
Definition drop_json_fence (content : string) : string :=
  if Py.startswith content "```json" then Py.slice_from 7 content else content.

Definition drop_fence (content : string) : string :=
  if Py.startswith content "```" then Py.slice_from 3 content else content.

Definition drop_closing_fence (content : string) : string :=
  if Py.endswith content "```" then Py.slice_to_neg 3 content else content.

(** From [content = response.content.strip()] to the last
    [content = content.strip()]. *)
Definition strip_fences (content : string) : string :=
  Py.strip (drop_closing_fence (drop_fence (drop_json_fence content))).

(** The text handed to [json.loads]. *)
Definition clean (raw : string) : string := strip_fences (Py.strip raw).

(** The part of [generate_json] after the call of [generate_text]. *)
Definition validate_json (json_loads : string -> http.json_result)
    (response : ProviderResponse) : ProviderResponse :=
  if success response then
    let content := clean (content response) in
    match json_loads content with
    | http.JsonValue =>
        {| success := success response; content := content;
           provider_name := provider_name response; model := model response;
           tokens_used := tokens_used response; error := error response |}
    | http.JSONDecodeError e =>
        {| success := false; content := base_provider.content response;
           provider_name := provider_name response; model := model response;
           tokens_used := tokens_used response;
           error := Some ("Invalid JSON response: " +:+ e) |}
    end
  else response.


(** The request [generate_json] passes to [generate_text]. *)
Definition json_text_request (req : JsonRequest) : TextRequest :=
  {| prompt := j_prompt req;
     system_prompt := Some (str_or (j_system_prompt req) "" +:+ JSON_ONLY);
     temperature := j_temperature req;
     max_tokens := 4096 |}.

End provider_common.

Module groq_provider.
Import base_provider provider_common.

Definition DEFAULT_MODEL : string := "llama-3.1-8b-instant".
Definition NAME : string := "Groq".

Section Groq.
(** The endpoint: what [client.post] yields for a request. *)
Variable post : TextRequest -> http.post_outcome.
Variable json_loads : string -> http.json_result.

Definition generate_text (req : TextRequest) (st : ProviderState)
  : ProviderResponse * ProviderState :=
  if negb (is_available st) then
    (failure NAME DEFAULT_MODEL (str_or (_last_error st) "Provider unavailable"), st)
  else
    match post req with
    | http.Replied response =>
        if http.status_code response =? 429 then
          let error_msg := "Rate limit exceeded" in
          (failure NAME DEFAULT_MODEL error_msg, mark_rate_limited error_msg st)
        else if negb (http.status_code response =? 200) then
          match http.err_body_raises response with
          | Some e => (failure NAME DEFAULT_MODEL e, mark_error e st)
          | None =>
              let error_msg :=
                default ("HTTP " +:+ pretty (http.status_code response))
                        (http.error_message response) in
              (failure NAME DEFAULT_MODEL error_msg, mark_error error_msg st)
          end
        else
          match http.body response with
          | http.Completion content tokens =>
              ({| success := true; content := content; provider_name := NAME;
                  model := DEFAULT_MODEL; tokens_used := tokens; error := None |},
               mark_available st)
          | http.NoCandidates =>
              (* [data["choices"][0]] on an empty list *)
              let error_msg := "list index out of range" in
              (failure NAME DEFAULT_MODEL error_msg, mark_error error_msg st)
          | http.BodyError error_msg =>
              (failure NAME DEFAULT_MODEL error_msg, mark_error error_msg st)
          end
    | http.TimeoutException =>
        let error_msg := "Request timeout" in
        (failure NAME DEFAULT_MODEL error_msg, mark_error error_msg st)
    | http.OtherException error_msg =>
        (failure NAME DEFAULT_MODEL error_msg, mark_error error_msg st)
    end.

Definition generate_json (req : JsonRequest) (st : ProviderState)
  : ProviderResponse * ProviderState :=
  let '(response, st') := generate_text (json_text_request req) st in
  (validate_json json_loads response, st').

(** [GroqProvider(api_key)], [getenv] being the value of [GROQ_API_KEY]. *)
Definition GroqProvider (api_key getenv : option string) : BaseLLMProvider :=
  let key := match api_key with
             | Some k => if decide (k = "") then getenv else Some k
             | None => getenv
             end in
  {| name := NAME; model_name := DEFAULT_MODEL; api_key := key;
     state := if decide (str_or key "" = "")
              then {| _status := UNAVAILABLE;
                      _last_error := Some "GROQ_API_KEY not configured" |}
              else init_state;
     base_provider.generate_text := fun req st =>
       let '(r, st') := generate_text req st in (Py.Ok r, st');
     base_provider.generate_json := fun req st =>
       let '(r, st') := generate_json req st in (Py.Ok r, st') |}.
End Groq.

End groq_provider.

Module gemini_provider.
Import base_provider provider_common.

Definition DEFAULT_MODEL : string := "gemini-2.0-flash".
Definition NAME : string := "Gemini".

Section Gemini.
Variable post : TextRequest -> http.post_outcome.
Variable json_loads : string -> http.json_result.

Definition generate_text (req : TextRequest) (st : ProviderState)
  : ProviderResponse * ProviderState :=
  if negb (is_available st) then
    (failure NAME DEFAULT_MODEL (str_or (_last_error st) "Provider unavailable"), st)
  else
    match post req with
    | http.Replied response =>
        if http.status_code response =? 429 then
          let error_msg := "Rate limit exceeded" in
          (failure NAME DEFAULT_MODEL error_msg, mark_rate_limited error_msg st)
        else if negb (http.status_code response =? 200) then
          match http.err_body_raises response with
          | Some e => (failure NAME DEFAULT_MODEL e, mark_error e st)
          | None =>
              let error_msg :=
                default ("HTTP " +:+ pretty (http.status_code response))
                        (http.error_message response) in
              (failure NAME DEFAULT_MODEL error_msg, mark_error error_msg st)
          end
        else
          match http.body response with
          | http.NoCandidates =>
              (* returned without touching the status *)
              (failure NAME DEFAULT_MODEL "No response candidates", st)
          | http.Completion content tokens =>
              ({| success := true; content := content; provider_name := NAME;
                  model := DEFAULT_MODEL; tokens_used := tokens; error := None |},
               mark_available st)
          | http.BodyError error_msg =>
              (failure NAME DEFAULT_MODEL error_msg, mark_error error_msg st)
          end
    | http.TimeoutException =>
        let error_msg := "Request timeout" in
        (failure NAME DEFAULT_MODEL error_msg, mark_error error_msg st)
    | http.OtherException error_msg =>
        (failure NAME DEFAULT_MODEL error_msg, mark_error error_msg st)
    end.

Definition generate_json (req : JsonRequest) (st : ProviderState)
  : ProviderResponse * ProviderState :=
  let '(response, st') := generate_text (json_text_request req) st in
  (validate_json json_loads response, st').

(** [GeminiProvider(api_key)], [getenv] being the value of [GEMINI_API_KEY]. *)
Definition GeminiProvider (api_key getenv : option string) : BaseLLMProvider :=
  let key := match api_key with
             | Some k => if decide (k = "") then getenv else Some k
             | None => getenv
             end in
  {| name := NAME; model_name := DEFAULT_MODEL; api_key := key;
     state := if decide (str_or key "" = "")
              then {| _status := UNAVAILABLE;
                      _last_error := Some "GEMINI_API_KEY not configured" |}
              else init_state;
     base_provider.generate_text := fun req st =>
       let '(r, st') := generate_text req st in (Py.Ok r, st');
     base_provider.generate_json := fun req st =>
       let '(r, st') := generate_json req st in (Py.Ok r, st') |}.
End Gemini.

End gemini_provider.

(* ===================================================================== *)
(** * app/ai/router.py *)
(* ===================================================================== *)

Module router.
Import base_provider.

Definition COOLDOWN_MINUTES : Z := 1.

(** [AIRouter]. Times are seconds on the wall clock; a cooldown entry maps
    a provider name to the instant its cooldown ends. *)
Record AIRouter := {
  providers : list BaseLLMProvider;
  _cooldowns : gmap string Z;
}.

(** [_initialize_providers], given the two freshly built providers. *)
Definition _initialize_providers (groq gemini : BaseLLMProvider) : list BaseLLMProvider :=
  (if decide (status groq = UNAVAILABLE) then [] else [groq]) ++
  (if decide (status gemini = UNAVAILABLE) then [] else [gemini]).

(** [AIRouter.__init__] *)
Definition init (groq gemini : BaseLLMProvider) : AIRouter :=
  {| providers := _initialize_providers groq gemini; _cooldowns := ∅ |}.

(** [_is_in_cooldown], [now] being [datetime.now()]: the answer and the
    cooldown map it leaves (an expired entry is deleted). *)
Definition _is_in_cooldown (now : Z) (provider_name : string) (cooldowns : gmap string Z)
  : bool * gmap string Z :=
  match cooldowns !! provider_name with
  | None => (false, cooldowns)
  | Some cooldown_end =>
      if cooldown_end <? now then (false, delete provider_name cooldowns)
      else (true, cooldowns)
  end.

Definition _set_cooldown (now : Z) (provider_name : string) (cooldowns : gmap string Z)
  : gmap string Z :=
  <[provider_name := now + 60 * COOLDOWN_MINUTES]> cooldowns.

(** The test [provider.status in [AVAILABLE, ERROR]]. *)
Definition status_selectable (s : ProviderStatus) : bool :=
  match s with
  | AVAILABLE | ERROR => true
  | RATE_LIMITED | UNAVAILABLE => false
  end.

(** The loop of [get_available_providers] from position [i] on. The
    providers in the result are the router's own objects, not copies: each
    is paired with its position in [self.providers], which is its identity
    when its state is written back after a call. The loop runs without
    suspension and reads the clock at one instant [now]. *)
Fixpoint available_from (now : Z) (i : nat) (ps : list BaseLLMProvider)
    (cooldowns : gmap string Z) : list (nat * BaseLLMProvider) * gmap string Z :=
  match ps with
  | [] => ([], cooldowns)
  | provider :: ps' =>
      let '(in_cooldown, cooldowns1) := _is_in_cooldown now (name provider) cooldowns in
      let '(available, cooldowns2) := available_from now (S i) ps' cooldowns1 in
      if negb in_cooldown && status_selectable (status provider)
      then ((i, provider) :: available, cooldowns2)
      else (available, cooldowns2)
  end.

Definition get_available_providers (now : Z) (r : AIRouter)
  : list (nat * BaseLLMProvider) * AIRouter :=
  let '(available, cooldowns) := available_from now 0 (providers r) (_cooldowns r) in
  (available, {| providers := providers r; _cooldowns := cooldowns |}).

(** Which of the two entry points runs: they differ in the provider method
    they call and in the text of the final error. *)
Inductive mode :=
| Text (req : TextRequest)
| Json (req : JsonRequest).

Definition call (m : mode) (provider : BaseLLMProvider)
  : Py.result ProviderResponse * ProviderState :=
  match m with
  | Text req => generate_text provider req (state provider)
  | Json req => generate_json provider req (state provider)
  end.

Definition none_available : ProviderResponse :=
  {| success := false; content := ""; provider_name := "none"; model := "none";
     tokens_used := None;
     error := Some "All AI providers are currently unavailable. Please try again later." |}.

Definition all_failed (m : mode) (last_error : option string) : ProviderResponse :=
  {| success := false; content := ""; provider_name := "none"; model := "none";
     tokens_used := None;
     error := Some (match m with
                    | Text _ => "All providers failed. Last error: "
                    | Json _ => "All providers failed for JSON generation. Last error: "
                    end +:+ Py.fmt_opt last_error) |}.

(** What a call of the router leaves behind: the response, the router, and
    the names of the providers it tried, in order (the "Trying provider"
    lines of the log). *)
Record outcome := {
  response : ProviderResponse;
  router_after : AIRouter;
  tried : list string;
}.

(** The [for provider in available] loop, with the statement after it. The
    clock is read by [_set_cooldown] only; the model reads it at the
    instant [now] of the call. *)
Fixpoint try_providers (m : mode) (now : Z) (available : list (nat * BaseLLMProvider))
    (r : AIRouter) (last_error : option string) (log : list string) : outcome :=
  match available with
  | [] => {| response := all_failed m last_error; router_after := r; tried := log |}
  | (i, provider) :: rest =>
      let log := log ++ [name provider] in
      let '(res, st) := call m provider in
      let r := {| providers := <[i := with_state provider st]> (providers r);
                  _cooldowns := _cooldowns r |} in
      match res with
      | Py.Ok response =>
          if success response then
            {| response := response; router_after := r; tried := log |}
          else
            let r := if decide (_status st = RATE_LIMITED)
                     then {| providers := providers r;
                             _cooldowns := _set_cooldown now (name provider) (_cooldowns r) |}
                     else r in
            try_providers m now rest r (error response) log
      | Py.Raise e =>
          try_providers m now rest r (Some (Py.str_of_exn e)) log
      end
  end.

Definition generate (m : mode) (now : Z) (r : AIRouter) : outcome :=
  let '(available, r) := get_available_providers now r in
  match available with
  | [] => {| response := none_available; router_after := r; tried := [] |}
  | _ => try_providers m now available r None []
  end.

Definition generate_text (req : TextRequest) (now : Z) (r : AIRouter) : outcome :=
  generate (Text req) now r.

Definition generate_json (req : JsonRequest) (now : Z) (r : AIRouter) : outcome :=
  generate (Json req) now r.

(** ** Vocabulary of the properties *)

(** A provider is under cooldown at [now]: it has an entry that has not
    expired. *)
Definition under_cooldown (now : Z) (cooldowns : gmap string Z) (provider_name : string)
  : bool :=
  match cooldowns !! provider_name with
  | Some cooldown_end => negb (cooldown_end <? now)
  | None => false
  end.


(** The candidate list the code builds: not under cooldown, and of status
    [AVAILABLE] or [ERROR]. *)
Definition candidates (now : Z) (r : AIRouter) : list BaseLLMProvider :=
  filter (fun p => under_cooldown now (_cooldowns r) (name p) = false
                   /\ status_selectable (status p) = true) (providers r).

(** The call of a candidate failed: it returned a response without
    success, or it raised. *)
Definition call_failed (c : Py.result ProviderResponse * ProviderState) : Prop :=
  match c.1 with
  | Py.Ok response => success response = false
  | Py.Raise _ => True
  end.

(** The error a failed call leaves in [last_error]. *)
Definition failure_message (c : Py.result ProviderResponse * ProviderState)
  : option string :=
  match c.1 with
  | Py.Ok response => error response
  | Py.Raise e => Some (Py.str_of_exn e)
  end.

(** What a call made at [now] may change of a router: the states of the
    providers at [positions], never their names or their number, and the
    cooldowns, where it only writes ends one minute after [now]. *)
Definition changed_within (now : Z) (positions : list nat) (r r' : AIRouter) : Prop :=
  name <$> providers r' = name <$> providers r
  /\ (forall i, i ∉ positions -> providers r' !! i = providers r !! i)
  /\ (forall n e, _cooldowns r' !! n = Some e ->
                  e = now + 60 \/ _cooldowns r !! n = Some e)
  /\ (forall n, _cooldowns r !! n = Some (now + 60) ->
                _cooldowns r' !! n = Some (now + 60)).

(** The candidates are objects of the router: at the position a candidate
    carries, the router holds a provider of its name. *)
Definition own (available : list (nat * BaseLLMProvider)) (r : AIRouter) : Prop :=
  forall k q, available !! k = Some q ->
    exists p', providers r !! q.1 = Some p' /\ name p' = name q.2.

(** The router after a series of calls, each with its mode and the instant
    at which it is made. *)
Definition serve (calls : list (mode * Z)) (r : AIRouter) : AIRouter :=
  foldl (fun r c => router_after (generate c.1 c.2 r)) r calls.

(** The fixed beginning of the final error text. *)
Definition all_failed_prefix (m : mode) : string :=
  match m with
  | Text _ => "All providers failed. Last error: "
  | Json _ => "All providers failed for JSON generation. Last error: "
  end.

End router.

(* ===================================================================== *)
(** * app/services/job_service.py *)
(* ===================================================================== *)

Module job_service.

(** [app.models.schemas.JobStatus] *)
Inductive JobStatus := PENDING | PROCESSING | COMPLETED | FAILED.

Global Instance JobStatus_eq_dec : EqDecision JobStatus.
Proof. solve_decision. Defined.

(** How the run of a task ends: it returns a value, it raises an exception,
    or the coroutine is cancelled while it runs ([asyncio.CancelledError],
    which [except Exception] does not catch). *)
Inductive task_end :=
| Returns (result : string)
| Raises (e : Py.Exn)
| Cancelled.

(** One run of a task, as the job manager sees it: the calls of
    [job_manager.update_job_progress(job_id, progress, message)] it makes
    for its own job, in order, and how it ends. *)
Record TaskRun := {
  reports : list (Z * string);
  ending : task_end;
}.

(** [task_func]: called with [job_id=...] and [session_id=...]; its other
    positional and keyword arguments are closed over. *)
Definition Callable : Type := string -> string -> TaskRun.

(** [@dataclass Job] ([task_args] and [task_kwargs] live in [task_func]). *)
Record Job := {
  job_id : string;
  session_id : string;
  job_type : string;
  status : JobStatus;
  progress : Z;
  message : string;
  error : option string;
  result : option string;
  created_at : Z;
  completed_at : option Z;
  task_func : option Callable;
}.

(** [JobManager]: the dictionary of jobs, the queue of job ids (head is
    the next to be taken) and the [_running] flag. *)
Record JobManager := {
  jobs : gmap string Job;
  _queue : list string;
  _running : bool;
}.

Definition MAX_CONCURRENT_JOBS : Z := 5.
Definition JOB_RETENTION_HOURS : Z := 24.

(** [JobManager.__init__] *)
Definition init : JobManager := {| jobs := ∅; _queue := []; _running := false |}.

(** [create_job]; [job_id] is [str(uuid.uuid4())] and [now] the clock. *)
Definition create_job (job_id : string) (now : Z) (session_id job_type : string)
    (task_func : option Callable) (m : JobManager) : Job * JobManager :=
  let job := {| job_id := job_id; session_id := session_id; job_type := job_type;
                status := PENDING; progress := 0; message := "Job queued";
                error := None; result := None; created_at := now;
                completed_at := None; task_func := task_func |} in
  (job, {| jobs := <[job_id := job]> (jobs m);
           _queue := _queue m ++ [job_id];
           _running := _running m |}).

Definition get_job (job_id : string) (m : JobManager) : option Job := jobs m !! job_id.

(** In-place assignments to the fields of a job object. *)
Definition set_progress (progress : Z) (message : string) (job : Job) : Job :=
  {| job_id := job_id job; session_id := session_id job; job_type := job_type job;
     status := status job; progress := progress; message := message;
     error := error job; result := result job; created_at := created_at job;
     completed_at := completed_at job; task_func := task_func job |}.

Definition set_processing (job : Job) : Job :=
  {| job_id := job_id job; session_id := session_id job; job_type := job_type job;
     status := PROCESSING; progress := 0; message := "Processing...";
     error := error job; result := result job; created_at := created_at job;
     completed_at := completed_at job; task_func := task_func job |}.

Definition set_result (r : string) (job : Job) : Job :=
  {| job_id := job_id job; session_id := session_id job; job_type := job_type job;
     status := status job; progress := progress job; message := message job;
     error := error job; result := Some r; created_at := created_at job;
     completed_at := completed_at job; task_func := task_func job |}.

Definition set_completed (now : Z) (job : Job) : Job :=
  {| job_id := job_id job; session_id := session_id job; job_type := job_type job;
     status := COMPLETED; progress := 100; message := "Completed successfully";
     error := error job; result := result job; created_at := created_at job;
     completed_at := Some now; task_func := task_func job |}.

Definition set_failed (now : Z) (e : Py.Exn) (job : Job) : Job :=
  {| job_id := job_id job; session_id := session_id job; job_type := job_type job;
     status := FAILED; progress := progress job;
     message := "Failed: " +:+ Py.str_of_exn e;
     error := Some (Py.str_of_exn e); result := result job;
     created_at := created_at job;
     completed_at := Some now; task_func := task_func job |}.

(** The job object [job_id] of the dictionary, mutated by [f]. *)
Definition on_job (job_id : string) (f : Job -> Job) (m : JobManager) : JobManager :=
  {| jobs := alter f job_id (jobs m); _queue := _queue m; _running := _running m |}.

(** [update_job_progress]: nothing happens when the job is unknown. *)
Definition update_job_progress (job_id : string) (progress : Z) (message : string)
    (m : JobManager) : JobManager :=
  match jobs m !! job_id with
  | Some job => on_job job_id (set_progress progress message) m
  | None => m
  end.

(** The progress reports of a running task, applied in order. *)
Definition run_reports (job_id : string) (rs : list (Z * string)) (m : JobManager)
  : JobManager :=
  foldl (fun m r => update_job_progress job_id r.1 r.2 m) m rs.

(** [_execute_job(job)] for the job object stored under [job.job_id]; [now]
    is the clock when the task ends. [true] is returned when the call
    returns, [false] when [CancelledError] leaves it. *)
Definition _execute_job (now : Z) (job : Job) (m : JobManager) : bool * JobManager :=
  let id := job_id job in
  let m := on_job id set_processing m in
  match task_func job with
  | Some f =>
      let run := f id (session_id job) in
      let m := run_reports id (reports run) m in
      match ending run with
      | Returns r => (true, on_job id (fun j => set_completed now (set_result r j)) m)
      | Raises e => (true, on_job id (set_failed now e) m)
      | Cancelled => (false, m)
      end
  | None => (true, on_job id (set_completed now) m)
  end.

(** What the loop meets at the start of an iteration: the clock reaches
    [now] while the iteration runs, or the loop's own coroutine is
    cancelled while it waits on the queue. *)
Inductive tick :=
| At (now : Z)
| Cancel.

(** One iteration of the [while self._running] body: the state it leaves,
    and whether the loop goes on to test [_running] again ([true]) or
    breaks ([false]). *)
Definition iteration (t : tick) (m : JobManager) : JobManager * bool :=
  match t with
  | Cancel => (m, false)
  | At now =>
      match _queue m with
      | [] => (m, true)                         (* [asyncio.TimeoutError]: continue *)
      | job_id :: queue =>
          let m := {| jobs := jobs m; _queue := queue; _running := _running m |} in
          match jobs m !! job_id with
          | None => (m, true)
          | Some job =>
              let '(returned, m) := _execute_job now job m in
              (m, returned)
          end
      end
  end.

(** The loop, for as many iterations as there are ticks. *)
Fixpoint loop (ticks : list tick) (m : JobManager) : JobManager :=
  match ticks with
  | [] => m
  | t :: ticks' =>
      if _running m then
        let '(m, goes_on) := iteration t m in
        if goes_on then loop ticks' m else m
      else m
  end.

(** [process_jobs] *)
Definition process_jobs (ticks : list tick) (m : JobManager) : JobManager :=
  loop ticks {| jobs := jobs m; _queue := _queue m; _running := true |}.

(** [stop] *)
Definition stop (m : JobManager) : JobManager :=
  {| jobs := jobs m; _queue := _queue m; _running := false |}.

(** ** Vocabulary of the properties *)

(** The operations on a job manager, as its callers and its loop perform
    them. *)
Inductive op :=
| CreateJob (job_id : string) (now : Z) (session_id job_type : string)
            (task_func : option Callable)
| UpdateProgress (job_id : string) (progress : Z) (message : string)
| Iteration (t : tick).

Definition run_op (m : JobManager) (o : op) : JobManager :=
  match o with
  | CreateJob job_id now session_id job_type task_func =>
      (create_job job_id now session_id job_type task_func m).2
  | UpdateProgress job_id progress message =>
      update_job_progress job_id progress message m
  | Iteration t => (iteration t m).1
  end.

Definition run_ops (ops : list op) (m : JobManager) : JobManager :=
  foldl run_op m ops.







(** ** More of the job manager *)

(** The test of [cleanup_old_jobs] on one job: it has a completion time and
    more than [JOB_RETENTION_HOURS] hours have passed since ([now] and the
    completion time are in seconds). *)
Definition expired (now : Z) (job : Job) : bool :=
  match completed_at job with
  | Some t => JOB_RETENTION_HOURS * 3600 <? now - t
  | None => false
  end.

(** [cleanup_old_jobs]: the expired jobs are collected, then deleted. *)
Definition cleanup_old_jobs (now : Z) (m : JobManager) : JobManager :=
  {| jobs := filter (fun kv => expired now kv.2 = false) (jobs m);
     _queue := _queue m; _running := _running m |}.

(** The order of the states of a job. *)
Definition rank (s : JobStatus) : nat :=
  match s with
  | PENDING => 0
  | PROCESSING => 1
  | COMPLETED | FAILED => 2
  end.

Definition terminal (s : JobStatus) : Prop := s = COMPLETED \/ s = FAILED.

(** What holds of a job manager whose job identifiers are fresh at
    creation: the queue holds each waiting job once and nothing else, a job
    is stored under its own identifier, it has a completion time exactly
    when it has reached a terminal state, and an error text exactly when it
    has failed. *)
Definition lifecycle_ok (m : JobManager) : Prop :=
  NoDup (_queue m)
  /\ (forall id, id ∈ _queue m <-> exists job, jobs m !! id = Some job /\ status job = PENDING)
  /\ (forall id job, jobs m !! id = Some job ->
        job_id job = id
        /\ (is_Some (completed_at job) <-> terminal (status job))
        /\ (is_Some (error job) <-> status job = FAILED)).

(** [job'] is a later state of [job]: its status has not gone back, and
    what a terminal job holds is kept. *)
Definition later_state (job job' : Job) : Prop :=
  (rank (status job) <= rank (status job'))%nat
  /\ (terminal (status job) ->
      status job' = status job /\ error job' = error job
      /\ completed_at job' = completed_at job /\ result job' = result job).

(** An operation whose job identifier, if it creates a job, is new. *)
Definition op_fresh (m : JobManager) (o : op) : Prop :=
  match o with
  | CreateJob job_id _ _ _ _ => jobs m !! job_id = None
  | _ => True
  end.

Fixpoint ops_fresh (m : JobManager) (ops : list op) : Prop :=
  match ops with
  | [] => True
  | o :: ops' => op_fresh m o /\ ops_fresh (run_op m o) ops'
  end.

End job_service.

(* ===================================================================== *)
(** * db/models.py and app/models/schemas.py *)
(* ===================================================================== *)

(** The ORM rows. A relationship is the list of the child rows inside the
    parent (a slide holds its versions, a session its slides and messages),
    so the foreign keys and the primary keys of the children are not
    represented. Enumerations stored as text ([template], [tone]) stay
    text. *)
Module SlideVersionModel.
Record t := {
  version_number : Z;
  title : string;
  content_json : list string;
  speaker_notes : option string;
  instruction : option string;
  created_at : Z;
}.
End SlideVersionModel.

Module SlideModel.
Record t := {
  slide_number : Z;
  title : string;
  content_json : list string;
  speaker_notes : option string;
  current_version : Z;
  created_at : Z;
  updated_at : Z;
  versions : list SlideVersionModel.t;   (* [order_by=version_number] *)
}.
End SlideModel.

Module ChatMessageModel.
Record t := {
  role : string;
  content : string;
  related_slide : option Z;
  created_at : Z;
}.
End ChatMessageModel.

Module SessionModel.
Record t := {
  id : Z;
  session_id : string;
  topic : option string;
  template : string;
  tone : string;
  context_memory : option string;
  created_at : Z;
  updated_at : Z;
  slides : list SlideModel.t;
  chat_messages : list ChatMessageModel.t;
}.
End SessionModel.

(** The Pydantic schemas. *)
Module SlideVersion.
Record t := {
  version : Z;
  title : string;
  content : list string;
  speaker_notes : option string;
  created_at : Z;
  instruction : option string;
}.
End SlideVersion.

Module SlideWithHistory.
Record t := {
  slide_number : Z;
  current_version : Z;
  versions : list SlideVersion.t;
}.

(** property [current] *)
Definition current (s : t) : Py.result SlideVersion.t :=
  Py.getitem (versions s) (current_version s).
End SlideWithHistory.

Module ChatMessage.
Record t := {
  role : string;
  content : string;
  timestamp : Z;
  related_slide : option Z;
}.
End ChatMessage.

Module SessionData.
Record t := {
  session_id : string;
  topic : option string;
  template : string;
  tone : string;
  slides : list SlideWithHistory.t;
  chat_history : list ChatMessage.t;
  context_memory : string;
  created_at : Z;
  last_updated : Z;
}.
End SessionData.

(* ===================================================================== *)
(** * db/crud.py *)
(* ===================================================================== *)

Module crud.

(** The database: the [sessions] table with everything a session owns,
    keyed by the unique [session_id]. Every function below ends in a
    commit; the database it returns is the committed one. *)
Definition Database : Type := gmap string SessionModel.t.

Definition get_session_by_uuid (db : Database) (session_id : string)
  : option SessionModel.t := db !! session_id.

(** [create_session]; [id] is the key the table assigns. *)
Definition create_session (now : Z) (id : Z) (db : Database) (session_id : string)
    (template tone : string) : SessionModel.t * Database :=
  let session :=
    {| SessionModel.id := id; SessionModel.session_id := session_id;
       SessionModel.topic := None; SessionModel.template := template;
       SessionModel.tone := tone; SessionModel.context_memory := Some "";
       SessionModel.created_at := now; SessionModel.updated_at := now;
       SessionModel.slides := []; SessionModel.chat_messages := [] |} in
  (session, <[session_id := session]> db).

(** [x if new is None else new] *)
Definition assign_if {A} (new : option A) (old : A) : A := default old new.

Definition update_session (now : Z) (db : Database) (session_id : string)
    (topic template tone context_memory : option string)
  : option SessionModel.t * Database :=
  match get_session_by_uuid db session_id with
  | None => (None, db)
  | Some session =>
      let session :=
        {| SessionModel.id := SessionModel.id session;
           SessionModel.session_id := SessionModel.session_id session;
           SessionModel.topic :=
             match topic with Some t => Some t | None => SessionModel.topic session end;
           SessionModel.template := assign_if template (SessionModel.template session);
           SessionModel.tone := assign_if tone (SessionModel.tone session);
           SessionModel.context_memory :=
             match context_memory with
             | Some c => Some c
             | None => SessionModel.context_memory session
             end;
           SessionModel.created_at := SessionModel.created_at session;
           SessionModel.updated_at := now;
           SessionModel.slides := SessionModel.slides session;
           SessionModel.chat_messages := SessionModel.chat_messages session |} in
      (Some session, <[session_id := session]> db)
  end.

Definition delete_session (db : Database) (session_id : string) : bool * Database :=
  match get_session_by_uuid db session_id with
  | None => (false, db)
  | Some _ => (true, delete session_id db)
  end.

(** The session row with another list of slides. *)
Definition with_slides (session : SessionModel.t) (slides : list SlideModel.t)
  : SessionModel.t :=
  {| SessionModel.id := SessionModel.id session;
     SessionModel.session_id := SessionModel.session_id session;
     SessionModel.topic := SessionModel.topic session;
     SessionModel.template := SessionModel.template session;
     SessionModel.tone := SessionModel.tone session;
     SessionModel.context_memory := SessionModel.context_memory session;
     SessionModel.created_at := SessionModel.created_at session;
     SessionModel.updated_at := SessionModel.updated_at session;
     SessionModel.slides := slides;
     SessionModel.chat_messages := SessionModel.chat_messages session |}.

(** [create_slide]: the new slide, with its initial version, as it stands
    after the commit; [add_slide] puts it among the slides of its
    session. *)
Definition create_slide (now : Z) (slide_number : Z) (title : string)
    (content : list string) (speaker_notes : option string) (instruction : string)
  : SlideModel.t :=
  let version :=
    {| SlideVersionModel.version_number := 0;
       SlideVersionModel.title := title;
       SlideVersionModel.content_json := content;
       SlideVersionModel.speaker_notes := speaker_notes;
       SlideVersionModel.instruction := Some instruction;
       SlideVersionModel.created_at := now |} in
  {| SlideModel.slide_number := slide_number;
     SlideModel.title := title;
     SlideModel.content_json := content;
     SlideModel.speaker_notes := speaker_notes;
     SlideModel.current_version := 0;
     SlideModel.created_at := now;
     SlideModel.updated_at := now;
     SlideModel.versions := [version] |}.

Definition add_slide (db : Database) (session_id : string) (slide : SlideModel.t)
  : Database :=
  alter (fun session => with_slides session (SessionModel.slides session ++ [slide]))
        session_id db.

(** The rows of [slides] with the given number, each with its position
    among the slides of the session. *)
Definition slides_numbered (slide_number : Z) (slides : list SlideModel.t)
  : list (nat * SlideModel.t) :=
  filter (fun p => SlideModel.slide_number p.2 = slide_number) (imap pair slides).

(** [get_slide]: the slide of that number with its position, which is its
    identity when it is written back. [scalar_one_or_none] raises when
    several rows match. *)
Definition get_slide (db : Database) (session_id : string) (slide_number : Z)
  : Py.result (option (nat * SlideModel.t)) :=
  match get_session_by_uuid db session_id with
  | None => Py.Ok None
  | Some session =>
      match slides_numbered slide_number (SessionModel.slides session) with
      | [] => Py.Ok None
      | [row] => Py.Ok (Some row)
      | _ :: _ :: _ => Py.Raise Py.MultipleResultsFound
      end
  end.

(** The [versions] relationship after [version] is added to the table:
    the rows of the slide ordered by [version_number]. *)
Fixpoint insert_version (version : SlideVersionModel.t) (versions : list SlideVersionModel.t)
  : list SlideVersionModel.t :=
  match versions with
  | [] => [version]
  | v :: vs =>
      if SlideVersionModel.version_number version <? SlideVersionModel.version_number v
      then version :: v :: vs
      else v :: insert_version version vs
  end.

(** [update_slide_content]: the slide object after commit and refresh. *)
Definition update_slide_content (now : Z) (slide : SlideModel.t) (title : string)
    (content : list string) (speaker_notes instruction : option string) : SlideModel.t :=
  let new_version_num := Z.of_nat (length (SlideModel.versions slide)) in
  let version :=
    {| SlideVersionModel.version_number := new_version_num;
       SlideVersionModel.title := title;
       SlideVersionModel.content_json := content;
       SlideVersionModel.speaker_notes := speaker_notes;
       SlideVersionModel.instruction := instruction;
       SlideVersionModel.created_at := now |} in
  {| SlideModel.slide_number := SlideModel.slide_number slide;
     SlideModel.title := title;
     SlideModel.content_json := content;
     SlideModel.speaker_notes := speaker_notes;
     SlideModel.current_version := new_version_num;
     SlideModel.created_at := SlideModel.created_at slide;
     SlideModel.updated_at := now;
     SlideModel.versions := insert_version version (SlideModel.versions slide) |}.

(** [rollback_slide_version]: [None] when the index is out of range. *)
Definition rollback_slide_version (now : Z) (slide : SlideModel.t) (version_index : Z)
  : option SlideModel.t :=
  if (version_index <? 0) || (Z.of_nat (length (SlideModel.versions slide)) <=? version_index)
  then None
  else
    match SlideModel.versions slide !! Z.to_nat version_index with
    | None => None
    | Some version =>
        Some {| SlideModel.slide_number := SlideModel.slide_number slide;
                SlideModel.title := SlideVersionModel.title version;
                SlideModel.content_json := SlideVersionModel.content_json version;
                SlideModel.speaker_notes := SlideVersionModel.speaker_notes version;
                SlideModel.current_version := version_index;
                SlideModel.created_at := SlideModel.created_at slide;
                SlideModel.updated_at := now;
                SlideModel.versions := SlideModel.versions slide |}
    end.

(** The commit of a slide object that was loaded from position [i]. *)
Definition commit_slide (db : Database) (session_id : string) (i : nat)
    (slide : SlideModel.t) : Database :=
  alter (fun session => with_slides session (<[i := slide]> (SessionModel.slides session)))
        session_id db.

Definition delete_slides_for_session (db : Database) (session_id : string) : Database :=
  alter (fun session => with_slides session []) session_id db.

Definition add_chat_message (now : Z) (db : Database) (session_id : string)
    (role content : string) (related_slide : option Z) : Database :=
  let message :=
    {| ChatMessageModel.role := role; ChatMessageModel.content := content;
       ChatMessageModel.related_slide := related_slide;
       ChatMessageModel.created_at := now |} in
  alter (fun session =>
    {| SessionModel.id := SessionModel.id session;
       SessionModel.session_id := SessionModel.session_id session;
       SessionModel.topic := SessionModel.topic session;
       SessionModel.template := SessionModel.template session;
       SessionModel.tone := SessionModel.tone session;
       SessionModel.context_memory := SessionModel.context_memory session;
       SessionModel.created_at := SessionModel.created_at session;
       SessionModel.updated_at := SessionModel.updated_at session;
       SessionModel.slides := SessionModel.slides session;
       SessionModel.chat_messages := SessionModel.chat_messages session ++ [message] |})
    session_id db.

(** ** Vocabulary of the properties *)

(** The version numbers of a slide are dense and in order: the version at
    position [k] carries the number [k]. *)
Definition numbered (versions : list SlideVersionModel.t) : Prop :=
  forall k v, versions !! k = Some v -> SlideVersionModel.version_number v = Z.of_nat k.

(** The operations a slide undergoes after its creation. A rollback to an
    index that is out of range is refused and leaves the slide as it is. *)
Inductive slide_op :=
| Append (now : Z) (title : string) (content : list string)
         (speaker_notes instruction : option string)
| Rollback (now : Z) (version_index : Z).

Definition apply_op (slide : SlideModel.t) (o : slide_op) : SlideModel.t :=
  match o with
  | Append now title content speaker_notes instruction =>
      update_slide_content now slide title content speaker_notes instruction
  | Rollback now version_index =>
      default slide (rollback_slide_version now slide version_index)
  end.

Definition apply_ops (ops : list slide_op) (slide : SlideModel.t) : SlideModel.t :=
  foldl apply_op slide ops.


(** The number of appends among operations. *)
Fixpoint appends (ops : list slide_op) : nat :=
  match ops with
  | [] => 0
  | Append _ _ _ _ _ :: ops' => S (appends ops')
  | Rollback _ _ :: ops' => appends ops'
  end.

End crud.

(* ===================================================================== *)
(** * app/services/outline_service.py (slide regeneration) *)
(* ===================================================================== *)

Module outline_service.

(** What [ai_router.generate_json] followed by [json.loads] yields for a
    regeneration prompt: the router's failure, a content that does not
    decode, or the decoded object with the keys it has. *)
Inductive llm_answer :=
| RouterFailure (error : option string)
| NotJson (msg : string)
| Data (title : option string) (content : option (list string))
       (speaker_notes : option (option string)).

(** The language model behind the router, as a function of what the two
    prompts are built from: the current version, the instruction, the
    topic, the tone, the context and the summary of the other slides. *)
Definition Llm : Type :=
  SlideVersion.t -> string -> string -> string -> option string -> option string
  -> llm_answer.

Definition regenerate_slide (llm : Llm) (now : Z) (slide : SlideWithHistory.t)
    (instruction topic tone : string) (context all_slides_summary : option string)
  : Py.result SlideVersion.t :=
  Py.bind (Py.getitem (SlideWithHistory.versions slide)
                      (SlideWithHistory.current_version slide)) (fun current =>
  match llm current instruction topic tone context all_slides_summary with
  | RouterFailure error =>
      Py.Raise (Py.Exception ("Failed to regenerate slide: " +:+ Py.fmt_opt error))
  | NotJson e =>
      Py.Raise (Py.Exception ("Invalid AI response format: " +:+ e))
  | Data title content speaker_notes =>
      Py.Ok {| SlideVersion.version := Z.of_nat (length (SlideWithHistory.versions slide));
               SlideVersion.title := default (SlideVersion.title current) title;
               SlideVersion.content := default (SlideVersion.content current) content;
               SlideVersion.speaker_notes :=
                 default (SlideVersion.speaker_notes current) speaker_notes;
               SlideVersion.created_at := now;
               SlideVersion.instruction := Some instruction |}
  end).

(** ** Outline generation *)






End outline_service.

(* ===================================================================== *)
(** * app/services/session_service.py *)
(* ===================================================================== *)

Module session_service.

(** [SessionManager] with the database it talks to: the in-memory cache
    [sessions] and the committed database. *)
Record SessionManager := {
  sessions : gmap string SessionData.t;
  db : crud.Database;
}.

Definition version_to_schema (idx : nat) (db_version : SlideVersionModel.t)
  : SlideVersion.t :=
  {| SlideVersion.version := Z.of_nat idx;
     SlideVersion.title := SlideVersionModel.title db_version;
     SlideVersion.content := SlideVersionModel.content_json db_version;
     SlideVersion.speaker_notes := SlideVersionModel.speaker_notes db_version;
     SlideVersion.created_at := SlideVersionModel.created_at db_version;
     SlideVersion.instruction := SlideVersionModel.instruction db_version |}.

Definition slide_to_schema (db_slide : SlideModel.t) : SlideWithHistory.t :=
  {| SlideWithHistory.slide_number := SlideModel.slide_number db_slide;
     SlideWithHistory.versions := imap version_to_schema (SlideModel.versions db_slide);
     SlideWithHistory.current_version := SlideModel.current_version db_slide |}.

Definition message_to_schema (db_msg : ChatMessageModel.t) : ChatMessage.t :=
  {| ChatMessage.role := ChatMessageModel.role db_msg;
     ChatMessage.content := ChatMessageModel.content db_msg;
     ChatMessage.timestamp := ChatMessageModel.created_at db_msg;
     ChatMessage.related_slide := ChatMessageModel.related_slide db_msg |}.

Definition _db_session_to_schema (db_session : SessionModel.t) : SessionData.t :=
  {| SessionData.session_id := SessionModel.session_id db_session;
     SessionData.topic := SessionModel.topic db_session;
     SessionData.template := SessionModel.template db_session;
     SessionData.tone := SessionModel.tone db_session;
     SessionData.slides := slide_to_schema <$> SessionModel.slides db_session;
     SessionData.chat_history := message_to_schema <$> SessionModel.chat_messages db_session;
     SessionData.context_memory :=
       base_provider.str_or (SessionModel.context_memory db_session) "";
     SessionData.created_at := SessionModel.created_at db_session;
     SessionData.last_updated := SessionModel.updated_at db_session |}.

(** [self.sessions[session_id] = session] *)
Definition cache (session_id : string) (session : SessionData.t) (sm : SessionManager)
  : SessionManager :=
  {| sessions := <[session_id := session]> (sessions sm); db := db sm |}.

Definition with_db (d : crud.Database) (sm : SessionManager) : SessionManager :=
  {| sessions := sessions sm; db := d |}.

(** The tail of several methods: reload the session, convert it, cache it. *)
Definition refresh (session_id : string) (sm : SessionManager)
  : option SessionData.t * SessionManager :=
  match crud.get_session_by_uuid (db sm) session_id with
  | Some db_session =>
      let session := _db_session_to_schema db_session in
      (Some session, cache session_id session sm)
  | None => (None, sm)
  end.

Definition get_session (session_id : string) (sm : SessionManager)
  : option SessionData.t * SessionManager :=
  match sessions sm !! session_id with
  | Some session => (Some session, sm)
  | None => refresh session_id sm
  end.

(** The loop of [update_session] that recreates the slides. *)
Fixpoint recreate_slides (now : Z) (session_id : string) (slides : list SlideWithHistory.t)
    (d : crud.Database) : Py.result unit * crud.Database :=
  match slides with
  | [] => (Py.Ok (), d)
  | slide :: rest =>
      match Py.getitem (SlideWithHistory.versions slide)
                       (SlideWithHistory.current_version slide) with
      | Py.Raise e => (Py.Raise e, d)
      | Py.Ok current_version =>
          let db_slide :=
            crud.create_slide now (SlideWithHistory.slide_number slide)
              (SlideVersion.title current_version)
              (SlideVersion.content current_version)
              (SlideVersion.speaker_notes current_version)
              "Initial generation" in
          recreate_slides now session_id rest (crud.add_slide d session_id db_slide)
      end
  end.

Definition update_session (now : Z) (session_id : string) (topic : option string)
    (slides : option (list SlideWithHistory.t)) (context_memory template tone : option string)
    (sm : SessionManager) : Py.result (option SessionData.t) * SessionManager :=
  match crud.get_session_by_uuid (db sm) session_id with
  | None => (Py.Ok None, sm)
  | Some _ =>
      let '(_, d) := crud.update_session now (db sm) session_id topic template tone
                                         context_memory in
      let '(res, d) :=
        match slides with
        | Some slides =>
            recreate_slides now session_id slides
                            (crud.delete_slides_for_session d session_id)
        | None => (Py.Ok (), d)
        end in
      match res with
      | Py.Raise e => (Py.Raise e, with_db d sm)
      | Py.Ok _ =>
          let '(session, sm) := refresh session_id (with_db d sm) in
          (Py.Ok session, sm)
      end
  end.

Definition add_chat_message (now : Z) (session_id role content : string)
    (related_slide : option Z) (sm : SessionManager)
  : option SessionData.t * SessionManager :=
  match crud.get_session_by_uuid (db sm) session_id with
  | None => (None, sm)
  | Some _ =>
      refresh session_id
        (with_db (crud.add_chat_message now (db sm) session_id role content related_slide) sm)
  end.

(** [for slide in session.slides: if slide.slide_number == n: return slide] *)
Definition find_slide (slide_number : Z) (session : SessionData.t)
  : option SlideWithHistory.t :=
  list_find (fun slide => SlideWithHistory.slide_number slide = slide_number)
            (SessionData.slides session) ≫= (fun p => Some p.2).

Definition update_slide (now : Z) (session_id : string) (slide_number : Z)
    (new_version : SlideVersion.t) (sm : SessionManager)
  : Py.result (option SlideWithHistory.t) * SessionManager :=
  match crud.get_slide (db sm) session_id slide_number with
  | Py.Raise e => (Py.Raise e, sm)
  | Py.Ok None => (Py.Ok None, sm)
  | Py.Ok (Some (i, db_slide)) =>
      let updated_slide :=
        crud.update_slide_content now db_slide
          (SlideVersion.title new_version) (SlideVersion.content new_version)
          (SlideVersion.speaker_notes new_version) (SlideVersion.instruction new_version) in
      let '(session, sm) :=
        refresh session_id (with_db (crud.commit_slide (db sm) session_id i updated_slide) sm) in
      (Py.Ok (session ≫= find_slide slide_number), sm)
  end.

Definition rollback_slide (now : Z) (session_id : string) (slide_number version_index : Z)
    (sm : SessionManager) : Py.result (option SlideWithHistory.t) * SessionManager :=
  match crud.get_slide (db sm) session_id slide_number with
  | Py.Raise e => (Py.Raise e, sm)
  | Py.Ok None => (Py.Ok None, sm)
  | Py.Ok (Some (i, db_slide)) =>
      match crud.rollback_slide_version now db_slide version_index with
      | None => (Py.Ok None, sm)
      | Some updated_slide =>
          let '(session, sm) :=
            refresh session_id
                    (with_db (crud.commit_slide (db sm) session_id i updated_slide) sm) in
          (Py.Ok (session ≫= find_slide slide_number), sm)
      end
  end.

(** ["\n".join(parts)] *)
Fixpoint join_lines (parts : list string) : string :=
  match parts with
  | [] => ""
  | [p] => p
  | p :: rest => p +:+ Py.nl +:+ join_lines rest
  end.

(** The titles of the current versions, one line per slide. *)
Fixpoint slide_lines (indent : string) (slides : list SlideWithHistory.t)
  : Py.result (list string) :=
  match slides with
  | [] => Py.Ok []
  | slide :: rest =>
      Py.bind (SlideWithHistory.current slide) (fun current =>
      Py.bind (slide_lines indent rest) (fun lines =>
      Py.Ok ((indent +:+ "Slide " +:+ pretty (SlideWithHistory.slide_number slide) +:+ ": "
              +:+ SlideVersion.title current) :: lines)))
  end.

Definition get_context_for_ai (session : SessionData.t) : Py.result string :=
  let topic_part :=
    match SessionData.topic session with
    | Some t => if decide (t = "") then [] else ["Presentation Topic: " +:+ t]
    | None => []
    end in
  let head :=
    topic_part ++ ["Template: " +:+ SessionData.template session;
                   "Tone: " +:+ SessionData.tone session] in
  Py.bind (match SessionData.slides session with
           | [] => Py.Ok []
           | slides =>
               Py.bind (slide_lines "  " slides) (fun lines =>
               Py.Ok ((Py.nl +:+ "Current Slides:") :: lines))
           end) (fun slide_part =>
  let memory_part :=
    if decide (SessionData.context_memory session = "") then []
    else [Py.nl +:+ "Context: " +:+ SessionData.context_memory session] in
  let chat := SessionData.chat_history session in
  let chat_part :=
    match chat with
    | [] => []
    | _ =>
        (Py.nl +:+ "Recent conversation:") ::
        ((fun msg => "  " +:+ ChatMessage.role msg +:+ ": "
                     +:+ Py.of_chars (take 100 (Py.chars (ChatMessage.content msg)))
                     +:+ "...") <$> drop (length chat - 5)%nat chat)
    end in
  Py.Ok (join_lines (head ++ slide_part ++ memory_part ++ chat_part))).

(** ** More of the session manager *)

(** [create_session]; [session_id] is the fresh [uuid4] and [id] the key
    the table assigns. *)
Definition create_session (now : Z) (id : Z) (session_id : string) (template tone : string)
    (sm : SessionManager) : SessionData.t * SessionManager :=
  let '(db_session, d) := crud.create_session now id (db sm) session_id template tone in
  let session := _db_session_to_schema db_session in
  (session, cache session_id session (with_db d sm)).

(** [delete_session] *)
Definition delete_session (session_id : string) (sm : SessionManager)
  : bool * SessionManager :=
  let '(deleted, d) := crud.delete_session (db sm) session_id in
  (deleted, {| sessions := delete session_id (sessions sm); db := d |}).


End session_service.

(* ===================================================================== *)
(** * app/services/slide_service.py *)
(* ===================================================================== *)

Module slide_service.
Import session_service.

(** The summary of the slides other than [slide_number]. *)
Fixpoint other_slides (slide_number : Z) (slides : list SlideWithHistory.t)
  : Py.result (list string) :=
  match slides with
  | [] => Py.Ok []
  | s :: rest =>
      if decide (SlideWithHistory.slide_number s = slide_number)
      then other_slides slide_number rest
      else
        Py.bind (SlideWithHistory.current s) (fun current =>
        Py.bind (other_slides slide_number rest) (fun lines =>
        Py.Ok (("Slide " +:+ pretty (SlideWithHistory.slide_number s) +:+ ": "
                +:+ SlideVersion.title current) :: lines)))
  end.

Definition update_slide (llm : outline_service.Llm) (now : Z) (session_id : string)
    (slide_number : Z) (instruction : string) (sm : SessionManager)
  : Py.result (option SlideWithHistory.t) * SessionManager :=
  let '(session, sm) := get_session session_id sm in
  match session with
  | None => (Py.Raise (Py.ValueError ("Session " +:+ session_id +:+ " not found")), sm)
  | Some session =>
      let slide_idx := slide_number - 1 in
      if (slide_idx <? 0) || (Z.of_nat (length (SessionData.slides session)) <=? slide_idx)
      then (Py.Raise (Py.ValueError ("Slide " +:+ pretty slide_number +:+ " not found")), sm)
      else
        match SessionData.slides session !! Z.to_nat slide_idx with
        | None => (Py.Raise (Py.IndexError "list index out of range"), sm)
        | Some slide =>
            match
              Py.bind (other_slides slide_number (SessionData.slides session)) (fun others =>
              Py.bind (get_context_for_ai session) (fun context =>
              outline_service.regenerate_slide llm now slide instruction
                (base_provider.str_or (SessionData.topic session) "General")
                (SessionData.tone session)
                (Some context)
                (match others with
                 | [] => None
                 | _ => Some (join_lines others)
                 end)))
            with
            | Py.Raise e => (Py.Raise e, sm)
            | Py.Ok new_version =>
                let '(updated_slide, sm) :=
                  session_service.update_slide now session_id slide_number new_version sm in
                match updated_slide with
                | Py.Raise e => (Py.Raise e, sm)
                | Py.Ok updated_slide =>
                    let '(_, sm) :=
                      add_chat_message now session_id "user" instruction
                                       (Some slide_number) sm in
                    let '(_, sm) :=
                      add_chat_message now session_id "assistant"
                        ("Updated slide " +:+ pretty slide_number +:+ ": "
                         +:+ SlideVersion.title new_version)
                        (Some slide_number) sm in
                    (Py.Ok updated_slide, sm)
                end
            end
        end
  end.

Definition rollback_slide (now : Z) (session_id : string) (slide_number version_index : Z)
    (sm : SessionManager) : Py.result (option SlideWithHistory.t) * SessionManager :=
  let '(slide, sm) :=
    session_service.rollback_slide now session_id slide_number version_index sm in
  match slide with
  | Py.Raise e => (Py.Raise e, sm)
  | Py.Ok None => (Py.Ok None, sm)
  | Py.Ok (Some slide) =>
      match SlideWithHistory.current slide with
      | Py.Raise e => (Py.Raise e, sm)
      | Py.Ok current =>
          let '(_, sm) :=
            add_chat_message now session_id "assistant"
              ("Rolled back slide " +:+ pretty slide_number +:+ " to version "
               +:+ pretty version_index +:+ ": " +:+ SlideVersion.title current)
              (Some slide_number) sm in
          (Py.Ok (Some slide), sm)
      end
  end.

(** ** Summaries and validation *)



End slide_service.

(* ===================================================================== *)
(** * Concrete inputs *)
(* ===================================================================== *)

(** The states and inputs on which the properties below are exercised. *)
Module examples.
Import base_provider.

(** An endpoint that answers 200 with the given text. *)
Definition post_text (text : string) : TextRequest -> http.post_outcome :=
  fun _ => http.Replied {| http.status_code := 200; http.error_message := None;
                           http.err_body_raises := None;
                           http.body := http.Completion text (Some 42) |}.

(** An endpoint that answers with an error status. *)
Definition post_status (code : Z) (message : option string)
  : TextRequest -> http.post_outcome :=
  fun _ => http.Replied {| http.status_code := code; http.error_message := message;
                           http.err_body_raises := None;
                           http.body := http.BodyError "unused" |}.

(** A decoder that accepts the empty object only. *)
Definition loads : string -> http.json_result :=
  fun s => if decide (s = "{}") then http.JsonValue
           else http.JSONDecodeError "Expecting value: line 1 column 1 (char 0)".

Definition text_req : TextRequest :=
  {| prompt := "Summarise the quarter"; system_prompt := None;
     temperature := "0.7"; max_tokens := 2048 |}.

Definition json_req : JsonRequest :=
  {| j_prompt := "Outline the quarter"; j_system_prompt := None; j_temperature := "0.3" |}.

Definition fenced : string := "```json" +:+ Py.nl +:+ "{}" +:+ Py.nl +:+ "```".

(** Groq is rate limited, Gemini answers. *)
Definition groq_429 : BaseLLMProvider :=
  groq_provider.GroqProvider (post_status 429 None) loads (Some "gsk-key") None.
Definition gemini_ok : BaseLLMProvider :=
  gemini_provider.GeminiProvider (post_text "Revenue grew.") loads (Some "g-key") None.
Definition gemini_500 : BaseLLMProvider :=
  gemini_provider.GeminiProvider (post_status 500 (Some "backend down")) loads
                                 (Some "g-key") None.

Definition router_failover : router.AIRouter := router.init groq_429 gemini_ok.
Definition router_down : router.AIRouter := router.init groq_429 gemini_500.

(** The router one call of [generate_text] at time 1000 leaves, looked at
    again at time 2000, after the cooldown of Groq has run out. *)
Definition router_later : router.AIRouter :=
  router.router_after (router.generate_text text_req 1000 router_failover).

(** Tasks. *)
Definition reporting_task (finish : job_service.task_end) : job_service.Callable :=
  fun _ _ => {| job_service.reports :=
                  [(10, "Generating outline..."); (70, "Building presentation...");
                   (90, "Finalizing..."); (100, "Complete!")];
                job_service.ending := finish |}.


Definition silent_failure : job_service.Callable :=
  fun _ _ => {| job_service.reports := [(10, "Generating outline...")];
                job_service.ending := job_service.Raises (Py.Exception "") |}.

(** A slide with three versions, the pointer on the last. *)
Definition slide3 : SlideModel.t :=
  crud.apply_ops
    [crud.Append 20 "Results, shorter" ["Revenue up"] None (Some "make it shorter");
     crud.Append 30 "Results, with numbers" ["Revenue up 12%"; "Costs flat"]
                 (Some "Pause here") (Some "add numbers")]
    (crud.create_slide 10 1 "Quarterly Results" ["Revenue"; "Costs"] None
                       "Initial generation").


(** A session with that slide, in the database and not yet cached. *)
Definition stored_session : SessionModel.t :=
  {| SessionModel.id := 1; SessionModel.session_id := "s-1";
     SessionModel.topic := Some "Quarterly Results";
     SessionModel.template := "professional"; SessionModel.tone := "professional";
     SessionModel.context_memory := Some "";
     SessionModel.created_at := 5; SessionModel.updated_at := 30;
     SessionModel.slides := [slide3]; SessionModel.chat_messages := [] |}.

Definition manager : session_service.SessionManager :=
  {| session_service.sessions := ∅;
     session_service.db := {["s-1" := stored_session]} |}.

(** A language model that is never reached. *)
Definition llm : outline_service.Llm :=
  fun _ _ _ _ _ _ => outline_service.RouterFailure None.



(** Two jobs submitted one after the other, and the instants at which the
    loop then takes a job from the queue. *)
Definition two_jobs : list job_service.op :=
  [job_service.CreateJob "job-1" 3 "s-1" "generate"
     (Some (reporting_task (job_service.Returns "done")));
   job_service.CreateJob "job-2" 4 "s-1" "generate" (Some silent_failure)].

Definition waiting : job_service.JobManager :=
  job_service.run_ops two_jobs job_service.init.

Definition both_ran : job_service.JobManager :=
  job_service.run_ops [job_service.Iteration (job_service.At 7);
                       job_service.Iteration (job_service.At 9)] waiting.





End examples.

(* ===================================================================== *)
(** * Properties of the providers: JSON mode *)
(* ===================================================================== *)

Section StringFacts.






















Import provider_common.












Import base_provider.


End StringFacts.

(* ===================================================================== *)
(** * Properties of the router *)
(* ===================================================================== *)

Section RouterFacts.
Import base_provider router.

Lemma is_in_cooldown_answer (now : Z) (n : string) (cds : gmap string Z) :
  (_is_in_cooldown now n cds).1 = under_cooldown now cds n.
Proof.
  unfold _is_in_cooldown, under_cooldown.
  destruct (cds !! n) as [e|]; [|done]. by destruct (e <? now).
Qed.

Lemma is_in_cooldown_keeps (now : Z) (n n' : string) (cds : gmap string Z) :
  under_cooldown now (_is_in_cooldown now n cds).2 n' = under_cooldown now cds n'.
Proof.
  unfold _is_in_cooldown.
  destruct (cds !! n) as [e|] eqn:E; [|done].
  destruct (e <? now) eqn:Ee; [|done]. simpl.
  unfold under_cooldown. destruct (decide (n = n')) as [<-|Hne].
  - rewrite lookup_delete_eq, E. by rewrite Ee.
  - by rewrite lookup_delete_ne.
Qed.

Lemma available_from_spec (now : Z) (ps : list BaseLLMProvider) :
  forall (i : nat) (cds cds0 : gmap string Z),
    (forall n, under_cooldown now cds n = under_cooldown now cds0 n) ->
    (available_from now i ps cds).1.*2
    = filter (fun p => under_cooldown now cds0 (name p) = false
                       /\ status_selectable (status p) = true) ps
    /\ (forall n, under_cooldown now (available_from now i ps cds).2 n = under_cooldown now cds0 n)
    /\ (forall k p, (available_from now i ps cds).1 !! k = Some p ->
                    ps !! (p.1 - i)%nat = Some p.2 /\ (i <= p.1)%nat).
Proof.
  induction ps as [|p ps IH]; intros i cds cds0 Heq; simpl.
  - split; [done|]. split; [done|]. intros k q Hk. by rewrite lookup_nil in Hk.
  - pose proof (is_in_cooldown_answer now (name p) cds) as Hans.
    pose proof (fun n' => is_in_cooldown_keeps now (name p) n' cds) as Hkeep.
    destruct (_is_in_cooldown now (name p) cds) as [c cds1]. simpl in Hans, Hkeep.
    destruct (IH (S i) cds1 cds0) as (IH1 & IH2 & IH3).
    { intros n. by rewrite Hkeep. }
    destruct (available_from now (S i) ps cds1) as [av cds2]. simpl in *.
    assert (Hc : under_cooldown now cds0 (name p) = c) by (by rewrite <- Heq).
    assert (Hpos : forall k q, av !! k = Some q ->
                     (p :: ps) !! (q.1 - i)%nat = Some q.2 /\ (i <= q.1)%nat).
    { intros k q Hk. destruct (IH3 k q Hk) as [Hq Hle]. split; [|lia].
      replace (q.1 - i)%nat with (S (q.1 - S i)) by lia. done. }
    rewrite filter_cons.
    destruct c, (status_selectable (status p)) eqn:Es; cbn [negb andb];
      (case_decide as Hd; [destruct Hd as [Hd1 Hd2] | ]); try congruence;
      try (exfalso; apply Hd; split; congruence).
    all: try (split; [done|]; split; [done|]; exact Hpos).
    cbn [fmap list_fmap snd]. split; [by rewrite <- IH1|]. split; [done|].
    intros [|k] q Hk; simpl in Hk.
    + inversion Hk; subst; simpl. rewrite Nat.sub_diag. done.
    + by apply (Hpos k).
Qed.


Lemma try_providers_first_success (m : mode) (now : Z) (available : list (nat * BaseLLMProvider)) :
  forall (r : AIRouter) (last_error : option string) (log : list string)
         (k i : nat) (p : BaseLLMProvider) (resp : ProviderResponse) (st : ProviderState),
    available !! k = Some (i, p) ->
    (forall j q, (j < k)%nat -> available !! j = Some q -> call_failed (call m q.2)) ->
    call m p = (Py.Ok resp, st) -> success resp = true ->
    response (try_providers m now available r last_error log) = resp
    /\ tried (try_providers m now available r last_error log)
       = log ++ (name <$> (take (S k) available).*2).
Proof.
  induction available as [|[i0 p0] rest IH]; intros r last_error log k i p resp st Hk Hfail Hcall Hs.
  - by rewrite lookup_nil in Hk.
  - destruct k as [|k]; simpl in Hk.
    + inversion Hk; subst. cbn [try_providers]. rewrite Hcall, Hs. done.
    + assert (H0 : call_failed (call m p0)) by (apply (Hfail 0%nat (i0, p0)); [lia | done]).
      assert (Hrest : forall j q, (j < k)%nat -> rest !! j = Some q -> call_failed (call m q.2)).
      { intros j q Hj Hq. apply (Hfail (S j) q); [lia | done]. }
      cbn [try_providers]. unfold call_failed in H0.
      destruct (call m p0) as [res st0]. simpl in H0.
      destruct res as [resp0|e].
      * rewrite H0.
        match goal with |- context [try_providers m now rest ?r' ?le ?lg] =>
          destruct (IH r' le lg k i p resp st Hk Hrest Hcall Hs) as [E1 E2] end.
        rewrite E1, E2. split; [done|].
        cbn [take fmap list_fmap snd]. by rewrite <- app_assoc.
      * match goal with |- context [try_providers m now rest ?r' ?le ?lg] =>
          destruct (IH r' le lg k i p resp st Hk Hrest Hcall Hs) as [E1 E2] end.
        rewrite E1, E2. split; [done|].
        cbn [take fmap list_fmap snd]. by rewrite <- app_assoc.
Qed.

Lemma generate_first_success (m : mode) (now : Z) (r : AIRouter)
    (k i : nat) (p : BaseLLMProvider) (resp : ProviderResponse) (st : ProviderState) :
  (get_available_providers now r).1 !! k = Some (i, p) ->
  (forall j q, (j < k)%nat -> (get_available_providers now r).1 !! j = Some q ->
               call_failed (call m q.2)) ->
  call m p = (Py.Ok resp, st) -> success resp = true ->
  response (generate m now r) = resp
  /\ tried (generate m now r)
     = name <$> (take (S k) (get_available_providers now r).1).*2.
Proof.
  intros Hk Hfail Hcall Hs. unfold generate.
  destruct (get_available_providers now r) as [available r1]. simpl in *.
  destruct available as [|a rest]; [by rewrite lookup_nil in Hk|].
  by apply (try_providers_first_success m now (a :: rest) r1 None [] k i p resp st).
Qed.

(** C2. First success wins: when the candidates before position [k] all
    fail and candidate [k] returns a successful response, [generate_text]
    returns that response unchanged, and the providers it tried are exactly
    the candidates 0..k, so that no candidate after [k] is invoked. *)
Theorem first_success_wins (req : TextRequest) (now : Z) (r : AIRouter)
    (k i : nat) (p : BaseLLMProvider) (resp : ProviderResponse) (st : ProviderState)
    (Hk : (get_available_providers now r).1 !! k = Some (i, p))
    (Hearlier : forall j q, (j < k)%nat -> (get_available_providers now r).1 !! j = Some q ->
                            call_failed (base_provider.generate_text q.2 req (state q.2)))
    (Hcall : base_provider.generate_text p req (state p) = (Py.Ok resp, st))
    (Hsuccess : success resp = true) :
  response (router.generate_text req now r) = resp
  /\ tried (router.generate_text req now r)
     = name <$> (take (S k) (get_available_providers now r).1).*2.
Proof. by apply (generate_first_success (Text req) now r k i p resp st). Qed.

Lemma try_providers_all_fail (m : mode) (now : Z) (available : list (nat * BaseLLMProvider)) :
  forall (r : AIRouter) (last_error : option string) (log : list string),
    Forall (fun q => call_failed (call m q.2)) available ->
    response (try_providers m now available r last_error log)
    = all_failed m (match last available with
                    | Some q => failure_message (call m q.2)
                    | None => last_error
                    end)
    /\ tried (try_providers m now available r last_error log) = log ++ (name <$> available.*2).
Proof.
  induction available as [|[i0 p0] rest IH]; intros r last_error log Hall.
  - simpl. by rewrite app_nil_r.
  - inversion Hall as [|? ? H0 Hrest]; subst.
    assert (Hlast : forall (le : option string),
              le = failure_message (call m p0) ->
              match last rest with
              | Some q => failure_message (call m q.2)
              | None => le
              end
              = match last ((i0, p0) :: rest) with
                | Some q => failure_message (call m q.2)
                | None => last_error
                end).
    { intros le ->. destruct rest as [|a rest']; [reflexivity|].
      rewrite (last_cons_cons (i0, p0)).
      destruct (last (a :: rest')) eqn:El; [reflexivity|].
      by apply last_None in El. }
    cbn [try_providers]. unfold call_failed in H0. cbn [snd] in H0.
    destruct (call m p0) as [res st0] eqn:Ecall.
    destruct res as [resp0|e]; cbn in H0.
    + rewrite H0.
      match goal with |- context [try_providers m now rest ?r' ?le ?lg] =>
        destruct (IH r' le lg Hrest) as [E1 E2] end.
      rewrite E1, E2. split.
      * f_equal. apply Hlast. reflexivity.
      * cbn [fmap list_fmap snd]. by rewrite <- app_assoc.
    + match goal with |- context [try_providers m now rest ?r' ?le ?lg] =>
        destruct (IH r' le lg Hrest) as [E1 E2] end.
      rewrite E1, E2. split.
      * f_equal. apply Hlast. reflexivity.
      * cbn [fmap list_fmap snd]. by rewrite <- app_assoc.
Qed.

Lemma generate_all_fail (m : mode) (now : Z) (r : AIRouter) :
  Forall (fun q => call_failed (call m q.2)) (get_available_providers now r).1 ->
  success (response (generate m now r)) = false
  /\ provider_name (response (generate m now r)) = "none"
  /\ (forall q msg,
        last (get_available_providers now r).1 = Some q ->
        failure_message (call m q.2) = Some msg ->
        error (response (generate m now r)) = Some (all_failed_prefix m +:+ msg))
  /\ tried (generate m now r) = name <$> (get_available_providers now r).1.*2.
Proof.
  intros Hall. unfold generate.
  destruct (get_available_providers now r) as [available r1]. simpl in *.
  destruct available as [|a rest].
  - simpl. repeat split; try done.
  - destruct (try_providers_all_fail m now (a :: rest) r1 None [] Hall) as [E1 E2].
    rewrite E1, E2. repeat split; try done.
    intros q msg Hq Hmsg. rewrite Hq, Hmsg. by destruct m.
Qed.

(** C9. When every candidate's call fails (an error response, a rate limit
    or a raised exception), [generate_text] and [generate_json] return a
    failure whose provider identity is "none" and whose error text ends
    with the error message of the last candidate. *)
Theorem all_candidates_fail (now : Z) (r : AIRouter) :
  (forall req,
     Forall (fun q => call_failed (base_provider.generate_text q.2 req (state q.2)))
            (get_available_providers now r).1 ->
     let out := router.generate_text req now r in
     success (response out) = false
     /\ provider_name (response out) = "none"
     /\ forall q msg,
          last (get_available_providers now r).1 = Some q ->
          failure_message (base_provider.generate_text q.2 req (state q.2)) = Some msg ->
          error (response out) = Some ("All providers failed. Last error: " +:+ msg)) /\
  (forall req,
     Forall (fun q => call_failed (base_provider.generate_json q.2 req (state q.2)))
            (get_available_providers now r).1 ->
     let out := router.generate_json req now r in
     success (response out) = false
     /\ provider_name (response out) = "none"
     /\ forall q msg,
          last (get_available_providers now r).1 = Some q ->
          failure_message (base_provider.generate_json q.2 req (state q.2)) = Some msg ->
          error (response out)
          = Some ("All providers failed for JSON generation. Last error: " +:+ msg)).
Proof.
  split; intros req Hall.
  - destruct (generate_all_fail (Text req) now r Hall) as (H1 & H2 & H3 & _). auto.
  - destruct (generate_all_fail (Json req) now r Hall) as (H1 & H2 & H3 & _). auto.
Qed.
End RouterFacts.

(* ===================================================================== *)
(** * Properties of the job engine *)
(* ===================================================================== *)

Section JobFacts.
Import job_service.

Lemma on_job_lookup (id : string) (f : Job -> Job) (m : JobManager) :
  jobs (on_job id f m) !! id = f <$> jobs m !! id.
Proof. unfold on_job; simpl. by rewrite lookup_alter_eq. Qed.

Lemma on_job_lookup_ne (id id' : string) (f : Job -> Job) (m : JobManager) :
  id <> id' -> jobs (on_job id f m) !! id' = jobs m !! id'.
Proof. intros H. unfold on_job; simpl. by rewrite lookup_alter_ne. Qed.

Lemma update_job_progress_on_job (id : string) (p : Z) (msg : string) (m : JobManager) :
  jobs (update_job_progress id p msg m) = jobs (on_job id (set_progress p msg) m)
  /\ _queue (update_job_progress id p msg m) = _queue m
  /\ _running (update_job_progress id p msg m) = _running m.
Proof.
  unfold update_job_progress. destruct (jobs m !! id) eqn:E; [done|].
  split; [|done]. unfold on_job; simpl. apply map_eq. intros k.
  destruct (decide (id = k)) as [<-|Hne].
  - by rewrite lookup_alter_eq, E.
  - by rewrite lookup_alter_ne.
Qed.

Lemma run_reports_frame (id : string) (rs : list (Z * string)) :
  forall m, _queue (run_reports id rs m) = _queue m
            /\ _running (run_reports id rs m) = _running m
            /\ (forall id', id <> id' -> jobs (run_reports id rs m) !! id' = jobs m !! id').
Proof.
  unfold run_reports. induction rs as [|[p msg] rs IH]; intros m; simpl; [done|].
  destruct (IH (update_job_progress id p msg m)) as (H1 & H2 & H3).
  destruct (update_job_progress_on_job id p msg m) as (J1 & J2 & J3).
  rewrite H1, H2, J2, J3. repeat split.
  intros id' Hne. rewrite H3 by done. rewrite J1. by apply on_job_lookup_ne.
Qed.

Lemma default_last_cons {A} (a b : A) (l : list A) :
  default a (last (b :: l)) = default b (last l).
Proof.
  destruct l as [|c l]; [done|]. rewrite last_cons_cons.
  destruct (last (c :: l)) eqn:El; [done|]. by apply last_None in El.
Qed.

(** What a run of progress reports leaves of the job it reports on. *)
Lemma run_reports_job (id : string) (rs : list (Z * string)) :
  forall m job,
    jobs m !! id = Some job ->
    exists job',
      jobs (run_reports id rs m) !! id = Some job'
      /\ status job' = status job /\ error job' = error job
      /\ job_id job' = job_id job /\ task_func job' = task_func job
      /\ progress job' = default (progress job) (last rs.*1).
Proof.
  unfold run_reports. induction rs as [|[p msg] rs IH]; intros m job Hjob; cbn [foldl fst snd].
  - exists job. by repeat split.
  - destruct (update_job_progress_on_job id p msg m) as (J1 & _ & _).
    destruct (IH (update_job_progress id p msg m) (set_progress p msg job))
      as (job' & E & Hs & He & Hi & Ht & Hp).
    { rewrite J1, on_job_lookup, Hjob. done. }
    exists job'. repeat split; try done.
    rewrite Hp, fmap_cons, default_last_cons. reflexivity.
Qed.

(** C5, as amended. Right after [create_job], [get_job] returns the job in
    [PENDING] with progress 0. When the loop takes the job from the queue,
    a task that returns leaves it [COMPLETED] with progress 100; a task
    that raises an exception [e] leaves it [FAILED] with the error text
    [str(e)] (empty when [str(e)] is empty) and the progress last reported,
    and the loop goes on with the next iteration; a task that is cancelled
    leaves the job [PROCESSING] and ends the loop. *)
Theorem job_lifecycle
    (m : JobManager) (id session_id job_type : string) (created finished : Z)
    (f : Callable) (m2 : JobManager) (queue : list string) (ticks : list tick)
    (Hrunning : _running m2 = true)
    (Hnext : _queue m2 = id :: queue)
    (Hjob : jobs m2 !! id = Some (create_job id created session_id job_type (Some f) m).1) :
  let submitted := create_job id created session_id job_type (Some f) m in
  let m3 := (iteration (At finished) m2).1 in
  (get_job id submitted.2 = Some submitted.1
   /\ status submitted.1 = PENDING /\ progress submitted.1 = 0
   /\ _queue submitted.2 = _queue m ++ [id])
  /\ match ending (f id session_id) with
     | Returns _ =>
         (exists job, get_job id m3 = Some job /\ status job = COMPLETED /\ progress job = 100)
         /\ loop (At finished :: ticks) m2 = loop ticks m3
     | Raises e =>
         (exists job, get_job id m3 = Some job /\ status job = FAILED
                      /\ error job = Some (Py.str_of_exn e)
                      /\ progress job = default 0 (last (reports (f id session_id)).*1))
         /\ loop (At finished :: ticks) m2 = loop ticks m3
     | Cancelled =>
         (exists job, get_job id m3 = Some job /\ status job = PROCESSING)
         /\ loop (At finished :: ticks) m2 = m3
     end.
Proof.
  cbn zeta. split.
  { unfold create_job, get_job; simpl. by rewrite lookup_insert_eq. }
  set (job0 := (create_job id created session_id job_type (Some f) m).1) in *.
  assert (Hid : job_id job0 = id) by reflexivity.
  assert (Hsid : job_service.session_id job0 = session_id) by reflexivity.
  assert (Htf : task_func job0 = Some f) by reflexivity.
  clearbody job0.
  cbn [loop]. rewrite Hrunning.
  unfold iteration. rewrite Hnext. cbn [jobs]. rewrite Hjob.
  unfold _execute_job. rewrite Hid, Hsid, Htf.
  set (m1 := {| jobs := jobs m2; _queue := queue; _running := _running m2 |}).
  assert (E1 : jobs (on_job id set_processing m1) !! id = Some (set_processing job0)).
  { rewrite on_job_lookup. subst m1; simpl. by rewrite Hjob. }
  destruct (run_reports_job id (reports (f id session_id)) _ _ E1)
    as (job' & E & Hs & He & Hi & Ht & Hp).
  destruct (ending (f id session_id)) as [v|e|]; cbn [fst snd].
  - split; [|done]. eexists. unfold get_job. rewrite on_job_lookup, E. simpl. done.
  - split; [|done]. eexists. unfold get_job. rewrite on_job_lookup, E.
    split; [reflexivity|]. simpl. repeat split. by rewrite Hp.
  - split; [|done]. exists job'. unfold get_job. done.
Qed.
















End JobFacts.

(* ===================================================================== *)
(** * Properties of the versioned slide store *)
(* ===================================================================== *)

Section StoreFacts.
Import crud.

Lemma insert_version_last (v : SlideVersionModel.t) (vs : list SlideVersionModel.t) :
  Forall (fun w => SlideVersionModel.version_number w <= SlideVersionModel.version_number v) vs ->
  insert_version v vs = vs ++ [v].
Proof.
  induction 1 as [|w vs Hw Hvs IH]; simpl; [done|].
  destruct (SlideVersionModel.version_number v <? SlideVersionModel.version_number w) eqn:E.
  - apply Z.ltb_lt in E. lia.
  - by rewrite IH.
Qed.

Lemma numbered_below (vs : list SlideVersionModel.t) :
  numbered vs ->
  Forall (fun w => SlideVersionModel.version_number w <= Z.of_nat (length vs)) vs.
Proof.
  intros Hn. apply Forall_lookup. intros k w Hk.
  rewrite (Hn k w Hk). apply lookup_lt_Some in Hk. lia.
Qed.

Lemma numbered_snoc (vs : list SlideVersionModel.t) (v : SlideVersionModel.t) :
  numbered vs -> SlideVersionModel.version_number v = Z.of_nat (length vs) ->
  numbered (vs ++ [v]).
Proof.
  intros Hn Hv k w Hk. apply lookup_app_Some in Hk as [Hk | [Hge Hk]].
  - by apply Hn.
  - apply list_lookup_singleton_Some in Hk as [Hk <-]. rewrite Hv. f_equal. lia.
Qed.

(** On a slide whose versions are numbered in order, [update_slide_content]
    appends. *)
Lemma update_slide_content_appends (now : Z) (slide : SlideModel.t) (title : string)
    (content : list string) (speaker_notes instruction : option string) :
  numbered (SlideModel.versions slide) ->
  SlideModel.versions (update_slide_content now slide title content speaker_notes instruction)
  = SlideModel.versions slide
    ++ [{| SlideVersionModel.version_number := Z.of_nat (length (SlideModel.versions slide));
           SlideVersionModel.title := title;
           SlideVersionModel.content_json := content;
           SlideVersionModel.speaker_notes := speaker_notes;
           SlideVersionModel.instruction := instruction;
           SlideVersionModel.created_at := now |}].
Proof.
  intros Hn. unfold update_slide_content; simpl.
  apply insert_version_last. simpl. by apply numbered_below.
Qed.

Lemma rollback_in_range (now : Z) (slide : SlideModel.t) (i : Z) (v : SlideVersionModel.t) :
  0 <= i -> SlideModel.versions slide !! Z.to_nat i = Some v ->
  rollback_slide_version now slide i
  = Some {| SlideModel.slide_number := SlideModel.slide_number slide;
            SlideModel.title := SlideVersionModel.title v;
            SlideModel.content_json := SlideVersionModel.content_json v;
            SlideModel.speaker_notes := SlideVersionModel.speaker_notes v;
            SlideModel.current_version := i;
            SlideModel.created_at := SlideModel.created_at slide;
            SlideModel.updated_at := now;
            SlideModel.versions := SlideModel.versions slide |}.
Proof.
  intros Hi Hv. unfold rollback_slide_version.
  pose proof (lookup_lt_Some _ _ _ Hv) as Hlt.
  destruct (i <? 0) eqn:E0; [apply Z.ltb_lt in E0; lia|].
  destruct (Z.of_nat (length (SlideModel.versions slide)) <=? i) eqn:E1;
    [apply Z.leb_le in E1; lia|].
  cbn [orb]. by rewrite Hv.
Qed.

Lemma rollback_out_of_range (now : Z) (slide : SlideModel.t) (i : Z) :
  i < 0 \/ Z.of_nat (length (SlideModel.versions slide)) <= i ->
  rollback_slide_version now slide i = None.
Proof.
  intros H. unfold rollback_slide_version.
  destruct (i <? 0) eqn:E1; [done|].
  destruct (Z.of_nat (length (SlideModel.versions slide)) <=? i) eqn:E2; [done|].
  apply Z.ltb_ge in E1. apply Z.leb_gt in E2. lia.
Qed.

Lemma rollback_keeps_versions (now : Z) (slide slide' : SlideModel.t) (i : Z) :
  rollback_slide_version now slide i = Some slide' ->
  SlideModel.versions slide' = SlideModel.versions slide
  /\ SlideModel.current_version slide' = i.
Proof.
  unfold rollback_slide_version.
  destruct ((i <? 0) || (Z.of_nat (length (SlideModel.versions slide)) <=? i)); [done|].
  destruct (SlideModel.versions slide !! Z.to_nat i); [|done].
  intros H; inversion H; subst; done.
Qed.


(** C1. On a slide with [L] versions, after a rollback to any index
    [i < L - 1], one [update_slide_content] creates a version numbered [L],
    stored at position [L], moves the current pointer to [L], and leaves
    every earlier version in place under its own number: the versions are
    the old ones followed by the new one, numbered 0..L. *)
Theorem append_after_rollback
    (slide : SlideModel.t) (i : Z) (now now' : Z) (title : string)
    (content : list string) (speaker_notes instruction : option string)
    (Hnumbered : numbered (SlideModel.versions slide))
    (Hearlier : 0 <= i < Z.of_nat (length (SlideModel.versions slide)) - 1) :
  let L := length (SlideModel.versions slide) in
  exists rolled appended,
    rollback_slide_version now slide i = Some rolled
    /\ SlideModel.current_version rolled = i
    /\ let slide' :=
         update_slide_content now' rolled title content speaker_notes instruction in
       SlideModel.versions slide' = SlideModel.versions slide ++ [appended]
       /\ SlideVersionModel.version_number appended = Z.of_nat L
       /\ SlideModel.versions slide' !! L = Some appended
       /\ SlideModel.current_version slide' = Z.of_nat L
       /\ length (SlideModel.versions slide') = S L
       /\ (forall k v, SlideModel.versions slide !! k = Some v ->
                       SlideModel.versions slide' !! k = Some v
                       /\ SlideVersionModel.version_number v = Z.of_nat k)
       /\ SlideVersion.version
            <$> SlideWithHistory.versions (session_service.slide_to_schema slide')
          = Z.of_nat <$> seq 0 (S L).
Proof.
  cbn zeta.
  destruct (SlideModel.versions slide !! Z.to_nat i) as [v|] eqn:Ev.
  2:{ apply lookup_ge_None in Ev. lia. }
  eexists. eexists. split; [apply (rollback_in_range now slide i v); [lia | done]|].
  split; [done|].
  rewrite update_slide_content_appends by done. cbn [SlideModel.versions].
  split; [reflexivity|]. split; [reflexivity|].
  split. { rewrite lookup_app_r by lia. by rewrite Nat.sub_diag. }
  split; [reflexivity|].
  split. { rewrite length_app. simpl. lia. }
  split. { intros k w Hk. split; [by apply lookup_app_l_Some | by apply Hnumbered]. }
  unfold session_service.slide_to_schema. cbn [SlideWithHistory.versions].
  rewrite update_slide_content_appends by done. cbn [SlideModel.versions].
  apply list_eq. intros k. rewrite !list_lookup_fmap, list_lookup_imap.
  destruct (decide (k < S (length (SlideModel.versions slide)))%nat) as [Hlt|Hge].
  - rewrite lookup_seq_lt by done. simpl.
    destruct (lookup_lt_is_Some_2 (SlideModel.versions slide ++
      [{| SlideVersionModel.version_number := Z.of_nat (length (SlideModel.versions slide));
          SlideVersionModel.title := title; SlideVersionModel.content_json := content;
          SlideVersionModel.speaker_notes := speaker_notes;
          SlideVersionModel.instruction := instruction;
          SlideVersionModel.created_at := now' |}]) k) as [w Hw].
    { rewrite length_app. simpl. lia. }
    rewrite Hw. done.
  - rewrite lookup_seq_ge by lia. rewrite lookup_ge_None_2; [done|].
    rewrite length_app. simpl. lia.
Qed.

Lemma apply_op_keeps (slide : SlideModel.t) (o : slide_op) :
  numbered (SlideModel.versions slide) ->
  numbered (SlideModel.versions (apply_op slide o))
  /\ SlideModel.versions slide `prefix_of` SlideModel.versions (apply_op slide o).
Proof.
  intros Hn. destruct o as [now title content notes instruction | now i]; cbn [apply_op].
  - rewrite update_slide_content_appends by done. split.
    + by apply numbered_snoc.
    + by apply prefix_app_r.
  - destruct (rollback_slide_version now slide i) as [slide'|] eqn:E; simpl; [|done].
    apply rollback_keeps_versions in E as [-> _]. done.
Qed.

Lemma apply_ops_keeps (ops : list slide_op) :
  forall slide,
    numbered (SlideModel.versions slide) ->
    numbered (SlideModel.versions (apply_ops ops slide))
    /\ SlideModel.versions slide `prefix_of` SlideModel.versions (apply_ops ops slide).
Proof.
  unfold apply_ops. induction ops as [|o ops IH]; intros slide Hn; simpl; [done|].
  destruct (apply_op_keeps slide o Hn) as [Hn1 Hp1].
  destruct (IH (apply_op slide o) Hn1) as [Hn2 Hp2].
  split; [done|]. by etrans.
Qed.

Lemma create_slide_numbered (now : Z) (slide_number : Z) (title : string)
    (content : list string) (speaker_notes : option string) (instruction : string) :
  numbered (SlideModel.versions
              (create_slide now slide_number title content speaker_notes instruction)).
Proof. intros [|k] v Hk; simpl in Hk; [by inversion Hk; subst | done]. Qed.



Import session_service.

Lemma refresh_db (session_id : string) (sm : SessionManager) :
  db (refresh session_id sm).2 = db sm.
Proof.
  unfold refresh. by destruct (crud.get_session_by_uuid (db sm) session_id).
Qed.

Lemma get_session_db (session_id : string) (sm : SessionManager) :
  db (get_session session_id sm).2 = db sm.
Proof.
  unfold get_session. destruct (sessions sm !! session_id); [done|]. apply refresh_db.
Qed.

Lemma filter_none {A} (P : A -> Prop) `{forall x, Decision (P x)} (l : list A) :
  Forall (fun x => ~ P x) l -> filter P l = [].
Proof.
  induction 1 as [|x l Hx Hl IH]; [done|]. by rewrite filter_cons, decide_False.
Qed.

Lemma get_slide_absent (d : crud.Database) (session_id : string) (slide_number : Z) :
  match crud.get_session_by_uuid d session_id with
  | Some session =>
      Forall (fun s => SlideModel.slide_number s <> slide_number) (SessionModel.slides session)
  | None => True
  end ->
  crud.get_slide d session_id slide_number = Py.Ok None.
Proof.
  unfold crud.get_slide. destruct (crud.get_session_by_uuid d session_id) as [session|]; [|done].
  intros Hall. unfold slides_numbered.
  rewrite filter_none; [done|].
  apply Forall_lookup. intros j [k s] Hj. simpl.
  rewrite list_lookup_imap in Hj.
  destruct (SessionModel.slides session !! j) as [s'|] eqn:E; [|done].
  simpl in Hj. inversion Hj; subst.
  eapply Forall_lookup_1 in Hall; [|exact E]. done.
Qed.

(** C8. [SlideService.update_slide] raises [ValueError] "Slide n not found"
    when the slide number is outside 1..len(session.slides), and the
    database is left as it was. A rollback returns [None], the not-found
    answer, when the session has no slide of that number or when the
    version index is outside [0, number of versions), and the whole state,
    database and cache, is left as it was. *)
Theorem failed_slide_operations_change_nothing
    (llm : outline_service.Llm) (now : Z) (session_id : string) (slide_number : Z)
    (sm : SessionManager) :
  (* appendVersion: the slide number is outside the range of the session *)
  (forall instruction session,
     (get_session session_id sm).1 = Some session ->
     slide_number < 1 \/ Z.of_nat (length (SessionData.slides session)) < slide_number ->
     let out := slide_service.update_slide llm now session_id slide_number instruction sm in
     out.1 = Py.Raise (Py.ValueError ("Slide " +:+ pretty slide_number +:+ " not found"))
     /\ db out.2 = db sm) /\
  (* rollback: no slide of that number *)
  (forall version_index,
     match crud.get_session_by_uuid (db sm) session_id with
     | Some session =>
         Forall (fun s => SlideModel.slide_number s <> slide_number)
                (SessionModel.slides session)
     | None => True
     end ->
     slide_service.rollback_slide now session_id slide_number version_index sm
     = (Py.Ok None, sm)) /\
  (* rollback: the version index is out of range *)
  (forall version_index i db_slide,
     crud.get_slide (db sm) session_id slide_number = Py.Ok (Some (i, db_slide)) ->
     version_index < 0 \/ Z.of_nat (length (SlideModel.versions db_slide)) <= version_index ->
     crud.rollback_slide_version now db_slide version_index = None
     /\ slide_service.rollback_slide now session_id slide_number version_index sm
        = (Py.Ok None, sm)).
Proof.
  split; [|split].
  - intros instruction session Hsession Hout. cbn zeta.
    unfold slide_service.update_slide.
    pose proof (get_session_db session_id sm) as Hdb.
    destruct (get_session session_id sm) as [s sm1]. simpl in Hsession, Hdb. subst s.
    destruct ((slide_number - 1 <? 0)
              || (Z.of_nat (length (SessionData.slides session)) <=? slide_number - 1)) eqn:E.
    + done.
    + apply orb_false_iff in E as [E1 E2].
      apply Z.ltb_ge in E1. apply Z.leb_gt in E2. lia.
  - intros version_index Habsent. apply get_slide_absent in Habsent.
    unfold slide_service.rollback_slide, session_service.rollback_slide.
    by rewrite Habsent.
  - intros version_index i db_slide Hslide Hout.
    pose proof (rollback_out_of_range now db_slide version_index Hout) as Hnone.
    split; [done|].
    unfold slide_service.rollback_slide, session_service.rollback_slide.
    by rewrite Hslide, Hnone.
Qed.


End StoreFacts.

(* ===================================================================== *)
(** * The properties on concrete inputs *)
(* ===================================================================== *)

Section Witnesses.
Import examples.


Lemma first_success_wins_witness :
  base_provider.success
    (router.response (router.generate_text text_req 1000 router_failover)) = true
  /\ router.tried (router.generate_text text_req 1000 router_failover) = ["Groq"; "Gemini"].
Proof.
  assert (Havailable : (router.get_available_providers 1000 router_failover).1
                       = [(0%nat, groq_429); (1%nat, gemini_ok)]) by reflexivity.
  destruct (first_success_wins text_req 1000 router_failover 1%nat 1%nat gemini_ok
              {| base_provider.success := true; base_provider.content := "Revenue grew.";
                 base_provider.provider_name := "Gemini";
                 base_provider.model := "gemini-2.0-flash";
                 base_provider.tokens_used := Some 42; base_provider.error := None |}
              base_provider.init_state) as [E1 E2].
  - reflexivity.
  - intros j q Hj Hq. destruct j as [|j]; [|lia].
    rewrite Havailable in Hq. injection Hq as <-. reflexivity.
  - reflexivity.
  - reflexivity.
  - split; [rewrite E1; reflexivity | rewrite E2; reflexivity].
Defined.

Lemma all_candidates_fail_witness :
  base_provider.error (router.response (router.generate_text text_req 1000 router_down))
  = Some "All providers failed. Last error: backend down"
  /\ base_provider.provider_name
       (router.response (router.generate_json json_req 1000 router_down)) = "none".
Proof.
  assert (Havailable : (router.get_available_providers 1000 router_down).1
                       = [(0%nat, groq_429); (1%nat, gemini_500)]) by reflexivity.
  destruct (all_candidates_fail 1000 router_down) as [Htext Hjson]. split.
  - destruct (Htext text_req) as (_ & _ & H).
    + rewrite Havailable. repeat constructor.
    + apply (H (1%nat, gemini_500) "backend down"); reflexivity.
  - destruct (Hjson json_req) as (_ & H & _).
    + rewrite Havailable. repeat constructor.
    + exact H.
Defined.



Lemma job_lifecycle_witness :
  exists job,
    job_service.get_job "job-1"
      (job_service.iteration (job_service.At 7)
         (job_service.process_jobs []
            (job_service.create_job "job-1" 3 "s-1" "generate"
               (Some (reporting_task (job_service.Returns "done"))) job_service.init).2)).1
    = Some job
    /\ job_service.status job = job_service.COMPLETED /\ job_service.progress job = 100.
Proof.
  destruct (job_lifecycle job_service.init "job-1" "s-1" "generate" 3 7
              (reporting_task (job_service.Returns "done"))
              (job_service.process_jobs []
                 (job_service.create_job "job-1" 3 "s-1" "generate"
                    (Some (reporting_task (job_service.Returns "done")))
                    job_service.init).2)
              [] []) as [_ [H _]]; [reflexivity | reflexivity | reflexivity |].
  exact H.
Defined.

(** C5, the claim as stated fails: a task that raises an exception with an
    empty message leaves the job [FAILED] with an empty error text. *)
Lemma failed_job_with_empty_error :
  let m := job_service.process_jobs [job_service.At 7]
             (job_service.create_job "job-1" 3 "s-1" "generate" (Some silent_failure)
                                     job_service.init).2 in
  ~ (exists job msg, job_service.get_job "job-1" m = Some job
                     /\ job_service.status job = job_service.FAILED
                     /\ job_service.error job = Some msg /\ msg <> "").
Proof.
  cbn zeta. intros (job & msg & Hjob & _ & Herr & Hmsg).
  vm_compute in Hjob. inversion Hjob; subst. simpl in Herr. inversion Herr; subst. done.
Qed.


Lemma slide3_numbered : crud.numbered (SlideModel.versions slide3).
Proof.
  unfold slide3. apply (proj1 (apply_ops_keeps _ _ (create_slide_numbered _ _ _ _ _ _))).
Defined.

Lemma append_after_rollback_witness :
  exists rolled appended,
    crud.rollback_slide_version 40 slide3 0 = Some rolled
    /\ SlideModel.versions
         (crud.update_slide_content 50 rolled "Results, bolder" ["Revenue!"] None
                                    (Some "make it bolder"))
       = SlideModel.versions slide3 ++ [appended]
    /\ SlideVersionModel.version_number appended = 3.
Proof.
  destruct (append_after_rollback slide3 0 40 50 "Results, bolder" ["Revenue!"] None
              (Some "make it bolder")) as (rolled & appended & H1 & _ & H2 & H3 & _).
  - exact slide3_numbered.
  - vm_compute. split; [intros H; discriminate | reflexivity].
  - exists rolled, appended. split; [exact H1|]. split; [exact H2 | exact H3].
Defined.


Lemma failed_slide_operations_witness :
  (slide_service.update_slide llm 50 "s-1" 2 "make it shorter" manager).1
  = Py.Raise (Py.ValueError "Slide 2 not found")
  /\ slide_service.rollback_slide 50 "s-1" 1 3 manager = (Py.Ok None, manager)
  /\ slide_service.rollback_slide 50 "s-1" 2 0 manager = (Py.Ok None, manager).
Proof.
  destruct (failed_slide_operations_change_nothing llm 50 "s-1" 2 manager) as (Ha & Hb & _).
  destruct (failed_slide_operations_change_nothing llm 50 "s-1" 1 manager) as (_ & _ & Hc).
  split; [|split].
  - destruct (Ha "make it shorter" (session_service._db_session_to_schema stored_session))
      as [H _]; [reflexivity | right; vm_compute; reflexivity | exact H].
  - destruct (Hc 3 0%nat slide3) as [_ H];
      [reflexivity | right; vm_compute; intros H; discriminate | exact H].
  - apply Hb. vm_compute. repeat constructor. intros H; discriminate.
Defined.

End Witnesses.

(* ===================================================================== *)
(** * More of the providers and the router: states and cooldowns *)
(* ===================================================================== *)

Section ProviderAndRouterStates.
Import base_provider router.

(** ** The providers *)

Lemma validate_json_failure (json_loads : string -> http.json_result)
    (r : ProviderResponse) :
  success r = false -> provider_common.validate_json json_loads r = r.
Proof. intros H. unfold provider_common.validate_json. by rewrite H. Qed.

(** X1. A provider whose status is not [AVAILABLE] answers [generate_text] and
    [generate_json] with a failure that carries its last error ("Provider
    unavailable" when it has none), whatever the endpoint would reply, and
    its status and last error stay as they are; this holds for Groq and
    for Gemini. *)
Theorem unavailable_provider_answers_without_calling
    (post : TextRequest -> http.post_outcome) (json_loads : string -> http.json_result)
    (req : TextRequest) (jreq : JsonRequest) (st : ProviderState)
    (Hunavailable : is_available st = false) :
  let last_error := str_or (_last_error st) "Provider unavailable" in
  groq_provider.generate_text post req st
  = (provider_common.failure "Groq" "llama-3.1-8b-instant" last_error, st)
  /\ groq_provider.generate_json post json_loads jreq st
     = (provider_common.failure "Groq" "llama-3.1-8b-instant" last_error, st)
  /\ gemini_provider.generate_text post req st
     = (provider_common.failure "Gemini" "gemini-2.0-flash" last_error, st)
  /\ gemini_provider.generate_json post json_loads jreq st
     = (provider_common.failure "Gemini" "gemini-2.0-flash" last_error, st).
Proof.
  cbn zeta.
  assert (G : forall req, groq_provider.generate_text post req st
              = (provider_common.failure "Groq" "llama-3.1-8b-instant"
                   (str_or (_last_error st) "Provider unavailable"), st)).
  { intros req'. unfold groq_provider.generate_text. by rewrite Hunavailable. }
  assert (M : forall req, gemini_provider.generate_text post req st
              = (provider_common.failure "Gemini" "gemini-2.0-flash"
                   (str_or (_last_error st) "Provider unavailable"), st)).
  { intros req'. unfold gemini_provider.generate_text. by rewrite Hunavailable. }
  split; [apply G|]. split.
  { unfold groq_provider.generate_json. rewrite G. by rewrite validate_json_failure. }
  split; [apply M|].
  unfold gemini_provider.generate_json. rewrite M. by rewrite validate_json_failure.
Qed.

Local Ltac shape := cbn; repeat split; try done; try (by eexists); auto.

Lemma groq_text_shape (post : TextRequest -> http.post_outcome) (req : TextRequest)
    (st : ProviderState) :
  let out := groq_provider.generate_text post req st in
  provider_name out.1 = "Groq" /\ model out.1 = "llama-3.1-8b-instant"
  /\ is_available out.2 = success out.1
  /\ (success out.1 = true ->
      error out.1 = None /\ out.2 = mark_available st /\ is_available st = true)
  /\ (success out.1 = false -> content out.1 = "" /\ is_Some (error out.1)).
Proof.
  cbn zeta. unfold groq_provider.generate_text.
  destruct (is_available st) eqn:Ea; cbn [negb].
  2:{ cbn [fst snd provider_common.failure provider_name model success error content].
      rewrite Ea. shape. }
  destruct (post req) as [response| |msg]; cbn [fst snd]; [|shape|shape].
  destruct (http.status_code response =? 429); [shape|].
  destruct (http.status_code response =? 200); cbn [negb].
  - destruct (http.body response); shape.
  - destruct (http.err_body_raises response); shape.
Qed.

Lemma gemini_text_shape (post : TextRequest -> http.post_outcome) (req : TextRequest)
    (st : ProviderState) :
  let out := gemini_provider.generate_text post req st in
  provider_name out.1 = "Gemini" /\ model out.1 = "gemini-2.0-flash"
  /\ (is_available out.2 = true ->
      success out.1 = true \/ error out.1 = Some "No response candidates")
  /\ (success out.1 = true ->
      error out.1 = None /\ out.2 = mark_available st /\ is_available st = true)
  /\ (success out.1 = false -> content out.1 = "" /\ is_Some (error out.1)).
Proof.
  cbn zeta. unfold gemini_provider.generate_text.
  destruct (is_available st) eqn:Ea; cbn [negb].
  2:{ cbn [fst snd provider_common.failure provider_name model success error content].
      rewrite Ea. shape. }
  destruct (post req) as [response| |msg]; cbn [fst snd]; [|shape|shape].
  destruct (http.status_code response =? 429); [shape|].
  destruct (http.status_code response =? 200); cbn [negb].
  - destruct (http.body response); shape.
  - destruct (http.err_body_raises response); shape.
Qed.

Lemma validate_json_shape (json_loads : string -> http.json_result) (r : ProviderResponse) :
  let r' := provider_common.validate_json json_loads r in
  provider_name r' = provider_name r /\ model r' = model r
  /\ (success r' = true -> success r = true /\ error r' = error r
                          /\ json_loads (content r') = http.JsonValue)
  /\ (success r = false -> r' = r)
  /\ (success r = true -> success r' = false ->
      exists msg, error r' = Some ("Invalid JSON response: " +:+ msg)).
Proof.
  cbn zeta. unfold provider_common.validate_json.
  destruct (success r) eqn:Es; [|by rewrite Es].
  destruct (json_loads (provider_common.clean (content r))) eqn:Ej; cbn.
  - try rewrite Es; try rewrite Ej; shape.
  - shape.
Qed.

(** X2. The answers of the two providers are well formed. A successful answer has
    no error, comes from a provider that was available and leaves it
    available, and in JSON mode its content decodes; a failed
    [generate_text] has an empty content. After a call Groq is available
    exactly when the call succeeded; Gemini stays available after a
    failure only when the reply had no candidates. A failed
    [generate_json] either is a failed [generate_text], or reports
    "Invalid JSON response: ..." while the provider stays available. *)
Theorem provider_answers_are_well_formed
    (post : TextRequest -> http.post_outcome) (json_loads : string -> http.json_result)
    (req : TextRequest) (jreq : JsonRequest) (st : ProviderState) :
  (* Groq *)
  (let out := groq_provider.generate_text post req st in
   provider_name out.1 = "Groq"
   /\ is_available out.2 = success out.1
   /\ (success out.1 = true -> error out.1 = None /\ is_available st = true)
   /\ (success out.1 = false -> content out.1 = ""))
  /\ (let out := groq_provider.generate_json post json_loads jreq st in
      provider_name out.1 = "Groq"
      /\ (success out.1 = true ->
          error out.1 = None /\ is_available out.2 = true
          /\ json_loads (content out.1) = http.JsonValue)
      /\ (success out.1 = false ->
          (content out.1 = "" /\ is_available out.2 = false)
          \/ (is_available out.2 = true
              /\ exists msg, error out.1 = Some ("Invalid JSON response: " +:+ msg))))
  (* Gemini *)
  /\ (let out := gemini_provider.generate_text post req st in
      provider_name out.1 = "Gemini"
      /\ (is_available out.2 = true ->
          success out.1 = true \/ error out.1 = Some "No response candidates")
      /\ (success out.1 = true -> error out.1 = None /\ is_available st = true)
      /\ (success out.1 = false -> content out.1 = ""))
  /\ (let out := gemini_provider.generate_json post json_loads jreq st in
      provider_name out.1 = "Gemini"
      /\ (success out.1 = true ->
          error out.1 = None /\ is_available out.2 = true
          /\ json_loads (content out.1) = http.JsonValue)
      /\ (success out.1 = false ->
          content out.1 = ""
          \/ (is_available out.2 = true
              /\ exists msg, error out.1 = Some ("Invalid JSON response: " +:+ msg)))).
Proof.
  split; [|split; [|split]].
  - destruct (groq_text_shape post req st) as (Hn & _ & Ha & Hs & Hf). cbn zeta in *.
    split; [done|]. split; [done|]. split.
    + intros H. by destruct (Hs H) as (? & _ & ?).
    + intros H. by destruct (Hf H).
  - cbn zeta. unfold groq_provider.generate_json.
    destruct (groq_text_shape post (provider_common.json_text_request jreq) st)
      as (Hn & _ & Ha & Hs & Hf). cbn zeta in *.
    destruct (groq_provider.generate_text post _ st) as [r st'] eqn:E. cbn [fst snd] in *.
    destruct (validate_json_shape json_loads r) as (Vn & _ & Vs & Vf & Vg). cbn zeta in *.
    split; [by rewrite Vn|]. split.
    + intros H. destruct (Vs H) as (Hr & He & Hj). destruct (Hs Hr) as (He' & _).
      split; [by rewrite He|]. split; [by rewrite Ha|done].
    + intros H. destruct (success r) eqn:Er.
      * right. split; [done|]. by apply Vg.
      * left. rewrite (Vf eq_refl). split; [|done]. by destruct (Hf eq_refl).
  - destruct (gemini_text_shape post req st) as (Hn & _ & Ha & Hs & Hf). cbn zeta in *.
    split; [done|]. split; [done|]. split.
    + intros H. by destruct (Hs H) as (? & _ & ?).
    + intros H. by destruct (Hf H).
  - cbn zeta. unfold gemini_provider.generate_json.
    destruct (gemini_text_shape post (provider_common.json_text_request jreq) st)
      as (Hn & _ & Ha & Hs & Hf). cbn zeta in *.
    destruct (gemini_provider.generate_text post _ st) as [r st'] eqn:E. cbn [fst snd] in *.
    destruct (validate_json_shape json_loads r) as (Vn & _ & Vs & Vf & Vg). cbn zeta in *.
    split; [by rewrite Vn|]. split.
    + intros H. destruct (Vs H) as (Hr & He & Hj). destruct (Hs Hr) as (He' & Hst & _).
      split; [by rewrite He|]. split; [by rewrite Hst|done].
    + intros H. destruct (success r) eqn:Er.
      * right. destruct (Hs eq_refl) as (_ & Hst & _). split; [by rewrite Hst|]. by apply Vg.
      * left. rewrite (Vf eq_refl). by destruct (Hf eq_refl).
Qed.

(** ** The cooldowns *)

(** X3. A cooldown set at [now] lasts one minute, the last second included:
    [_is_in_cooldown] at [t] answers [True] exactly when [t <= now + 60]
    and then leaves the cooldowns as they are; later it answers [False] and
    deletes the entry, so that the entry is gone for every later question;
    the cooldowns of the other providers are not looked at. *)
Theorem cooldown_lasts_one_minute
    (now t : Z) (provider_name other : string) (cooldowns : gmap string Z) :
  let set := _set_cooldown now provider_name cooldowns in
  (_is_in_cooldown t provider_name set).1 = (t <=? now + 60)
  /\ (t <= now + 60 -> (_is_in_cooldown t provider_name set).2 = set)
  /\ (now + 60 < t ->
      (_is_in_cooldown t provider_name set).2 = delete provider_name cooldowns
      /\ forall t', _is_in_cooldown t' provider_name (_is_in_cooldown t provider_name set).2
                    = (false, delete provider_name cooldowns))
  /\ (other <> provider_name ->
      (_is_in_cooldown t other set).1 = (_is_in_cooldown t other cooldowns).1).
Proof.
  cbn zeta. unfold _is_in_cooldown, _set_cooldown, COOLDOWN_MINUTES.
  rewrite lookup_insert_eq. replace (now + 60 * 1) with (now + 60) by lia.
  destruct (now + 60 <? t) eqn:E; cbn [fst snd].
  - apply Z.ltb_lt in E. split; [symmetry; apply Z.leb_gt; lia|].
    split; [lia|]. split.
    + intros _. rewrite delete_insert_eq. split; [done|]. intros t'.
      by rewrite lookup_delete_eq.
    + intros Hne. rewrite lookup_insert_ne by (intros ->; by apply Hne).
      destruct (cooldowns !! other) as [e|]; [by destruct (e <? t)|done].
  - apply Z.ltb_ge in E. split; [symmetry; apply Z.leb_le; lia|].
    split; [done|]. split; [lia|].
    intros Hne. rewrite lookup_insert_ne by (intros ->; by apply Hne).
      destruct (cooldowns !! other) as [e|]; [by destruct (e <? t)|done].
Qed.

(** ** What a call leaves of the router *)

Lemma available_from_cooldowns (now : Z) (ps : list BaseLLMProvider) :
  forall (i : nat) (cds : gmap string Z) (n : string) (e : Z),
    (available_from now i ps cds).2 !! n = Some e -> cds !! n = Some e.
Proof.
  induction ps as [|p ps IH]; intros i cds n e; cbn [available_from]; [done|].
  destruct (_is_in_cooldown now (name p) cds) as [c cds1] eqn:E1.
  specialize (IH (S i) cds1 n e).
  destruct (available_from now (S i) ps cds1) as [av cds2].
  assert (H : cds2 !! n = Some e -> cds !! n = Some e).
  { intros H2. apply IH in H2. unfold _is_in_cooldown in E1.
    destruct (cds !! name p) as [x|]; [|by inversion E1; subst].
    destruct (x <? now); inversion E1; subst; [|done].
    by apply lookup_delete_Some in H2 as [_ ?]. }
  by destruct (negb c && status_selectable (status p)).
Qed.

Lemma available_from_sorted (now : Z) (ps : list BaseLLMProvider) :
  forall (i : nat) (cds : gmap string Z) (k1 k2 : nat) (q1 q2 : nat * BaseLLMProvider),
    (k1 < k2)%nat ->
    (available_from now i ps cds).1 !! k1 = Some q1 ->
    (available_from now i ps cds).1 !! k2 = Some q2 ->
    (q1.1 < q2.1)%nat.
Proof.
  induction ps as [|p ps IH]; intros i cds k1 k2 q1 q2 Hlt; cbn [available_from].
  - cbn [fst]. by rewrite lookup_nil.
  - destruct (_is_in_cooldown now (name p) cds) as [c cds1].
    specialize (IH (S i) cds1).
    destruct (available_from_spec now ps (S i) cds1 cds1) as (_ & _ & Hpos); [done|].
    destruct (available_from now (S i) ps cds1) as [av cds2]. cbn [fst] in *.
    destruct (negb c && status_selectable (status p)); cbn [fst].
    + destruct k1 as [|k1], k2 as [|k2]; cbn [lookup list_lookup]; try lia.
      * intros H1 H2. inversion H1; subst. cbn [fst].
        destruct (Hpos k2 q2 H2) as [_ ?]. lia.
      * intros H1 H2. apply (IH k1 k2 q1 q2); [lia|done|done].
    + by apply IH.
Qed.

Lemma changed_within_refl (now : Z) (positions : list nat) (r : AIRouter) :
  changed_within now positions r r.
Proof. unfold changed_within. auto. Qed.

Lemma changed_within_trans (now : Z) (l1 l2 l : list nat) (r1 r2 r3 : AIRouter) :
  (forall i, i ∈ l1 -> i ∈ l) -> (forall i, i ∈ l2 -> i ∈ l) ->
  changed_within now l1 r1 r2 -> changed_within now l2 r2 r3 ->
  changed_within now l r1 r3.
Proof.
  intros H1 H2 (A1 & A2 & A3 & A4) (B1 & B2 & B3 & B4). unfold changed_within.
  split; [congruence|]. split.
  { intros i Hi. rewrite B2, A2; [done| |]; intros ?; apply Hi; auto. }
  split.
  { intros n e He. destruct (B3 n e He) as [?|He2]; [by left|]. by apply A3. }
  intros n Hn. by apply B4, A4.
Qed.

(** The write-back of one provider's state. *)
Lemma write_back_changed (now : Z) (r : AIRouter) (i : nat) (p p' : BaseLLMProvider)
    (st : ProviderState) :
  providers r !! i = Some p' -> name p' = name p ->
  changed_within now [i] r
    {| providers := <[i := with_state p st]> (providers r); _cooldowns := _cooldowns r |}.
Proof.
  intros Hi Hn. unfold changed_within. cbn [providers _cooldowns].
  split.
  { rewrite list_fmap_insert. apply list_insert_id.
    rewrite list_lookup_fmap, Hi. cbn. by rewrite Hn. }
  split.
  { intros j Hj. apply list_lookup_insert_ne. intros ->. apply Hj. left. }
  auto.
Qed.

Lemma set_cooldown_changed (now : Z) (r : AIRouter) (n : string) :
  changed_within now []
    r {| providers := providers r; _cooldowns := _set_cooldown now n (_cooldowns r) |}.
Proof.
  unfold changed_within, _set_cooldown, COOLDOWN_MINUTES. cbn [providers _cooldowns].
  replace (now + 60 * 1) with (now + 60) by lia.
  split; [done|]. split; [done|]. split.
  - intros m e. destruct (decide (n = m)) as [->|Hne].
    + rewrite lookup_insert_eq. intros H; inversion H. by left.
    + rewrite lookup_insert_ne by done. by right.
  - intros m Hm. destruct (decide (n = m)) as [->|Hne].
    + by rewrite lookup_insert_eq.
    + by rewrite lookup_insert_ne.
Qed.

Lemma own_changed (now : Z) (l : list nat) (available : list (nat * BaseLLMProvider))
    (r r' : AIRouter) :
  changed_within now l r r' -> own available r -> own available r'.
Proof.
  intros (Hnames & _) Hown k q Hk. destruct (Hown k q Hk) as (p' & Hp' & Hn).
  assert (H : (name <$> providers r') !! q.1 = Some (name p'))
    by (by rewrite Hnames, list_lookup_fmap, Hp').
  rewrite list_lookup_fmap in H.
  destruct (providers r' !! q.1) as [p''|]; [|done].
  exists p''. split; [done|]. inversion H. congruence.
Qed.

Lemma try_providers_changed (m : mode) (now : Z) (available : list (nat * BaseLLMProvider)) :
  forall (r : AIRouter) (last_error : option string) (log : list string),
    own available r ->
    changed_within now available.*1 r
                   (router_after (try_providers m now available r last_error log)).
Proof.
  induction available as [|[i p] rest IH]; intros r last_error log Hown.
  - apply changed_within_refl.
  - cbn [try_providers].
    destruct (Hown 0%nat (i, p) eq_refl) as (p' & Hp' & Hn). cbn [fst snd] in Hp', Hn.
    assert (Hrest : own rest r) by (intros k q Hk; apply (Hown (S k) q Hk)).
    destruct (call m p) as [res st].
    pose proof (write_back_changed now r i p p' st Hp' Hn) as H1.
    set (r1 := {| providers := <[i := with_state p st]> (providers r);
                  _cooldowns := _cooldowns r |}) in *.
    assert (Hhead : forall j, j ∈ [i] -> j ∈ ((i, p) :: rest).*1).
    { intros j Hj. apply list_elem_of_singleton in Hj as ->. left. }
    assert (Htail : forall j, j ∈ rest.*1 -> j ∈ ((i, p) :: rest).*1)
      by (intros j Hj; by right).
    destruct res as [resp|e].
    + destruct (success resp).
      * cbn [router_after].
        eapply changed_within_trans; [exact Hhead|exact Htail|exact H1|].
        apply changed_within_refl.
      * set (r2 := if decide (_status st = RATE_LIMITED) then _ else r1).
        assert (H2 : changed_within now [i] r r2).
        { unfold r2. destruct (decide (_status st = RATE_LIMITED)); [|done].
          eapply (changed_within_trans now [i] [] [i]); [done| |exact H1|].
          - intros j Hj. by apply elem_of_nil in Hj.
          - apply (set_cooldown_changed now r1 (name p)). }
        eapply changed_within_trans; [exact Hhead|exact Htail|exact H2|].
        apply IH. by eapply own_changed.
    + eapply changed_within_trans; [exact Hhead|exact Htail|exact H1|].
      apply IH. by eapply own_changed.
Qed.

Lemma get_available_own (now : Z) (r : AIRouter) :
  own (get_available_providers now r).1 (get_available_providers now r).2
  /\ providers (get_available_providers now r).2 = providers r
  /\ (forall n e, _cooldowns (get_available_providers now r).2 !! n = Some e ->
                  _cooldowns r !! n = Some e)
  /\ (forall k q, (get_available_providers now r).1 !! k = Some q ->
        providers r !! q.1 = Some q.2
        /\ under_cooldown now (_cooldowns r) (name q.2) = false
        /\ status_selectable (status q.2) = true)
  /\ NoDup (get_available_providers now r).1.*1.
Proof.
  unfold get_available_providers.
  destruct (available_from_spec now (providers r) 0%nat (_cooldowns r) (_cooldowns r))
    as (H1 & H2 & H3); [done|].
  pose proof (available_from_cooldowns now (providers r) 0%nat (_cooldowns r)) as H4.
  pose proof (available_from_sorted now (providers r) 0%nat (_cooldowns r)) as H5.
  destruct (available_from now 0 (providers r) (_cooldowns r)) as [av cds].
  cbn [fst snd providers _cooldowns] in *.
  assert (Hq : forall k q, av !! k = Some q ->
             providers r !! q.1 = Some q.2
             /\ under_cooldown now (_cooldowns r) (name q.2) = false
             /\ status_selectable (status q.2) = true).
  { intros k q Hk. destruct (H3 k q Hk) as [Hi _]. rewrite Nat.sub_0_r in Hi.
    split; [done|].
    assert (Hin : q.2 ∈ av.*2).
    { apply list_elem_of_fmap. exists q. split; [done|]. by eapply list_elem_of_lookup_2. }
    rewrite H1 in Hin. by apply list_elem_of_filter in Hin as [[Hc Hs] _]. }
  split. { intros k q Hk. destruct (Hq k q Hk) as [Hi _]. by exists q.2. }
  split; [done|]. split; [done|]. split; [done|].
  apply NoDup_alt. intros k1 k2 x Hk1 Hk2. rewrite list_lookup_fmap in Hk1, Hk2.
  destruct (av !! k1) as [q1|] eqn:E1; [|done].
  destruct (av !! k2) as [q2|] eqn:E2; [|done].
  cbn in Hk1, Hk2. inversion Hk1; inversion Hk2; subst.
  destruct (Nat.lt_trichotomy k1 k2) as [Hlt|[->|Hlt]]; [|done|].
  - pose proof (H5 k1 k2 q1 q2 Hlt E1 E2). lia.
  - pose proof (H5 k2 k1 q2 q1 Hlt E2 E1). lia.
Qed.

Lemma available_from_keeps_live (now : Z) (ps : list BaseLLMProvider) :
  forall (i : nat) (cds : gmap string Z) (n : string) (e : Z),
    cds !! n = Some e -> now <= e -> (available_from now i ps cds).2 !! n = Some e.
Proof.
  induction ps as [|p ps IH]; intros i cds n e Hn He; cbn [available_from]; [done|].
  destruct (_is_in_cooldown now (name p) cds) as [c cds1] eqn:E1.
  assert (H1 : cds1 !! n = Some e).
  { unfold _is_in_cooldown in E1.
    destruct (cds !! name p) as [x|] eqn:Ex; [|by inversion E1; subst].
    destruct (x <? now) eqn:Elt; inversion E1; subst; [|done].
    apply Z.ltb_lt in Elt. rewrite lookup_delete_ne; [done|].
    intros Heq. rewrite Heq, Hn in Ex. inversion Ex. lia. }
  specialize (IH (S i) cds1 n e H1 He).
  destruct (available_from now (S i) ps cds1) as [av cds2].
  by destruct (negb c && status_selectable (status p)).
Qed.

Lemma generate_changed (m : mode) (now : Z) (r : AIRouter) :
  changed_within now (get_available_providers now r).1.*1 r (router_after (generate m now r)).
Proof.
  unfold generate.
  destruct (get_available_own now r) as (Hown & Hps & Hcds & _).
  assert (Hlive : forall n, _cooldowns r !! n = Some (now + 60) ->
            _cooldowns (get_available_providers now r).2 !! n = Some (now + 60)).
  { intros n Hn. unfold get_available_providers.
    pose proof (available_from_keeps_live now (providers r) 0%nat (_cooldowns r) n
                  (now + 60) Hn) as H.
    destruct (available_from now 0 (providers r) (_cooldowns r)) as [av cds].
    cbn [fst snd _cooldowns] in *. apply H. lia. }
  destruct (get_available_providers now r) as [available r0]. cbn [fst snd] in *.
  assert (H0 : changed_within now [] r r0).
  { unfold changed_within. rewrite Hps. split; [done|]. split; [done|]. split; [|done].
    intros n e He. right. by apply Hcds. }
  destruct available as [|a rest].
  - cbn [router_after]. done.
  - eapply (changed_within_trans now [] _ _ r r0); [|done|exact H0|].
    + intros j Hj. by apply elem_of_nil in Hj.
    + by apply try_providers_changed.
Qed.

(** X4. What a call of the router may change. The providers keep their number,
    order and names; a provider that is under cooldown or whose status is
    neither [AVAILABLE] nor [ERROR] is left exactly as it is; and every
    cooldown found after the call either was there before or ends one
    minute after the call. *)
Theorem router_call_touches_candidates_only (m : mode) (now : Z) (r : AIRouter) :
  let after := router_after (generate m now r) in
  name <$> providers after = name <$> providers r
  /\ (forall i p,
        providers r !! i = Some p ->
        under_cooldown now (_cooldowns r) (name p) = true
        \/ status_selectable (status p) = false ->
        providers after !! i = Some p)
  /\ (forall n e, _cooldowns after !! n = Some e ->
                  e = now + 60 \/ _cooldowns r !! n = Some e).
Proof.
  cbn zeta. destruct (generate_changed m now r) as (H1 & H2 & H3 & _).
  split; [done|]. split; [|done].
  intros i p Hi Hout. rewrite H2; [done|].
  intros Hin. apply list_elem_of_fmap in Hin as (q & -> & Hq).
  apply list_elem_of_lookup_1 in Hq as [k Hk].
  destruct (get_available_own now r) as (_ & _ & _ & Hcand & _).
  destruct (Hcand k q Hk) as (Hq1 & Hq2 & Hq3).
  rewrite Hi in Hq1. inversion Hq1; subst p.
  destruct Hout as [Hc|Hs]; congruence.
Qed.

Lemma serve_snoc (calls : list (mode * Z)) (c : mode * Z) (r : AIRouter) :
  serve (calls ++ [c]) r = router_after (generate c.1 c.2 (serve calls r)).
Proof. unfold serve. by rewrite foldl_app. Qed.

Lemma serve_keeps_unselectable (r : AIRouter) (i : nat) (p : BaseLLMProvider)
    (calls : list (mode * Z)) :
  providers r !! i = Some p ->
  status_selectable (status p) = false ->
  providers (serve calls r) !! i = Some p
  /\ name <$> providers (serve calls r) = name <$> providers r.
Proof.
  intros Hprovider Hs.
  induction calls as [|c calls IH] using rev_ind; [done|].
  rewrite serve_snoc. destruct IH as [IH1 IH2].
  destruct (generate_changed c.1 c.2 (serve calls r)) as (H1 & H2 & _).
  split; [|congruence]. rewrite H2; [done|].
  intros Hin. apply list_elem_of_fmap in Hin as (q & -> & Hq).
  apply list_elem_of_lookup_1 in Hq as [k Hk].
  destruct (get_available_own c.2 (serve calls r)) as (_ & _ & _ & Hcand & _).
  destruct (Hcand k q Hk) as (Hq1 & _ & Hq3).
  rewrite IH1 in Hq1. inversion Hq1; subst p. congruence.
Qed.

(** X5. A provider of the router that is [RATE_LIMITED] or [UNAVAILABLE] stays so
    for ever: whatever calls the router serves afterwards, and at whatever
    instants, the provider is never among the candidates and is left
    exactly as it is; the end of a cooldown does not bring it back. *)
Theorem unselectable_provider_stays_out
    (r : AIRouter) (i : nat) (p : BaseLLMProvider) (calls : list (mode * Z))
    (Hprovider : providers r !! i = Some p)
    (Hstatus : status p = RATE_LIMITED \/ status p = UNAVAILABLE) :
  providers (serve calls r) !! i = Some p
  /\ name <$> providers (serve calls r) = name <$> providers r
  /\ forall now k q,
       (get_available_providers now (serve calls r)).1 !! k = Some q -> q.1 <> i.
Proof.
  assert (Hs : status_selectable (status p) = false) by (by destruct Hstatus as [->| ->]).
  destruct (serve_keeps_unselectable r i p calls Hprovider Hs) as [H1 H2].
  split; [done|]. split; [done|].
  intros now k q Hk Hq.
  destruct (get_available_own now (serve calls r)) as (_ & _ & _ & Hcand & _).
  destruct (Hcand k q Hk) as (Hq1 & _ & Hq3).
  rewrite Hq, H1 in Hq1. inversion Hq1; subst p. congruence.
Qed.

Lemma try_providers_writes_back (m : mode) (now : Z)
    (available : list (nat * BaseLLMProvider)) :
  forall (r : AIRouter) (last_error : option string) (log : list string)
         (k i : nat) (p : BaseLLMProvider) (res : Py.result ProviderResponse)
         (st : ProviderState),
    own available r -> NoDup available.*1 ->
    available !! k = Some (i, p) ->
    (forall j q, (j < k)%nat -> available !! j = Some q -> call_failed (call m q.2)) ->
    call m p = (res, st) ->
    let after := router_after (try_providers m now available r last_error log) in
    providers after !! i = Some (with_state p st)
    /\ (forall resp, res = Py.Ok resp -> success resp = false -> _status st = RATE_LIMITED ->
          _cooldowns after !! name p = Some (now + 60)).
Proof.
  induction available as [|[i0 p0] rest IH];
    intros r last_error log k i p res st Hown Hnd Hk Hfail Hcall; cbn zeta.
  { by rewrite lookup_nil in Hk. }
  destruct (Hown 0%nat (i0, p0) eq_refl) as (p' & Hp' & Hn). cbn [fst snd] in Hp', Hn.
  assert (Hrest : own rest r) by (intros j q Hj; apply (Hown (S j) q Hj)).
  cbn [fmap list_fmap fst] in Hnd. apply NoDup_cons in Hnd as [Hni Hnd].
  change (list_fmap _ _ fst rest) with (rest.*1) in Hni, Hnd.
  destruct k as [|k]; cbn [lookup list_lookup] in Hk.
  - inversion Hk; subst i0 p0. clear Hk. cbn [try_providers]. rewrite Hcall.
    pose proof (write_back_changed now r i p p' st Hp' Hn) as H1.
    set (r1 := {| providers := <[i := with_state p st]> (providers r);
                  _cooldowns := _cooldowns r |}) in *.
    assert (Hi1 : providers r1 !! i = Some (with_state p st)).
    { unfold r1. cbn [providers]. apply list_lookup_insert_eq.
      by apply lookup_lt_Some in Hp'. }
    destruct res as [resp|e].
    + destruct (success resp) eqn:Es.
      * cbn [router_after]. split; [done|]. intros resp' Hr. inversion Hr; subst. congruence.
      * set (r2 := if decide (_status st = RATE_LIMITED) then _ else r1).
        assert (Hi2 : providers r2 !! i = Some (with_state p st)).
        { unfold r2. by destruct (decide (_status st = RATE_LIMITED)). }
        assert (H2 : changed_within now [i] r r2).
        { unfold r2. destruct (decide (_status st = RATE_LIMITED)); [|done].
          eapply (changed_within_trans now [i] [] [i]); [done| |exact H1|].
          - intros j Hj. by apply elem_of_nil in Hj.
          - apply (set_cooldown_changed now r1 (name p)). }
        match goal with |- context [try_providers m now rest r2 ?le ?lg] =>
          destruct (try_providers_changed m now rest r2 le lg) as (_ & C2 & _ & C4) end.
        { by eapply own_changed. }
        split. { rewrite C2; done. }
        intros resp' _ _ Hrl. apply C4. unfold r2.
        rewrite decide_True by done. cbn [_cooldowns].
        unfold _set_cooldown, COOLDOWN_MINUTES. rewrite lookup_insert_eq.
        f_equal; lia.
    + match goal with |- context [try_providers m now rest r1 ?le ?lg] =>
        destruct (try_providers_changed m now rest r1 le lg) as (_ & C2 & _) end.
      { by eapply own_changed. }
      split. { rewrite C2; done. }
      intros resp' Hr. inversion Hr.
  - assert (H0 : call_failed (call m p0)) by (apply (Hfail 0%nat (i0, p0)); [lia | done]).
    assert (Hfail' : forall j q, (j < k)%nat -> rest !! j = Some q -> call_failed (call m q.2)).
    { intros j q Hj Hq. apply (Hfail (S j) q); [lia | done]. }
    cbn [try_providers]. unfold call_failed in H0.
    destruct (call m p0) as [res0 st0]. cbn [fst] in H0.
    pose proof (write_back_changed now r i0 p0 p' st0 Hp' Hn) as H1.
    set (r1 := {| providers := <[i0 := with_state p0 st0]> (providers r);
                  _cooldowns := _cooldowns r |}) in *.
    destruct res0 as [resp0|e].
    + rewrite H0.
      set (r2 := if decide (_status st0 = RATE_LIMITED) then _ else r1).
      assert (H2 : changed_within now [i0] r r2).
      { unfold r2. destruct (decide (_status st0 = RATE_LIMITED)); [|done].
        eapply (changed_within_trans now [i0] [] [i0]); [done| |exact H1|].
        - intros j Hj. by apply elem_of_nil in Hj.
        - apply (set_cooldown_changed now r1 (name p0)). }
      match goal with |- context [try_providers m now rest r2 ?le ?lg] =>
        apply (IH r2 le lg k i p res st) end; try done.
      by eapply own_changed.
    + match goal with |- context [try_providers m now rest r1 ?le ?lg] =>
        apply (IH r1 le lg k i p res st) end; try done.
      by eapply own_changed.
Qed.

(** X6. The state a tried provider is left in is the state the router holds
    afterwards. When the candidates before position [k] fail, candidate [k]
    is the router's provider at its position, and after the call the router
    holds it there with the state its call left. If that call returned a
    failure and left the provider [RATE_LIMITED], its cooldown ends one
    minute after the call, it is under cooldown until then, and no later
    call of the router changes it. *)
Theorem tried_provider_state_is_written_back
    (m : mode) (now : Z) (r : AIRouter) (k i : nat) (p : BaseLLMProvider)
    (res : Py.result ProviderResponse) (st : ProviderState)
    (Hk : (get_available_providers now r).1 !! k = Some (i, p))
    (Hearlier : forall j q, (j < k)%nat -> (get_available_providers now r).1 !! j = Some q ->
                            call_failed (call m q.2))
    (Hcall : call m p = (res, st)) :
  let after := router_after (generate m now r) in
  providers r !! i = Some p
  /\ providers after !! i = Some (with_state p st)
  /\ (forall resp,
        res = Py.Ok resp -> success resp = false -> _status st = RATE_LIMITED ->
        _cooldowns after !! name p = Some (now + 60)
        /\ (forall t, t <= now + 60 -> under_cooldown t (_cooldowns after) (name p) = true)
        /\ (forall calls, providers (serve calls after) !! i = Some (with_state p st))).
Proof.
  cbn zeta.
  destruct (get_available_own now r) as (Hown & Hps & Hcds & Hcand & Hnd).
  destruct (Hcand k (i, p) Hk) as (Hi & _).
  split; [done|]. unfold generate.
  destruct (get_available_providers now r) as [available r0]. cbn [fst snd] in *.
  destruct available as [|a rest]; [by rewrite lookup_nil in Hk|].
  destruct (try_providers_writes_back m now (a :: rest) r0 None [] k i p res st
              Hown Hnd Hk Hearlier Hcall) as [H1 H2].
  split; [done|]. intros resp Hres Hs Hrl.
  specialize (H2 resp Hres Hs Hrl). split; [done|]. split.
  - intros t Ht. unfold under_cooldown. rewrite H2.
    assert (E : (now + 60 <? t) = false) by (apply Z.ltb_ge; lia). by rewrite E.
  - intros calls. apply serve_keeps_unselectable; [done|].
    unfold status. cbn [with_state state]. by rewrite Hrl.
Qed.

(** X7. When no provider is a candidate, the router calls nobody: it answers
    with the failure "All AI providers are currently unavailable. Please
    try again later." under the provider name "none", its providers are as
    they were, and so are the cooldowns that are still running. *)
Theorem no_candidate_no_call (m : mode) (now : Z) (r : AIRouter)
    (Hnone : candidates now r = []) :
  let out := generate m now r in
  response out = none_available
  /\ tried out = []
  /\ providers (router_after out) = providers r
  /\ (forall n, under_cooldown now (_cooldowns (router_after out)) n
               = under_cooldown now (_cooldowns r) n).
Proof.
  cbn zeta. unfold generate, get_available_providers, candidates in *.
  destruct (available_from_spec now (providers r) 0%nat (_cooldowns r) (_cooldowns r))
    as (H1 & H2 & _); [done|].
  destruct (available_from now 0 (providers r) (_cooldowns r)) as [av cds].
  cbn [fst snd] in *. rewrite Hnone in H1.
  apply fmap_nil_inv in H1. subst av. done.
Qed.

Lemma filter_all {A} (P : A -> Prop) `{forall x, Decision (P x)} (l : list A) :
  Forall P l -> filter P l = l.
Proof.
  induction 1 as [|x l Hx Hl IH]; [done|]. by rewrite filter_cons_True, IH.
Qed.

(** X8. The router starts with the providers that have an API key, Groq before
    Gemini, each available and without error, and with no cooldown; all of
    them are candidates at once; and with no key at all every call answers
    that no provider is available. *)
Theorem router_registers_configured_providers
    (post post' : TextRequest -> http.post_outcome)
    (json_loads json_loads' : string -> http.json_result)
    (groq_key groq_env gemini_key gemini_env : option string) :
  let groq := groq_provider.GroqProvider post json_loads groq_key groq_env in
  let gemini := gemini_provider.GeminiProvider post' json_loads' gemini_key gemini_env in
  let r := init groq gemini in
  providers r
  = (if decide (str_or (api_key groq) "" = "") then [] else [groq])
    ++ (if decide (str_or (api_key gemini) "" = "") then [] else [gemini])
  /\ Forall (fun p => state p = init_state) (providers r)
  /\ _cooldowns r = ∅
  /\ (forall now, (get_available_providers now r).1.*2 = providers r)
  /\ (str_or (api_key groq) "" = "" -> str_or (api_key gemini) "" = "" ->
      forall m now, response (generate m now r) = none_available).
Proof.
  cbn zeta. unfold init, _initialize_providers, status.
  set (groq := groq_provider.GroqProvider post json_loads groq_key groq_env).
  set (gemini := gemini_provider.GeminiProvider post' json_loads' gemini_key gemini_env).
  assert (Hg : state groq = if decide (str_or (api_key groq) "" = "")
                            then {| _status := UNAVAILABLE;
                                    _last_error := Some "GROQ_API_KEY not configured" |}
                            else init_state) by reflexivity.
  assert (Hm : state gemini = if decide (str_or (api_key gemini) "" = "")
                              then {| _status := UNAVAILABLE;
                                      _last_error := Some "GEMINI_API_KEY not configured" |}
                              else init_state) by reflexivity.
  assert (Ng : name groq = "Groq") by reflexivity.
  assert (Nm : name gemini = "Gemini") by reflexivity.
  clearbody groq gemini. cbn [providers _cooldowns].
  assert (E1 : (if decide (_status (state groq) = UNAVAILABLE) then [] else [groq])
               = (if decide (str_or (api_key groq) "" = "") then [] else [groq])).
  { rewrite Hg. by destruct (decide (str_or (api_key groq) "" = "")). }
  assert (E2 : (if decide (_status (state gemini) = UNAVAILABLE) then [] else [gemini])
               = (if decide (str_or (api_key gemini) "" = "") then [] else [gemini])).
  { rewrite Hm. by destruct (decide (str_or (api_key gemini) "" = "")). }
  rewrite E1, E2. split; [done|].
  assert (Hall : Forall (fun p => state p = init_state)
            ((if decide (str_or (api_key groq) "" = "") then [] else [groq])
             ++ (if decide (str_or (api_key gemini) "" = "") then [] else [gemini]))).
  { apply Forall_app. split.
    - destruct (decide (str_or (api_key groq) "" = "")); [constructor|].
      by repeat constructor.
    - destruct (decide (str_or (api_key gemini) "" = "")); [constructor|].
      by repeat constructor. }
  split; [done|]. split; [done|]. split.
  - intros now. unfold get_available_providers. cbn [providers _cooldowns].
    match goal with |- context [available_from now 0 ?ps ∅] =>
      destruct (available_from_spec now ps 0%nat ∅ ∅) as (H1 & _); [done|];
      destruct (available_from now 0 ps ∅) as [av cds] end.
    cbn [fst snd] in *. rewrite H1. apply filter_all.
    eapply Forall_impl; [exact Hall|]. intros p Hp. cbn beta. unfold status. rewrite Hp.
    split; [|done]. unfold under_cooldown. by rewrite lookup_empty.
  - intros G M m now. unfold generate, get_available_providers. cbn [providers _cooldowns].
    rewrite !decide_True by done. reflexivity.
Qed.
End ProviderAndRouterStates.

(* ===================================================================== *)
(** * More of the job engine: isolation, order and retention *)
(* ===================================================================== *)

Section JobBooks.
Import job_service.

Lemma run_reports_fields (id : string) (rs : list (Z * string)) :
  forall m job,
    jobs m !! id = Some job ->
    exists job',
      jobs (run_reports id rs m) !! id = Some job'
      /\ status job' = status job /\ error job' = error job
      /\ job_id job' = job_id job /\ task_func job' = task_func job
      /\ completed_at job' = completed_at job /\ result job' = result job
      /\ job_service.session_id job' = job_service.session_id job.
Proof.
  unfold run_reports. induction rs as [|[p msg] rs IH]; intros m job Hjob; cbn [foldl fst snd].
  - exists job. by repeat split.
  - destruct (update_job_progress_on_job id p msg m) as (J1 & _ & _).
    destruct (IH (update_job_progress id p msg m) (set_progress p msg job))
      as (job' & E & H); [by rewrite J1, on_job_lookup, Hjob|].
    exists job'. done.
Qed.

(** X9. The execution of a job, with the progress reports of its task, touches
    this job only: every other job is as it was, and so are the queue and
    the running flag; a progress update for one job leaves the others as
    they are. *)
Theorem execution_touches_one_job (now : Z) (job : Job) (m : JobManager) (other : string)
    (Hother : other <> job_id job) :
  jobs (_execute_job now job m).2 !! other = jobs m !! other
  /\ _queue (_execute_job now job m).2 = _queue m
  /\ _running (_execute_job now job m).2 = _running m
  /\ forall progress message,
       jobs (update_job_progress (job_id job) progress message m) !! other = jobs m !! other.
Proof.
  assert (Hne : job_id job <> other) by done.
  unfold _execute_job.
  destruct (task_func job) as [f|].
  - destruct (run_reports_frame (job_id job) (reports (f (job_id job) (job_service.session_id job)))
                (on_job (job_id job) set_processing m)) as (Hq & Hr & Hj).
    split; [|split; [|split]].
    + destruct (ending _); cbn [snd];
        rewrite ?on_job_lookup_ne by done; rewrite Hj by done; by apply on_job_lookup_ne.
    + destruct (ending _); cbn [snd]; by rewrite ?Hq.
    + destruct (ending _); cbn [snd]; by rewrite ?Hr.
    + intros p msg. destruct (update_job_progress_on_job (job_id job) p msg m) as (J & _ & _).
      rewrite J. by apply on_job_lookup_ne.
  - cbn [snd]. repeat split; try done.
    + by rewrite !on_job_lookup_ne.
    + intros p msg. destruct (update_job_progress_on_job (job_id job) p msg m) as (J & _ & _).
      rewrite J. by apply on_job_lookup_ne.
Qed.

(** What [_execute_job] leaves of the job it runs. *)
Lemma execute_job_result (now : Z) (job : Job) (m : JobManager) :
  jobs m !! job_id job = Some job ->
  exists job1,
    jobs (_execute_job now job m).2 !! job_id job = Some job1
    /\ job_id job1 = job_id job
    /\ match task_func job with
       | Some f =>
           match ending (f (job_id job) (job_service.session_id job)) with
           | Returns r =>
               status job1 = COMPLETED /\ completed_at job1 = Some now
               /\ error job1 = error job /\ (_execute_job now job m).1 = true
           | Raises e =>
               status job1 = FAILED /\ completed_at job1 = Some now
               /\ error job1 = Some (Py.str_of_exn e) /\ (_execute_job now job m).1 = true
           | Cancelled =>
               status job1 = PROCESSING /\ completed_at job1 = completed_at job
               /\ error job1 = error job /\ (_execute_job now job m).1 = false
           end
       | None =>
           status job1 = COMPLETED /\ completed_at job1 = Some now
           /\ error job1 = error job /\ (_execute_job now job m).1 = true
       end.
Proof.
  intros Hjob. unfold _execute_job.
  assert (E1 : jobs (on_job (job_id job) set_processing m) !! job_id job
               = Some (set_processing job)) by (by rewrite on_job_lookup, Hjob).
  destruct (task_func job) as [f|].
  - destruct (run_reports_fields (job_id job)
                (reports (f (job_id job) (job_service.session_id job))) _ _ E1)
      as (job' & E & Hs & He & Hi & Ht & Hc & Hr & Hsid).
    destruct (ending (f (job_id job) (job_service.session_id job))) as [r|e|]; cbn [fst snd].
    + eexists. rewrite on_job_lookup, E. split; [reflexivity|]. simpl. by rewrite Hi, He.
    + eexists. rewrite on_job_lookup, E. split; [reflexivity|]. simpl. by rewrite Hi.
    + exists job'. split; [done|]. by rewrite Hi, Hs, Hc, He.
  - cbn [fst snd]. eexists. rewrite on_job_lookup, E1. split; [reflexivity|]. done.
Qed.

Lemma not_terminal_pending (job : Job) :
  status job = PENDING -> ~ terminal (status job) /\ status job <> FAILED.
Proof. intros ->. split; [intros [?|?]; done | done]. Qed.

Lemma lifecycle_ok_init : lifecycle_ok init.
Proof.
  split; [constructor|]. split.
  - intros id. split; [by intros ?%elem_of_nil|]. intros (job & H & _).
    unfold init in H; simpl in H. by rewrite lookup_empty in H.
  - intros id job H. unfold init in H; simpl in H. by rewrite lookup_empty in H.
Qed.

Lemma lifecycle_ok_create (id : string) (now : Z) (sid jt : string) (tf : option Callable)
    (m : JobManager) :
  jobs m !! id = None -> lifecycle_ok m -> lifecycle_ok (create_job id now sid jt tf m).2.
Proof.
  intros Hfresh (Hnd & Hq & Hj). unfold lifecycle_ok, create_job; cbn [snd jobs _queue].
  assert (Hnotin : id ∉ _queue m).
  { intros Hin. apply Hq in Hin as (job & Hjob & _). congruence. }
  split; [|split].
  - apply NoDup_app. split; [done|]. split; [|apply NoDup_singleton].
    intros x Hx ->%list_elem_of_singleton. done.
  - intros id'. rewrite elem_of_app, list_elem_of_singleton. split.
    + intros [Hin | ->].
      * apply Hq in Hin as (job & Hjob & Hs). exists job. split; [|done].
        rewrite lookup_insert_ne; [done|]. intros <-. congruence.
      * eexists. rewrite lookup_insert_eq. split; [reflexivity|done].
    + intros (job & Hjob & Hs). destruct (decide (id = id')) as [<-|Hne]; [by right|].
      left. apply Hq. exists job. by rewrite lookup_insert_ne in Hjob.
  - intros id' job Hjob. destruct (decide (id = id')) as [<-|Hne].
    + rewrite lookup_insert_eq in Hjob. inversion Hjob; subst; simpl.
      split; [done|]. split; split.
      * by intros [? ?].
      * intros [?|?]; done.
      * by intros [? ?].
      * done.
    + rewrite lookup_insert_ne in Hjob by done. by apply Hj.
Qed.

Lemma lifecycle_ok_update (id : string) (p : Z) (msg : string) (m : JobManager) :
  lifecycle_ok m -> lifecycle_ok (update_job_progress id p msg m).
Proof.
  intros (Hnd & Hq & Hj).
  destruct (update_job_progress_on_job id p msg m) as (J & Q & _).
  assert (Hlook : forall id', jobs (update_job_progress id p msg m) !! id'
                  = (if decide (id = id') then set_progress p msg else fun j => j)
                      <$> jobs m !! id').
  { intros id'. rewrite J. destruct (decide (id = id')) as [<-|Hne].
    - by rewrite on_job_lookup.
    - rewrite on_job_lookup_ne by done. by destruct (jobs m !! id'). }
  split; [by rewrite Q|]. split.
  - intros id'. rewrite Q, Hq, Hlook. split.
    + intros (job & -> & Hs). eexists. split; [reflexivity|]. by destruct (decide (id = id')).
    + intros (job & Hjob & Hs). destruct (jobs m !! id') as [job0|]; [|done].
      exists job0. split; [done|]. simpl in Hjob. inversion Hjob; subst.
      by destruct (decide (id = id')).
  - intros id' job Hjob. rewrite Hlook in Hjob.
    destruct (jobs m !! id') as [job0|] eqn:E; [|done]. simpl in Hjob. inversion Hjob; subst.
    destruct (Hj id' job0 E) as (H1 & H2 & H3). destruct (decide (id = id')); simpl; done.
Qed.

Lemma lifecycle_ok_iteration (t : tick) (m : JobManager) :
  lifecycle_ok m -> lifecycle_ok (iteration t m).1.
Proof.
  intros Hok. pose proof Hok as (Hnd & Hq & Hj).
  unfold iteration. destruct t as [now|]; [|exact Hok].
  destruct (_queue m) as [|id queue] eqn:Equeue; [exact Hok|]. cbn [jobs].
  assert (Hhead : exists job, jobs m !! id = Some job /\ status job = PENDING).
  { apply Hq. by left. }
  destruct Hhead as (job & Hjob & Hpending). rewrite Hjob.
  destruct (Hj id job Hjob) as (Hid & Hc & He).
  set (m1 := {| jobs := jobs m; _queue := queue; _running := _running m |}).
  assert (Hjob1 : jobs m1 !! job_id job = Some job) by (by rewrite Hid).
  destruct (execute_job_result now job m1 Hjob1) as (job1 & E1 & Hid1 & Hres).
  assert (Hframe : forall other, other <> id ->
            jobs (_execute_job now job m1).2 !! other = jobs m !! other).
  { intros other Hne.
    destruct (execution_touches_one_job now job m1 other) as (H & _); [by rewrite Hid|done]. }
  assert (Hqueue : _queue (_execute_job now job m1).2 = queue).
  { unfold _execute_job. destruct (task_func job) as [f|]; [|done].
    destruct (run_reports_frame (job_id job)
                (reports (f (job_id job) (job_service.session_id job)))
                (on_job (job_id job) set_processing m1)) as (Hq1 & _ & _).
    destruct (ending _); cbn [snd]; by rewrite ?Hq1. }
  rewrite Hid in E1.
  assert (Hnotpending : status job1 <> PENDING).
  { destruct (task_func job) as [f|].
    - destruct (ending _); destruct Hres as (-> & _); done.
    - destruct Hres as (-> & _); done. }
  destruct (not_terminal_pending job Hpending) as [Hnt Hnf].
  assert (Hfields : (is_Some (completed_at job1) <-> terminal (status job1))
                    /\ (is_Some (error job1) <-> status job1 = FAILED)).
  { destruct (task_func job) as [f|].
    - destruct (ending _); destruct Hres as (Hs & Hcp & Her & _); rewrite Hs, Hcp, Her.
      + split; split; try done.
        * intros _. by left.
        * rewrite He. done.
      + split; split; try done. intros _. by right.
      + split; split; try done.
        * rewrite Hc. done.
        * intros [?|?]; done.
        * rewrite He. done.
    - destruct Hres as (Hs & Hcp & Her & _); rewrite Hs, Hcp, Her.
      split; split; try done.
      * intros _. by left.
      * rewrite He. done. }
  apply NoDup_cons in Hnd as [Hnotin Hnd'].
  destruct (_execute_job now job m1) as [returned m2] eqn:Eexec. cbn [fst snd] in *.
  split; [by rewrite Hqueue|]. split.
  - intros id'. rewrite Hqueue. split.
    + intros Hin. assert (Hne : id' <> id) by (intros ->; done).
      rewrite Hframe by done. apply Hq. by right.
    + intros (job' & Hjob' & Hs'). destruct (decide (id' = id)) as [->|Hne].
      * rewrite E1 in Hjob'. inversion Hjob'; subst. done.
      * rewrite Hframe in Hjob' by done.
        assert (Hin : id' ∈ id :: queue) by (apply Hq; eauto).
        apply elem_of_cons in Hin as [?|?]; done.
  - intros id' job' Hjob'. destruct (decide (id' = id)) as [->|Hne].
    + rewrite E1 in Hjob'. inversion Hjob'; subst. split; [by rewrite Hid1|done].
    + rewrite Hframe in Hjob' by done. by apply Hj.
Qed.

Lemma lifecycle_ok_run_op (m : JobManager) (o : op) :
  op_fresh m o -> lifecycle_ok m -> lifecycle_ok (run_op m o).
Proof.
  destruct o as [id now sid jt tf | id p msg | t]; simpl; intros Hf Hok.
  - by apply lifecycle_ok_create.
  - by apply lifecycle_ok_update.
  - by apply lifecycle_ok_iteration.
Qed.

Lemma lifecycle_ok_run_ops (ops : list op) :
  forall m, ops_fresh m ops -> lifecycle_ok m -> lifecycle_ok (run_ops ops m).
Proof.
  unfold run_ops. induction ops as [|o ops IH]; intros m Hf Hok; simpl; [done|].
  destruct Hf as [Hf Hfs]. apply IH; [done|]. by apply lifecycle_ok_run_op.
Qed.

Lemma later_state_refl (job : Job) : later_state job job.
Proof. split; [lia | done]. Qed.

Lemma later_state_trans (a b c : Job) : later_state a b -> later_state b c -> later_state a c.
Proof.
  intros [R1 T1] [R2 T2]. split; [lia|]. intros Ht.
  destruct (T1 Ht) as (S1 & E1 & C1 & Re1).
  assert (Htb : terminal (status b)) by (by rewrite S1).
  destruct (T2 Htb) as (S2 & E2 & C2 & Re2). repeat split; congruence.
Qed.

Lemma run_op_later_state (m : JobManager) (o : op) (id : string) (job : Job) :
  lifecycle_ok m -> op_fresh m o -> jobs m !! id = Some job ->
  exists job', jobs (run_op m o) !! id = Some job' /\ later_state job job'.
Proof.
  intros Hok Hfresh Hjob. pose proof Hok as (Hnd & Hq & Hj).
  destruct o as [id0 now sid jt tf | id0 p msg | t]; simpl in *.
  - exists job. split; [|apply later_state_refl].
    rewrite lookup_insert_ne; [done|]. intros ->. congruence.
  - destruct (update_job_progress_on_job id0 p msg m) as (J & _ & _). rewrite J.
    destruct (decide (id0 = id)) as [->|Hne].
    + rewrite on_job_lookup, Hjob. eexists. split; [reflexivity|]. split; simpl; [lia|done].
    + rewrite on_job_lookup_ne by done. exists job. split; [done|apply later_state_refl].
  - unfold iteration. destruct t as [now|]; [|exists job; split; [done|apply later_state_refl]].
    destruct (_queue m) as [|id0 queue] eqn:Equeue;
      [exists job; split; [done|apply later_state_refl]|]. cbn [jobs].
    assert (Hhead : exists job0, jobs m !! id0 = Some job0 /\ status job0 = PENDING).
    { apply Hq. by left. }
    destruct Hhead as (job0 & Hjob0 & Hpending). rewrite Hjob0.
    destruct (Hj id0 job0 Hjob0) as (Hid & _).
    set (m1 := {| jobs := jobs m; _queue := queue; _running := _running m |}).
    assert (Hjob1 : jobs m1 !! job_id job0 = Some job0) by (by rewrite Hid).
    destruct (execute_job_result now job0 m1 Hjob1) as (job1 & E1 & _ & _).
    destruct (decide (id = id0)) as [->|Hne].
    + rewrite Hid in E1. rewrite Hjob0 in Hjob. inversion Hjob; subst job0.
      destruct (_execute_job now job m1) as [returned m2]. cbn [fst snd] in *.
      exists job1. split; [done|]. split.
      * rewrite Hpending. simpl. lia.
      * intros Ht. by destruct (not_terminal_pending job Hpending).
    + destruct (execution_touches_one_job now job0 m1 id) as (H & _); [by rewrite Hid|].
      destruct (_execute_job now job0 m1) as [returned m2]. cbn [fst snd] in *.
      exists job. split; [by rewrite H|apply later_state_refl].
Qed.

(** X10. The status of a job never goes back. Through any sequence of job
    creations with fresh identifiers, progress updates and loop
    iterations, a job stays stored, its status moves only forward in the
    order pending, processing, completed or failed, and once it is
    completed or failed its status, error, completion time and result are
    kept for good. *)
Theorem status_never_goes_back (ops : list op) :
  forall (m : JobManager) (id : string) (job : Job),
    lifecycle_ok m -> ops_fresh m ops -> jobs m !! id = Some job ->
    exists job',
      jobs (run_ops ops m) !! id = Some job'
      /\ (rank (status job) <= rank (status job'))%nat
      /\ (terminal (status job) ->
          status job' = status job /\ error job' = error job
          /\ completed_at job' = completed_at job /\ result job' = result job).
Proof.
  unfold run_ops. induction ops as [|o ops IH]; intros m id job Hok Hf Hjob; simpl.
  - exists job. split; [done|]. apply later_state_refl.
  - destruct Hf as [Hf Hfs].
    destruct (run_op_later_state m o id job Hok Hf Hjob) as (job1 & Hjob1 & Hl1).
    destruct (IH (run_op m o) id job1 (lifecycle_ok_run_op m o Hf Hok) Hfs Hjob1)
      as (job2 & Hjob2 & Hl2).
    exists job2. split; [done|]. by apply (later_state_trans job job1 job2).
Qed.

(** X11. When the queue is empty the loop changes nothing, however long it runs
    (each wait ends in a timeout); once [stop] was called the loop does
    nothing more, whatever waits in the queue; and a [stop] that comes
    before [process_jobs] starts is lost, since [process_jobs] sets the
    running flag again. *)
Theorem idle_loop_changes_nothing (ticks : list tick) (m : JobManager) :
  (_queue m = [] -> loop ticks m = m)
  /\ loop ticks (stop m) = stop m
  /\ process_jobs ticks (stop m) = process_jobs ticks m.
Proof.
  assert (Hidle : forall m', _queue m' = [] -> loop ticks m' = m').
  { induction ticks as [|t ticks IH]; intros m' Hq; simpl; [done|].
    destruct (_running m'); [|done]. unfold iteration.
    destruct t as [now|]; [|done]. rewrite Hq. by apply IH. }
  split; [apply Hidle|]. split.
  - destruct ticks; done.
  - reflexivity.
Qed.

Lemma loop_queue_suffix (ticks : list tick) :
  forall m, lifecycle_ok m ->
            lifecycle_ok (loop ticks m) /\ _queue (loop ticks m) `suffix_of` _queue m.
Proof.
  induction ticks as [|t ticks IH]; intros m Hok; simpl; [done|].
  destruct (_running m); [|done].
  pose proof (lifecycle_ok_iteration t m Hok) as Hok1.
  assert (Hsuf : _queue (iteration t m).1 `suffix_of` _queue m).
  { unfold iteration. destruct t as [now|]; [|done].
    destruct (_queue m) as [|id queue] eqn:Equeue; [cbn [fst]; by rewrite Equeue|]. cbn [jobs].
    destruct (jobs m !! id) as [job|]; [|cbn [fst _queue]; by apply suffix_cons_r].
    set (m1 := {| jobs := jobs m; _queue := queue; _running := _running m |}).
    assert (Hqueue : _queue (_execute_job now job m1).2 = queue).
    { unfold _execute_job. destruct (task_func job) as [f|]; [|done].
      destruct (run_reports_frame (job_id job)
                  (reports (f (job_id job) (job_service.session_id job)))
                  (on_job (job_id job) set_processing m1)) as (Hq1 & _ & _).
      destruct (ending _); cbn [snd]; by rewrite ?Hq1. }
    destruct (_execute_job now job m1) as [returned m2]. cbn [fst snd] in *.
    rewrite Hqueue. by apply suffix_cons_r. }
  destruct (iteration t m) as [m1 goes_on]. cbn [fst] in *.
  destruct goes_on; [|done].
  destruct (IH m1 Hok1) as [Hok2 Hsuf2]. split; [done|]. by etrans.
Qed.

Lemma app_cons_unique {A} (l1 l1' l2 l2' : list A) (a : A) :
  a ∉ l1 -> a ∉ l1' -> l1 ++ a :: l2 = l1' ++ a :: l2' -> l1 = l1' /\ l2 = l2'.
Proof.
  revert l1'. induction l1 as [|x l1 IH]; intros [|y l1'] H1 H2 Heq; simpl in *.
  - by inversion Heq.
  - inversion Heq; subst. exfalso. apply H2. by left.
  - inversion Heq; subst. exfalso. apply H1. by left.
  - inversion Heq; subst. destruct (IH l1') as [-> ->]; try done.
    + intros Hin. apply H1. by right.
    + intros Hin. apply H2. by right.
Qed.

Lemma loop_keeps_jobs (ticks : list tick) :
  forall m id job, lifecycle_ok m -> jobs m !! id = Some job ->
                   exists job', jobs (loop ticks m) !! id = Some job'.
Proof.
  induction ticks as [|t ticks IH]; intros m id job Hok Hjob; simpl; [eauto|].
  destruct (_running m); [|eauto].
  destruct (run_op_later_state m (Iteration t) id job Hok I Hjob) as (job1 & Hjob1 & _).
  pose proof (lifecycle_ok_iteration t m Hok) as Hok1. simpl in Hjob1.
  destruct (iteration t m) as [m1 goes_on]. cbn [fst] in *.
  destruct goes_on; [|eauto]. by apply (IH m1 id job1).
Qed.

(** X12. Jobs are started in the order of their submission: if [a] is in the queue
    before [b] and the loop has taken [b] (it is no longer pending), then
    it has taken [a] as well. *)
Theorem jobs_start_in_submission_order
    (ticks : list tick) (m : JobManager) (before : list string) (a b : string)
    (after : list string) (job_b : Job)
    (Hok : lifecycle_ok m)
    (Hqueue : _queue m = before ++ a :: after)
    (Hlater : b ∈ after)
    (Hstarted : jobs (loop ticks m) !! b = Some job_b /\ status job_b <> PENDING) :
  exists job_a, jobs (loop ticks m) !! a = Some job_a /\ status job_a <> PENDING.
Proof.
  destruct (loop_queue_suffix ticks m Hok) as [Hok' [pre Hpre]].
  pose proof Hok as (Hnd & Hq & _). pose proof Hok' as (Hnd' & Hq' & _).
  destruct Hstarted as [Hb Hbs].
  assert (Hbq : b ∉ _queue (loop ticks m)).
  { intros Hin. apply Hq' in Hin as (job & Hjob & Hs). congruence. }
  assert (Haq : a ∉ _queue (loop ticks m)).
  { intros Hin. rewrite Hqueue in Hpre, Hnd.
    (* the waiting jobs are the end of the queue: if [a] waits, so does [b] *)
    apply list_elem_of_split in Hin as (l1 & l2 & Hl). rewrite Hl in Hpre, Hbq.
    assert (Heq : before ++ a :: after = (pre ++ l1) ++ a :: l2)
      by (by rewrite Hpre, <- app_assoc).
    assert (Hna1 : a ∉ before).
    { pose proof Hnd as Hnd1. apply NoDup_app in Hnd1 as (_ & Hd & _).
      intros Hin. apply (Hd a Hin). by left. }
    assert (Hna2 : a ∉ pre ++ l1).
    { pose proof Hnd as Hnd2. rewrite Heq in Hnd2. apply NoDup_app in Hnd2 as (_ & Hd & _).
      intros Hin. apply (Hd a Hin). by left. }
    destruct (app_cons_unique _ _ _ _ _ Hna1 Hna2 Heq) as [_ Hafter].
    apply Hbq. rewrite elem_of_app. right. right. by rewrite <- Hafter. }
  assert (Hina : a ∈ _queue m) by (rewrite Hqueue, elem_of_app; right; by left).
  apply Hq in Hina as (job_a0 & Hja0 & _).
  destruct (loop_keeps_jobs ticks m a job_a0 Hok Hja0) as (job_a & Hja).
  exists job_a. split; [done|]. intros Hs. apply Haq. apply Hq'. eauto.
Qed.

Lemma cleanup_lookup (now : Z) (m : JobManager) (id : string) (job : Job) :
  jobs (cleanup_old_jobs now m) !! id = Some job
  <-> jobs m !! id = Some job /\ expired now job = false.
Proof. unfold cleanup_old_jobs; cbn [jobs]. by rewrite map_lookup_filter_Some. Qed.

(** X13. [cleanup_old_jobs] removes the jobs that were completed or failed more
    than 24 hours ago, and nothing else: a pending or processing job is
    kept whatever its age, a finished job is kept up to and including 24
    hours after its completion and removed later, no job appears, the queue
    is as it was, and the manager stays in good order. *)
Theorem cleanup_removes_old_finished_jobs_only (now : Z) (m : JobManager)
    (Hok : lifecycle_ok m) :
  (forall id job, jobs m !! id = Some job -> ~ terminal (status job) ->
                  jobs (cleanup_old_jobs now m) !! id = Some job)
  /\ (forall id job, jobs m !! id = Some job -> terminal (status job) ->
        exists finished,
          completed_at job = Some finished
          /\ (now - finished <= 24 * 3600 -> jobs (cleanup_old_jobs now m) !! id = Some job)
          /\ (24 * 3600 < now - finished -> jobs (cleanup_old_jobs now m) !! id = None))
  /\ (forall id, jobs m !! id = None -> jobs (cleanup_old_jobs now m) !! id = None)
  /\ _queue (cleanup_old_jobs now m) = _queue m
  /\ lifecycle_ok (cleanup_old_jobs now m).
Proof.
  pose proof Hok as (Hnd & Hq & Hj).
  assert (Hlive : forall id job, jobs m !! id = Some job -> ~ terminal (status job) ->
                    jobs (cleanup_old_jobs now m) !! id = Some job).
  { intros id job Hjob Hnt. apply cleanup_lookup. split; [done|].
    destruct (Hj id job Hjob) as (_ & Hc & _). unfold expired.
    destruct (completed_at job) as [t|] eqn:E; [|done].
    exfalso. apply Hnt, Hc. eauto. }
  split; [exact Hlive|]. split; [|split; [|split; [done|]]].
  - intros id job Hjob Ht. destruct (Hj id job Hjob) as (_ & Hc & _).
    apply Hc in Ht as [t Ht]. exists t. split; [done|]. split.
    + intros Hle. apply cleanup_lookup. split; [done|]. unfold expired. rewrite Ht.
      unfold JOB_RETENTION_HOURS. apply Z.ltb_ge. lia.
    + intros Hlt. destruct (jobs (cleanup_old_jobs now m) !! id) as [job'|] eqn:E; [|done].
      apply cleanup_lookup in E as [E1 E2]. rewrite Hjob in E1. inversion E1; subst job'.
      unfold expired in E2. rewrite Ht in E2. unfold JOB_RETENTION_HOURS in E2.
      apply Z.ltb_ge in E2. lia.
  - intros id Hnone. destruct (jobs (cleanup_old_jobs now m) !! id) as [job'|] eqn:E; [|done].
    apply cleanup_lookup in E as [E1 _]. congruence.
  - split; [done|]. split.
    + intros id. cbn [cleanup_old_jobs _queue]. rewrite Hq. split.
      * intros (job & Hjob & Hs). exists job. split; [|done]. apply Hlive; [done|].
        by destruct (not_terminal_pending job Hs).
      * intros (job & Hjob & Hs). apply cleanup_lookup in Hjob as [Hjob _]. eauto.
    + intros id job Hjob. apply cleanup_lookup in Hjob as [Hjob _]. by apply Hj.
Qed.

(** X14. Every state a job manager reaches from its creation, by job creations
    with fresh identifiers, progress updates and loop iterations, is in
    good order: the queue holds each pending job once and nothing else, a
    job is stored under its own identifier, it has a completion time
    exactly when it is completed or failed, and an error text exactly when
    it is failed. *)
Theorem reachable_managers_keep_their_books (ops : list op)
    (Hfresh : ops_fresh init ops) :
  lifecycle_ok (run_ops ops init).
Proof. apply lifecycle_ok_run_ops; [done | apply lifecycle_ok_init]. Qed.
End JobBooks.

(* ===================================================================== *)
(** * More of the slides: the invariant of a history *)
(* ===================================================================== *)

Section SlideHistories.
Import crud.




Lemma apply_ops_length (ops : list slide_op) :
  forall slide, numbered (SlideModel.versions slide) ->
    length (SlideModel.versions (apply_ops ops slide))
    = (length (SlideModel.versions slide) + appends ops)%nat.
Proof.
  unfold apply_ops. induction ops as [|o ops IH]; intros slide Hn; simpl; [lia|].
  destruct (apply_op_keeps slide o Hn) as [Hn1 _]. rewrite (IH _ Hn1).
  destruct o as [now title content notes instruction | now i]; cbn [apply_op].
  - rewrite update_slide_content_appends by done. rewrite length_app. simpl. lia.
  - destruct (rollback_slide_version now slide i) as [slide'|] eqn:E; cbn [from_option id]; [|lia].
    apply rollback_keeps_versions in E as [E _]. rewrite E. lia.
Qed.

(** X16. The history of a slide only grows, and by appends alone: after any
    sequence of appends and rollbacks the slide has its former versions as
    a prefix, as many more versions as there were appends, and after one
    more append the pointer is on the last version and the slide shows the
    title, bullets and notes just written. *)
Theorem history_only_grows (slide : SlideModel.t) (ops : list slide_op)
    (now : Z) (title : string) (content : list string)
    (speaker_notes instruction : option string)
    (Hnumbered : numbered (SlideModel.versions slide)) :
  length (SlideModel.versions (apply_ops ops slide))
  = (length (SlideModel.versions slide) + appends ops)%nat
  /\ SlideModel.versions slide `prefix_of` SlideModel.versions (apply_ops ops slide)
  /\ let appended :=
       apply_ops (ops ++ [Append now title content speaker_notes instruction]) slide in
     SlideModel.current_version appended
     = Z.of_nat (length (SlideModel.versions appended)) - 1
     /\ SlideModel.title appended = title
     /\ SlideModel.content_json appended = content
     /\ SlideModel.speaker_notes appended = speaker_notes.
Proof.
  split; [by apply apply_ops_length|].
  destruct (apply_ops_keeps ops slide Hnumbered) as [Hn Hp]. split; [done|].
  cbn zeta. unfold apply_ops. rewrite foldl_app. cbn [foldl apply_op].
  fold (apply_ops ops slide).
  rewrite update_slide_content_appends by done.
  unfold update_slide_content; simpl. rewrite length_app. simpl. repeat split. lia.
Qed.

(** X17. A rollback forgets the rollback before it: after a rollback that
    succeeded, a rollback to [j] gives what the rollback to [j] gives on the
    slide as it was before, the versions are untouched, and a rollback is
    refused exactly when the index is negative or not below the number of
    versions. *)
Theorem rollbacks_compose (slide rolled : SlideModel.t) (now now' : Z) (i j : Z)
    (Hfirst : rollback_slide_version now slide i = Some rolled) :
  rollback_slide_version now' rolled j = rollback_slide_version now' slide j
  /\ SlideModel.versions rolled = SlideModel.versions slide
  /\ (rollback_slide_version now' slide j = None <->
      j < 0 \/ Z.of_nat (length (SlideModel.versions slide)) <= j).
Proof.
  pose proof (rollback_keeps_versions _ _ _ _ Hfirst) as [Hv Hc].
  split; [|split; [done|]].
  - unfold rollback_slide_version in *. rewrite Hv.
    destruct ((j <? 0) || (Z.of_nat (length (SlideModel.versions slide)) <=? j)); [done|].
    destruct (SlideModel.versions slide !! Z.to_nat j) as [w|]; [|done].
    destruct ((i <? 0) || (Z.of_nat (length (SlideModel.versions slide)) <=? i)); [done|].
    destruct (SlideModel.versions slide !! Z.to_nat i) as [u|]; [|done].
    inversion Hfirst; subst. done.
  - split; [|apply rollback_out_of_range].
    intros Hnone. destruct (decide (j < 0)) as [?|Hj]; [by left|]. right.
    destruct (decide (Z.of_nat (length (SlideModel.versions slide)) <= j)) as [?|Hlt]; [done|].
    destruct (lookup_lt_is_Some_2 (SlideModel.versions slide) (Z.to_nat j)) as [w Hw]; [lia|].
    rewrite (rollback_in_range now' slide j w) in Hnone; [done|lia|done].
Qed.
End SlideHistories.

(* ===================================================================== *)
(** * The session manager: lookup, slide operations and the cache *)
(* ===================================================================== *)

Section SessionStore.
Import crud session_service.

Lemma slides_numbered_elem (n : Z) (slides : list SlideModel.t) (i : nat) (s : SlideModel.t) :
  (i, s) ∈ slides_numbered n slides
  <-> slides !! i = Some s /\ SlideModel.slide_number s = n.
Proof.
  unfold slides_numbered. rewrite list_elem_of_filter, elem_of_lookup_imap. simpl. split.
  - intros [Hn (j & y & Heq & Hy)]. inversion Heq; subst. done.
  - intros [Hs Hn]. split; [done|]. by exists i, s.
Qed.

Lemma slides_numbered_NoDup (n : Z) (slides : list SlideModel.t) :
  NoDup ((slides_numbered n slides).*1).
Proof.
  unfold slides_numbered.
  eapply sublist_NoDup; [|apply fmap_sublist, sublist_filter].
  rewrite fmap_imap.
  replace (imap (fun n0 : nat => fst ∘ pair n0) slides)
    with (id <$> seq 0 (length slides)) by (symmetry; apply (imap_seq_0 slides id)).
  rewrite list_fmap_id. apply NoDup_seq.
Qed.

(** The rows [get_slide] selects, by cases. *)
Lemma slides_numbered_cases (n : Z) (slides : list SlideModel.t) :
  (slides_numbered n slides = []
   /\ Forall (fun s => SlideModel.slide_number s <> n) slides)
  \/ (exists i s, slides_numbered n slides = [(i, s)]
      /\ forall j t, slides !! j = Some t -> SlideModel.slide_number t = n -> j = i /\ t = s)
  \/ (exists i j a b rest, slides_numbered n slides = (i, a) :: (j, b) :: rest /\ i <> j
      /\ slides !! i = Some a /\ slides !! j = Some b
      /\ SlideModel.slide_number a = n /\ SlideModel.slide_number b = n).
Proof.
  pose proof (slides_numbered_NoDup n slides) as Hnd.
  pose proof (slides_numbered_elem n slides) as Hel.
  destruct (slides_numbered n slides) as [|[i a] [|[j b] rest]].
  - left. split; [done|]. apply Forall_lookup. intros k s Hk Hn.
    assert (H : (k, s) ∈ @nil (nat * SlideModel.t)) by (by apply Hel). by apply elem_of_nil in H.
  - right; left. exists i, a. split; [done|]. intros k t Hk Hn.
    assert (H : (k, t) ∈ [(i, a)]) by (by apply Hel).
    apply list_elem_of_singleton in H. by inversion H.
  - right; right. exists i, j, a, b, rest. split; [done|].
    destruct (proj1 (Hel i a)) as [? ?]; [left|].
    destruct (proj1 (Hel j b)) as [? ?]; [right; left|].
    simpl in Hnd. apply NoDup_cons in Hnd as [Hni _].
    split; [|done]. intros ->. apply Hni. left.
Qed.

(** X18. [get_slide] looks a slide up by its number. When the slides of the
    session have pairwise distinct numbers, it returns a slide exactly when
    the session holds it under that number, and [None] exactly when no
    slide has that number; when two slides of the session carry the number,
    it raises [MultipleResultsFound]. *)
Theorem get_slide_finds_the_numbered_slide
    (d : Database) (session_id : string) (session : SessionModel.t) (slide_number : Z)
    (Hsession : get_session_by_uuid d session_id = Some session) :
  (* pairwise distinct numbers: the slide is found where it is *)
  (NoDup (SlideModel.slide_number <$> SessionModel.slides session) ->
   (forall i slide,
      get_slide d session_id slide_number = Py.Ok (Some (i, slide))
      <-> SessionModel.slides session !! i = Some slide
          /\ SlideModel.slide_number slide = slide_number)
   /\ (get_slide d session_id slide_number = Py.Ok None
       <-> Forall (fun s => SlideModel.slide_number s <> slide_number)
                  (SessionModel.slides session)))
  (* two slides of that number: the query raises *)
  /\ (forall i j a b,
        i <> j ->
        SessionModel.slides session !! i = Some a ->
        SessionModel.slides session !! j = Some b ->
        SlideModel.slide_number a = slide_number ->
        SlideModel.slide_number b = slide_number ->
        get_slide d session_id slide_number = Py.Raise Py.MultipleResultsFound).
Proof.
  unfold get_slide. rewrite Hsession.
  destruct (slides_numbered_cases slide_number (SessionModel.slides session))
    as [[E Hall] | [(i0 & s0 & E & Huniq) | (i0 & j0 & a0 & b0 & rest & E & Hne & Ha & Hb & Hna & Hnb)]];
    rewrite E.
  - split.
    + intros _. split; [|done]. intros i slide. split; [done|]. intros [Hs Hn].
      eapply Forall_lookup_1 in Hall; [|exact Hs]. done.
    + intros i j a b Hij Ha Hb Hna Hnb.
      eapply Forall_lookup_1 in Hall; [|exact Ha]. done.
  - assert (Hin : (i0, s0) ∈ slides_numbered slide_number (SessionModel.slides session))
      by (rewrite E; left).
    apply slides_numbered_elem in Hin as [Hs0 Hn0].
    split.
    + intros _. split.
      * intros i slide. split.
        -- intros H. inversion H; subst. done.
        -- intros [Hs Hn]. destruct (Huniq i slide Hs Hn) as [-> ->]. done.
      * split; [done|]. intros Hall.
        eapply Forall_lookup_1 in Hall; [|exact Hs0]. done.
    + intros i j a b Hij Ha Hb Hna Hnb.
      destruct (Huniq i a Ha Hna) as [-> _]. destruct (Huniq j b Hb Hnb) as [-> _]. done.
  - split; [|done]. intros Hnd. exfalso. apply Hne.
    apply (proj1 (NoDup_alt _) Hnd i0 j0 slide_number); rewrite list_lookup_fmap.
    + by rewrite Ha, <- Hna.
    + by rewrite Hb, <- Hnb.
Qed.

Lemma refresh_some (session_id : string) (sm : SessionManager) (row : SessionModel.t) :
  db sm !! session_id = Some row ->
  refresh session_id sm
  = (Some (_db_session_to_schema row),
     cache session_id (_db_session_to_schema row) sm).
Proof. intros H. unfold refresh, get_session_by_uuid. by rewrite H. Qed.

Lemma get_slide_some (d : Database) (session_id : string) (n : Z) (i : nat)
    (db_slide : SlideModel.t) :
  get_slide d session_id n = Py.Ok (Some (i, db_slide)) ->
  exists session,
    d !! session_id = Some session
    /\ SessionModel.slides session !! i = Some db_slide
    /\ SlideModel.slide_number db_slide = n
    /\ forall j t, SessionModel.slides session !! j = Some t ->
                   SlideModel.slide_number t = n -> j = i.
Proof.
  unfold get_slide, get_session_by_uuid.
  destruct (d !! session_id) as [session|] eqn:Hd; [|done]. intros H.
  exists session. split; [done|].
  destruct (slides_numbered_cases n (SessionModel.slides session))
    as [[E _] | [(i0 & s0 & E & Huniq) | (i0 & j0 & a0 & b0 & rest & E & _)]];
    rewrite E in H; [done| |done].
  inversion H; subst.
  assert (Hin : (i, db_slide) ∈ slides_numbered n (SessionModel.slides session))
    by (rewrite E; left).
  apply slides_numbered_elem in Hin as [Hs Hn].
  split; [done|]. split; [done|]. intros j t Hj Ht. by destruct (Huniq j t Hj Ht).
Qed.

Lemma find_slide_at (n : Z) (row : SessionModel.t) (i : nat) (s : SlideModel.t) :
  SessionModel.slides row !! i = Some s ->
  SlideModel.slide_number s = n ->
  (forall j t, SessionModel.slides row !! j = Some t ->
               SlideModel.slide_number t = n -> j = i) ->
  find_slide n (_db_session_to_schema row) = Some (slide_to_schema s).
Proof.
  intros Hs Hn Huniq. unfold find_slide.
  cbn [_db_session_to_schema SessionData.slides].
  assert (E : list_find (fun slide => SlideWithHistory.slide_number slide = n)
                        (slide_to_schema <$> SessionModel.slides row)
              = Some (i, slide_to_schema s)).
  { apply list_find_Some. split; [by rewrite list_lookup_fmap, Hs|]. split; [done|].
    intros j y Hj Hlt Hy. rewrite list_lookup_fmap in Hj.
    destruct (SessionModel.slides row !! j) as [t|] eqn:Ht; [|done].
    simpl in Hj. inversion Hj; subst. simpl in Hy.
    specialize (Huniq j t Ht Hy). lia. }
  by rewrite E.
Qed.

(** What the commit of a rewritten slide and the reload of its session
    amount to. *)
Lemma commit_refresh (session_id : string) (n : Z) (sm : SessionManager) (i : nat)
    (db_slide updated : SlideModel.t) :
  get_slide (db sm) session_id n = Py.Ok (Some (i, db_slide)) ->
  SlideModel.slide_number updated = n ->
  exists session,
    get_session_by_uuid (db sm) session_id = Some session
    /\ SessionModel.slides session !! i = Some db_slide
    /\ let stored := with_slides session (<[i := updated]> (SessionModel.slides session)) in
       let d := commit_slide (db sm) session_id i updated in
       d !! session_id = Some stored
       /\ (forall k, k <> session_id -> d !! k = db sm !! k)
       /\ refresh session_id (with_db d sm)
          = (Some (_db_session_to_schema stored),
             cache session_id (_db_session_to_schema stored) (with_db d sm))
       /\ find_slide n (_db_session_to_schema stored) = Some (slide_to_schema updated).
Proof.
  intros Hslide Hn.
  destruct (get_slide_some _ _ _ _ _ Hslide) as (session & Hd & Hi & Hni & Huniq).
  exists session. split; [done|]. split; [done|]. cbn zeta.
  assert (Hstored : commit_slide (db sm) session_id i updated !! session_id
                    = Some (with_slides session (<[i := updated]> (SessionModel.slides session)))).
  { unfold commit_slide, Database in *. by rewrite lookup_alter_eq, Hd. }
  split; [done|]. split.
  { intros k Hk. unfold commit_slide, Database in *. by rewrite lookup_alter_ne. }
  split. { by apply refresh_some. }
  apply (find_slide_at n _ i).
  - cbn [with_slides SessionModel.slides]. apply list_lookup_insert_eq.
    by apply lookup_lt_Some in Hi.
  - done.
  - cbn [with_slides SessionModel.slides]. intros j t Hj Ht.
    destruct (decide (j = i)) as [->|Hne]; [done|].
    rewrite list_lookup_insert_ne in Hj by done. by apply (Huniq j t).
Qed.

(** X19. A successful [update_slide] or [rollback_slide] of the session manager
    rewrites one slide of one session: the database holds the session with
    the slide replaced at its position by the one [update_slide_content]
    or [rollback_slide_version] makes, the other sessions are as they
    were, the call returns the schema of the new slide, and the session
    the manager then hands out is the one just stored. *)
Theorem slide_operations_rewrite_one_slide
    (now : Z) (session_id : string) (slide_number : Z) (sm : SessionManager)
    (i : nat) (db_slide : SlideModel.t)
    (Hslide : get_slide (db sm) session_id slide_number = Py.Ok (Some (i, db_slide))) :
  exists session,
    get_session_by_uuid (db sm) session_id = Some session
    /\ SessionModel.slides session !! i = Some db_slide
    /\ (forall new_version,
          let updated :=
            update_slide_content now db_slide
              (SlideVersion.title new_version) (SlideVersion.content new_version)
              (SlideVersion.speaker_notes new_version) (SlideVersion.instruction new_version) in
          let stored := with_slides session (<[i := updated]> (SessionModel.slides session)) in
          let out := update_slide now session_id slide_number new_version sm in
          out.1 = Py.Ok (Some (slide_to_schema updated))
          /\ get_session_by_uuid (db out.2) session_id = Some stored
          /\ (forall k, k <> session_id -> db out.2 !! k = db sm !! k)
          /\ get_session session_id out.2 = (Some (_db_session_to_schema stored), out.2))
    /\ (forall version_index rolled,
          rollback_slide_version now db_slide version_index = Some rolled ->
          let stored := with_slides session (<[i := rolled]> (SessionModel.slides session)) in
          let out := rollback_slide now session_id slide_number version_index sm in
          out.1 = Py.Ok (Some (slide_to_schema rolled))
          /\ get_session_by_uuid (db out.2) session_id = Some stored
          /\ (forall k, k <> session_id -> db out.2 !! k = db sm !! k)
          /\ get_session session_id out.2 = (Some (_db_session_to_schema stored), out.2)).
Proof.
  destruct (get_slide_some _ _ _ _ _ Hslide) as (session & Hd & Hi & Hni & Huniq).
  exists session. split; [done|]. split; [done|]. split.
  - intros new_version. cbn zeta.
    set (updated := update_slide_content now db_slide _ _ _ _).
    destruct (commit_refresh session_id slide_number sm i db_slide updated Hslide Hni)
      as (session' & Hd' & _ & Hstored & Hframe & Hrefresh & Hfind).
    unfold get_session_by_uuid in Hd'. rewrite Hd in Hd'. inversion Hd'; subst session'.
    unfold update_slide. rewrite Hslide. fold updated. rewrite Hrefresh.
    cbn [fst snd mbind option_bind]. rewrite Hfind.
    split; [done|]. split; [done|]. split; [done|].
    unfold get_session, cache. cbn [sessions]. by rewrite lookup_insert_eq.
  - intros version_index rolled Hrolled. cbn zeta.
    assert (Hn : SlideModel.slide_number rolled = slide_number).
    { unfold rollback_slide_version in Hrolled.
      destruct ((version_index <? 0)
                || (Z.of_nat (length (SlideModel.versions db_slide)) <=? version_index));
        [done|].
      destruct (SlideModel.versions db_slide !! Z.to_nat version_index); [|done].
      inversion Hrolled; subst. done. }
    destruct (commit_refresh session_id slide_number sm i db_slide rolled Hslide Hn)
      as (session' & Hd' & _ & Hstored & Hframe & Hrefresh & Hfind).
    unfold get_session_by_uuid in Hd'. rewrite Hd in Hd'. inversion Hd'; subst session'.
    unfold rollback_slide. rewrite Hslide, Hrolled, Hrefresh.
    cbn [fst snd mbind option_bind]. rewrite Hfind.
    split; [done|]. split; [done|]. split; [done|].
    unfold get_session, cache. cbn [sessions]. by rewrite lookup_insert_eq.
Qed.

(** ** The cache and the database *)









End SessionStore.

(* ===================================================================== *)
(** * The session manager: failures, unknown sessions and outlines *)
(* ===================================================================== *)

Section SessionEdges.
Import crud session_service.




(** X22. For a session identifier that is neither in the database nor in the
    cache, the session manager changes nothing: [get_session],
    [update_session], [add_chat_message] and [update_slide] return [None],
    [delete_session] returns [False], and [update_slide] of the slide
    service raises [ValueError] "Session ... not found". *)
Theorem unknown_session_changes_nothing
    (session_id : string) (sm : SessionManager)
    (Hdb : get_session_by_uuid (db sm) session_id = None)
    (Hcache : sessions sm !! session_id = None) :
  get_session session_id sm = (None, sm)
  /\ (forall now topic slides context_memory template tone,
        update_session now session_id topic slides context_memory template tone sm
        = (Py.Ok None, sm))
  /\ (forall now role content related_slide,
        add_chat_message now session_id role content related_slide sm = (None, sm))
  /\ (forall now slide_number new_version,
        update_slide now session_id slide_number new_version sm = (Py.Ok None, sm))
  /\ delete_session session_id sm = (false, sm)
  /\ (forall llm now slide_number instruction,
        slide_service.update_slide llm now session_id slide_number instruction sm
        = (Py.Raise (Py.ValueError ("Session " +:+ session_id +:+ " not found")), sm)).
Proof.
  assert (Hget : get_session session_id sm = (None, sm)).
  { unfold get_session, refresh. by rewrite Hcache, Hdb. }
  split; [done|]. split. { intros. unfold update_session. by rewrite Hdb. }
  split. { intros. unfold add_chat_message. by rewrite Hdb. }
  split. { intros. unfold update_slide, get_slide. by rewrite Hdb. }
  split.
  { unfold delete_session, crud.delete_session. rewrite Hdb.
    rewrite delete_id by done. by destruct sm. }
  intros. unfold slide_service.update_slide. by rewrite Hget.
Qed.

(** X23. After [delete_session] the session is gone from the cache and from the
    database, so that [get_session] answers [None]; the call returns
    [True] exactly when the database held the session; the other sessions
    are as they were, in the database and in the cache. *)
Theorem deleted_session_is_gone (session_id : string) (sm : SessionManager) :
  let out := delete_session session_id sm in
  (out.1 = true <-> is_Some (get_session_by_uuid (db sm) session_id))
  /\ get_session session_id out.2 = (None, out.2)
  /\ get_session_by_uuid (db out.2) session_id = None
  /\ (forall k, k <> session_id ->
        get_session_by_uuid (db out.2) k = get_session_by_uuid (db sm) k
        /\ sessions out.2 !! k = sessions sm !! k).
Proof.
  cbn zeta. unfold delete_session, crud.delete_session.
  destruct (get_session_by_uuid (db sm) session_id) as [row|] eqn:E;
    cbn [fst snd]; unfold get_session, refresh, get_session_by_uuid, Database in *;
    cbn [sessions db].
  - rewrite !lookup_delete_eq. split; [split; [by eexists|done]|].
    split; [done|]. split; [done|]. intros k Hk. by rewrite !lookup_delete_ne.
  - rewrite lookup_delete_eq, E. split; [split; [done|by intros [? ?]]|].
    split; [done|]. split; [done|]. intros k Hk. by rewrite lookup_delete_ne.
Qed.




End SessionEdges.

(* ===================================================================== *)
(** * The slide service, from the request to the chat *)
(* ===================================================================== *)

Section SlideService.
Import crud session_service.








End SlideService.

(* ===================================================================== *)
(** * The further properties on concrete inputs *)
(* ===================================================================== *)

Section MoreWitnesses.
Import examples.

(** ** Jobs *)

Lemma waiting_fresh : job_service.ops_fresh job_service.init two_jobs.
Proof. vm_compute. repeat split; reflexivity. Defined.

Lemma waiting_ok : job_service.lifecycle_ok waiting.
Proof. apply lifecycle_ok_run_ops; [exact waiting_fresh | apply lifecycle_ok_init]. Defined.

Lemma both_ran_ok : job_service.lifecycle_ok both_ran.
Proof.
  apply lifecycle_ok_run_ops; [exact (conj I (conj I I)) | exact waiting_ok].
Defined.

Lemma execution_touches_one_job_witness :
  exists job,
    job_service.jobs waiting !! "job-1" = Some job
    /\ job_service.jobs (job_service._execute_job 7 job waiting).2 !! "job-2"
       = job_service.jobs waiting !! "job-2".
Proof.
  eexists. split; [reflexivity|].
  match goal with |- context [job_service._execute_job 7 ?job waiting] =>
    destruct (execution_touches_one_job 7 job waiting "job-2") as [H _] end.
  - vm_compute. intros H; discriminate.
  - exact H.
Defined.

Lemma status_never_goes_back_witness :
  exists job,
    job_service.jobs
      (job_service.run_ops
         [job_service.UpdateProgress "job-1" 55 "late report";
          job_service.Iteration (job_service.At 11)] both_ran) !! "job-1" = Some job
    /\ job_service.status job = job_service.COMPLETED
    /\ job_service.completed_at job = Some 7.
Proof.
  pose proof both_ran_ok as Hok.
  eassert (Hjob : job_service.jobs both_ran !! "job-1" = Some _) by reflexivity.
  destruct (status_never_goes_back
              [job_service.UpdateProgress "job-1" 55 "late report";
               job_service.Iteration (job_service.At 11)] both_ran "job-1" _ Hok
              (conj I (conj I I)) Hjob) as (job' & E & _ & Hkeep).
  exists job'. split; [exact E|].
  destruct Hkeep as (H1 & _ & H2 & _); [left; reflexivity|].
  split; [rewrite H1; reflexivity | rewrite H2; reflexivity].
Defined.

Lemma idle_loop_changes_nothing_witness :
  job_service.loop [job_service.At 12; job_service.At 13; job_service.Cancel]
                   (job_service.process_jobs [] both_ran)
  = job_service.process_jobs [] both_ran
  /\ job_service.loop [job_service.At 7] (job_service.stop waiting)
     = job_service.stop waiting.
Proof.
  destruct (idle_loop_changes_nothing
              [job_service.At 12; job_service.At 13; job_service.Cancel]
              (job_service.process_jobs [] both_ran)) as (H & _ & _).
  destruct (idle_loop_changes_nothing [job_service.At 7] waiting) as (_ & H' & _).
  split; [apply H; reflexivity | exact H'].
Defined.

Lemma jobs_start_in_submission_order_witness :
  exists job,
    job_service.jobs (job_service.loop [job_service.At 7; job_service.At 9]
                        (job_service.process_jobs [] waiting)) !! "job-1" = Some job
    /\ job_service.status job <> job_service.PENDING.
Proof.
  eapply (jobs_start_in_submission_order [job_service.At 7; job_service.At 9]
            (job_service.process_jobs [] waiting) [] "job-1" "job-2" ["job-2"]).
  - exact waiting_ok.
  - reflexivity.
  - left.
  - split; [reflexivity|]. vm_compute. intros H; discriminate.
Defined.

Lemma cleanup_removes_old_finished_jobs_only_witness :
  job_service.jobs (job_service.cleanup_old_jobs (7 + 24 * 3600 + 1) both_ran) !! "job-1"
  = None
  /\ exists job,
       job_service.jobs (job_service.cleanup_old_jobs (7 + 24 * 3600 + 1) both_ran) !! "job-2"
       = Some job.
Proof.
  destruct (cleanup_removes_old_finished_jobs_only (7 + 24 * 3600 + 1) both_ran both_ran_ok)
    as (_ & H & _).
  eassert (H1 : job_service.jobs both_ran !! "job-1" = Some _) by reflexivity.
  eassert (H2 : job_service.jobs both_ran !! "job-2" = Some _) by reflexivity.
  split.
  - destruct (H "job-1" _ H1) as (finished & Hf & _ & Hgone); [left; reflexivity|].
    apply Hgone. vm_compute in Hf. injection Hf as <-. vm_compute. reflexivity.
  - destruct (H "job-2" _ H2) as (finished & Hf & Hkept & _); [right; reflexivity|].
    eexists. apply Hkept. vm_compute in Hf. injection Hf as <-. vm_compute.
    intros Hc; discriminate.
Defined.

Lemma reachable_managers_keep_their_books_witness :
  job_service.lifecycle_ok
    (job_service.run_ops
       (two_jobs ++ [job_service.Iteration (job_service.At 7);
                     job_service.UpdateProgress "job-1" 55 "late report"])
       job_service.init).
Proof.
  apply (reachable_managers_keep_their_books
           (two_jobs ++ [job_service.Iteration (job_service.At 7);
                         job_service.UpdateProgress "job-1" 55 "late report"])).
  vm_compute. repeat split; reflexivity.
Defined.

(** ** Slides *)

Lemma history_only_grows_witness :
  length (SlideModel.versions
            (crud.apply_ops [crud.Rollback 40 0;
                             crud.Append 50 "Results, bolder" ["Revenue!"] None
                                         (Some "make it bolder");
                             crud.Rollback 60 9] slide3)) = 4%nat.
Proof.
  destruct (history_only_grows slide3
              [crud.Rollback 40 0;
               crud.Append 50 "Results, bolder" ["Revenue!"] None (Some "make it bolder");
               crud.Rollback 60 9] 70 "unused" [] None None) as (H & _).
  - unfold slide3. apply (proj1 (apply_ops_keeps _ _ (create_slide_numbered _ _ _ _ _ _))).
  - rewrite H. reflexivity.
Defined.

Lemma rollbacks_compose_witness :
  exists rolled,
    crud.rollback_slide_version 40 slide3 0 = Some rolled
    /\ crud.rollback_slide_version 50 rolled 1 = crud.rollback_slide_version 50 slide3 1.
Proof.
  eexists. split; [reflexivity|].
  eapply (proj1 (rollbacks_compose slide3 _ 40 50 0 1 _)).
  Unshelve. reflexivity.
Defined.

(** ** Sessions *)

Lemma get_slide_finds_the_numbered_slide_witness :
  crud.get_slide (session_service.db manager) "s-1" 1 = Py.Ok (Some (0%nat, slide3))
  /\ crud.get_slide (session_service.db manager) "s-1" 2 = Py.Ok None.
Proof.
  destruct (get_slide_finds_the_numbered_slide (session_service.db manager) "s-1"
              stored_session 1 eq_refl) as [H1 _].
  destruct (get_slide_finds_the_numbered_slide (session_service.db manager) "s-1"
              stored_session 2 eq_refl) as [H2 _].
  assert (Hnd : NoDup (SlideModel.slide_number <$> SessionModel.slides stored_session)).
  { apply NoDup_singleton. }
  split.
  - apply (proj1 (H1 Hnd)). split; reflexivity.
  - apply (proj2 (H2 Hnd)). repeat constructor. vm_compute. intros H; discriminate.
Defined.

Lemma manager_slide :
  crud.get_slide (session_service.db manager) "s-1" 1 = Py.Ok (Some (0%nat, slide3)).
Proof. reflexivity. Defined.

Lemma slide_operations_rewrite_one_slide_witness :
  exists rolled,
    crud.rollback_slide_version 50 slide3 1 = Some rolled
    /\ (session_service.rollback_slide 50 "s-1" 1 1 manager).1
       = Py.Ok (Some (session_service.slide_to_schema rolled)).
Proof.
  destruct (slide_operations_rewrite_one_slide 50 "s-1" 1 manager 0%nat slide3 manager_slide)
    as (session & _ & _ & _ & Hrollback).
  eexists. split; [reflexivity|].
  eapply (proj1 (Hrollback 1 _ _)).
  Unshelve. reflexivity.
Defined.





Lemma unknown_session_changes_nothing_witness :
  session_service.get_session "s-2" manager = (None, manager)
  /\ slide_service.update_slide llm 50 "s-2" 1 "make it shorter" manager
     = (Py.Raise (Py.ValueError "Session s-2 not found"), manager).
Proof.
  destruct (unknown_session_changes_nothing "s-2" manager eq_refl eq_refl)
    as (H1 & _ & _ & _ & _ & H2).
  split; [exact H1 | apply H2].
Defined.

Lemma deleted_session_is_gone_witness :
  (session_service.delete_session "s-1" manager).1 = true
  /\ crud.get_session_by_uuid
       (session_service.db (session_service.delete_session "s-2" manager).2) "s-1"
     = Some stored_session.
Proof.
  destruct (deleted_session_is_gone "s-1" manager) as (H1 & _).
  destruct (deleted_session_is_gone "s-2" manager) as (_ & _ & _ & H2).
  split.
  - apply H1. eexists. reflexivity.
  - destruct (H2 "s-1") as [H _]; [intros H; discriminate|]. rewrite H. reflexivity.
Defined.





(** ** Providers and router *)

Lemma unavailable_provider_answers_without_calling_witness :
  let st := base_provider.mark_error "backend down" base_provider.init_state in
  groq_provider.generate_text (post_text "Revenue grew.") text_req st
  = (provider_common.failure "Groq" "llama-3.1-8b-instant" "backend down", st)
  /\ gemini_provider.generate_json (post_text fenced) loads json_req st
     = (provider_common.failure "Gemini" "gemini-2.0-flash" "backend down", st).
Proof.
  cbn zeta.
  destruct (unavailable_provider_answers_without_calling (post_text "Revenue grew.") loads
              text_req json_req
              (base_provider.mark_error "backend down" base_provider.init_state) eq_refl)
    as (H1 & _).
  destruct (unavailable_provider_answers_without_calling (post_text fenced) loads
              text_req json_req
              (base_provider.mark_error "backend down" base_provider.init_state) eq_refl)
    as (_ & _ & _ & H2).
  split; [exact H1 | exact H2].
Defined.

Lemma provider_answers_are_well_formed_witness :
  loads (base_provider.content
           (groq_provider.generate_json (post_text fenced) loads json_req
                                        base_provider.init_state).1)
  = http.JsonValue
  /\ base_provider.is_available
       (groq_provider.generate_text (post_status 500 None) text_req
                                    base_provider.init_state).2 = false.
Proof.
  destruct (provider_answers_are_well_formed (post_text fenced) loads text_req json_req
              base_provider.init_state) as (_ & (_ & H & _) & _).
  destruct (provider_answers_are_well_formed (post_status 500 None) loads text_req json_req
              base_provider.init_state) as ((_ & H' & _) & _).
  split.
  - destruct H as (_ & _ & Hj); [reflexivity | exact Hj].
  - rewrite H'. reflexivity.
Defined.

Lemma cooldown_lasts_one_minute_witness :
  (router._is_in_cooldown 1060 "Groq" (router._set_cooldown 1000 "Groq" ∅)).1 = true
  /\ (router._is_in_cooldown 1061 "Groq" (router._set_cooldown 1000 "Groq" ∅)).2
     = delete "Groq" (∅ : gmap string Z).
Proof.
  destruct (cooldown_lasts_one_minute 1000 1060 "Groq" "Gemini" ∅) as (H1 & _).
  destruct (cooldown_lasts_one_minute 1000 1061 "Groq" "Gemini" ∅) as (_ & _ & H2 & _).
  split.
  - rewrite H1. reflexivity.
  - destruct H2 as [H _]; [lia | exact H].
Defined.

Lemma router_call_touches_candidates_only_witness :
  exists p,
    router.providers router_later !! 0%nat = Some p
    /\ router.providers
         (router.router_after (router.generate (router.Text text_req) 1030 router_later))
       !! 0%nat = Some p.
Proof.
  destruct (router_call_touches_candidates_only (router.Text text_req) 1030 router_later)
    as (_ & H & _).
  eexists. split; [reflexivity|].
  apply H; [reflexivity|]. right. reflexivity.
Defined.

Lemma unselectable_provider_stays_out_witness :
  exists p,
    router.providers router_later !! 0%nat = Some p
    /\ router.providers
         (router.serve [(router.Text text_req, 2000); (router.Json json_req, 3000)]
                       router_later) !! 0%nat = Some p.
Proof.
  eexists. split; [reflexivity|].
  eapply (proj1 (unselectable_provider_stays_out router_later 0%nat _
                   [(router.Text text_req, 2000); (router.Json json_req, 3000)] _ _)).
  Unshelve.
  - reflexivity.
  - left. reflexivity.
Defined.

Lemma tried_provider_state_is_written_back_witness :
  router._cooldowns
    (router.router_after (router.generate (router.Text text_req) 1000 router_failover))
  !! "Groq" = Some 1060.
Proof.
  destruct (tried_provider_state_is_written_back (router.Text text_req) 1000 router_failover
              0%nat 0%nat groq_429
              (Py.Ok (provider_common.failure "Groq" "llama-3.1-8b-instant"
                        "Rate limit exceeded"))
              (base_provider.mark_rate_limited "Rate limit exceeded" base_provider.init_state))
    as (_ & _ & H).
  - reflexivity.
  - intros j q Hj. lia.
  - reflexivity.
  - destruct (H _ eq_refl eq_refl eq_refl) as (Hc & _). exact Hc.
Defined.

Lemma no_candidate_no_call_witness :
  let alone := router.init groq_429
                 (gemini_provider.GeminiProvider (post_text "unused") loads None None) in
  let limited := router.router_after (router.generate (router.Text text_req) 1000 alone) in
  router.response (router.generate (router.Json json_req) 1030 limited)
  = router.none_available.
Proof.
  cbn zeta.
  apply (no_candidate_no_call (router.Json json_req) 1030
           (router.router_after
              (router.generate (router.Text text_req) 1000
                 (router.init groq_429
                    (gemini_provider.GeminiProvider (post_text "unused") loads None None))))).
  reflexivity.
Defined.

Lemma router_registers_configured_providers_witness :
  base_provider.name
  <$> router.providers
        (router.init
           (groq_provider.GroqProvider (post_text "unused") loads None None)
           (gemini_provider.GeminiProvider (post_text "Revenue grew.") loads None
                                           (Some "g-key")))
  = ["Gemini"]
  /\ router.response
       (router.generate (router.Text text_req) 0
          (router.init
             (groq_provider.GroqProvider (post_text "unused") loads (Some "") None)
             (gemini_provider.GeminiProvider (post_text "unused") loads None None)))
     = router.none_available.
Proof.
  destruct (router_registers_configured_providers (post_text "unused")
              (post_text "Revenue grew.") loads loads None None None (Some "g-key"))
    as (H1 & _).
  destruct (router_registers_configured_providers (post_text "unused") (post_text "unused")
              loads loads (Some "") None None None) as (_ & _ & _ & _ & H2).
  split.
  - rewrite H1. reflexivity.
  - apply H2; reflexivity.
Defined.
End MoreWitnesses.
